(** * caffeine-ng: the inhibition core ([caffeine/core.py])

    A shallow embedding of the [Caffeine] class: the object's attributes are a
    record, the timer threads it creates live in a store (the attribute
    [self.timer] is a reference into it), and every method is a computation
    in a state-and-exception monad that also records, in order, the calls the
    method makes to the outside (logging, signal emission, D-Bus, the shell,
    the notification daemon, GLib sources and timer threads).

    What the outside answers is given by an environment [Env], fixed for the
    duration of one method call: the names on the session bus, the running
    processes, the active window, and whether a D-Bus or notification call
    returns or raises.  [subprocess.getoutput] returns the output of the
    command whatever its exit status, so shell calls never raise;
    [dbus.SessionBus()] and [get_object] are taken to succeed, while the
    proxies' method calls either return or raise [DBusException].
    [gettext] is the identity (no translation catalogue). *)

From Stdlib Require Import ZArith String DecimalString Bool Lia.
From stdpp Require Import base list strings.

(** ** Values *)

(** Python's [str] on an integer. *)
Definition str (n : Z) : string := NilZero.string_of_int (Z.to_int n).

(** [gettext.gettext], imported as [_]. *)
Definition gettext (s : string) : string := s.

(** The newline escape of Python's string literals. *)
Definition LF : string := String (Ascii.ascii_of_nat 10) EmptyString.

Inductive Exn :=
| DBusException (msg : string)
| AttributeError (msg : string)
| TypeError (msg : string)
| GLibError (msg : string).

Definition exn_str (e : Exn) : string :=
  match e with
  | DBusException m | AttributeError m | TypeError m | GLibError m => m
  end.

Inductive Result (A : Type) :=
| Ok (a : A)
| Raise (e : Exn).
Arguments Ok {A} a.
Arguments Raise {A} e.

(** The three D-Bus objects the adapters talk to:
    [org.gnome.SessionManager], [org.freedesktop.ScreenSaver] and
    [org.freedesktop.PowerManagement.Inhibit]. *)
Inductive Proxy := SessionManager | ScreenSaver | PowerManagement.

Inductive Icon := empty_cup_icon | full_cup_icon.

Inductive Level := DEBUG | INFO | ERROR.

(** Calls to the outside, in the order they are made. *)
Inductive Effect :=
| Log (lvl : Level) (msg : string)
| Stdout (msg : string)               (* print *)
| Emit (active : bool) (status : string)   (* self.emit("activation-toggled", ..) *)
| Shell (cmd : string)                      (* subprocess.getoutput *)
| Inhibit (p : Proxy)
| UnInhibit (p : Proxy) (cookie : Z)
| NotifyShow (title message : string) (icon : Icon)
| TimerStart (id : nat) (seconds : Z)
| TimerCancel (id : nat)
| TimeoutAdd (ms : Z)
| SourceRemove (id : Z).

(** A [threading.Timer] created by [timed_activation]: its [interval], its
    thread [name], the argument list [args=[note]] of its callback, and its
    [finished] event (set by [cancel], and by [run] once the callback is
    over). *)
Record Timer := {
  interval : Z;
  name : string;
  args : bool;
  finished : bool;
}.

Definition Timer_set_name (s : string) (t : Timer) : Timer :=
  {| interval := interval t; name := s; args := args t; finished := finished t |}.

Definition Timer_set_finished (t : Timer) : Timer :=
  {| interval := interval t; name := name t; args := args t; finished := true |}.

(** The attributes of a [Caffeine] object.  The two name-mangled flags keep
    their names without the leading underscores; [ssProxy] and [susuProxy]
    are [None] as long as the attribute has not been assigned. *)
Record Caffeine := {
  status_string : string;
  screensaverAndPowersavingType : option string;
  inhibition_activated : bool;
  inhibition_successful : bool;
  auto_activated : bool;
  screenSaverCookie : option Z;
  powerManagementCookie : option Z;
  timer : option nat;
  inhibit_id : option Z;
  note : option (string * string * Icon);
  ssProxy : option Proxy;
  susuProxy : option Proxy;
}.

Definition set_status_string (v : string) (c : Caffeine) : Caffeine :=
  {| status_string := v;
     screensaverAndPowersavingType := screensaverAndPowersavingType c;
     inhibition_activated := inhibition_activated c;
     inhibition_successful := inhibition_successful c;
     auto_activated := auto_activated c;
     screenSaverCookie := screenSaverCookie c;
     powerManagementCookie := powerManagementCookie c;
     timer := timer c; inhibit_id := inhibit_id c; note := note c;
     ssProxy := ssProxy c; susuProxy := susuProxy c |}.

Definition set_screensaverAndPowersavingType (v : option string) (c : Caffeine) : Caffeine :=
  {| status_string := status_string c;
     screensaverAndPowersavingType := v;
     inhibition_activated := inhibition_activated c;
     inhibition_successful := inhibition_successful c;
     auto_activated := auto_activated c;
     screenSaverCookie := screenSaverCookie c;
     powerManagementCookie := powerManagementCookie c;
     timer := timer c; inhibit_id := inhibit_id c; note := note c;
     ssProxy := ssProxy c; susuProxy := susuProxy c |}.

Definition set_inhibition_activated (v : bool) (c : Caffeine) : Caffeine :=
  {| status_string := status_string c;
     screensaverAndPowersavingType := screensaverAndPowersavingType c;
     inhibition_activated := v;
     inhibition_successful := inhibition_successful c;
     auto_activated := auto_activated c;
     screenSaverCookie := screenSaverCookie c;
     powerManagementCookie := powerManagementCookie c;
     timer := timer c; inhibit_id := inhibit_id c; note := note c;
     ssProxy := ssProxy c; susuProxy := susuProxy c |}.

Definition set_inhibition_successful (v : bool) (c : Caffeine) : Caffeine :=
  {| status_string := status_string c;
     screensaverAndPowersavingType := screensaverAndPowersavingType c;
     inhibition_activated := inhibition_activated c;
     inhibition_successful := v;
     auto_activated := auto_activated c;
     screenSaverCookie := screenSaverCookie c;
     powerManagementCookie := powerManagementCookie c;
     timer := timer c; inhibit_id := inhibit_id c; note := note c;
     ssProxy := ssProxy c; susuProxy := susuProxy c |}.

Definition set_auto_activated (v : bool) (c : Caffeine) : Caffeine :=
  {| status_string := status_string c;
     screensaverAndPowersavingType := screensaverAndPowersavingType c;
     inhibition_activated := inhibition_activated c;
     inhibition_successful := inhibition_successful c;
     auto_activated := v;
     screenSaverCookie := screenSaverCookie c;
     powerManagementCookie := powerManagementCookie c;
     timer := timer c; inhibit_id := inhibit_id c; note := note c;
     ssProxy := ssProxy c; susuProxy := susuProxy c |}.

Definition set_screenSaverCookie (v : option Z) (c : Caffeine) : Caffeine :=
  {| status_string := status_string c;
     screensaverAndPowersavingType := screensaverAndPowersavingType c;
     inhibition_activated := inhibition_activated c;
     inhibition_successful := inhibition_successful c;
     auto_activated := auto_activated c;
     screenSaverCookie := v;
     powerManagementCookie := powerManagementCookie c;
     timer := timer c; inhibit_id := inhibit_id c; note := note c;
     ssProxy := ssProxy c; susuProxy := susuProxy c |}.

Definition set_powerManagementCookie (v : option Z) (c : Caffeine) : Caffeine :=
  {| status_string := status_string c;
     screensaverAndPowersavingType := screensaverAndPowersavingType c;
     inhibition_activated := inhibition_activated c;
     inhibition_successful := inhibition_successful c;
     auto_activated := auto_activated c;
     screenSaverCookie := screenSaverCookie c;
     powerManagementCookie := v;
     timer := timer c; inhibit_id := inhibit_id c; note := note c;
     ssProxy := ssProxy c; susuProxy := susuProxy c |}.

Definition set_timer (v : option nat) (c : Caffeine) : Caffeine :=
  {| status_string := status_string c;
     screensaverAndPowersavingType := screensaverAndPowersavingType c;
     inhibition_activated := inhibition_activated c;
     inhibition_successful := inhibition_successful c;
     auto_activated := auto_activated c;
     screenSaverCookie := screenSaverCookie c;
     powerManagementCookie := powerManagementCookie c;
     timer := v; inhibit_id := inhibit_id c; note := note c;
     ssProxy := ssProxy c; susuProxy := susuProxy c |}.

Definition set_inhibit_id (v : option Z) (c : Caffeine) : Caffeine :=
  {| status_string := status_string c;
     screensaverAndPowersavingType := screensaverAndPowersavingType c;
     inhibition_activated := inhibition_activated c;
     inhibition_successful := inhibition_successful c;
     auto_activated := auto_activated c;
     screenSaverCookie := screenSaverCookie c;
     powerManagementCookie := powerManagementCookie c;
     timer := timer c; inhibit_id := v; note := note c;
     ssProxy := ssProxy c; susuProxy := susuProxy c |}.

Definition set_note (v : option (string * string * Icon)) (c : Caffeine) : Caffeine :=
  {| status_string := status_string c;
     screensaverAndPowersavingType := screensaverAndPowersavingType c;
     inhibition_activated := inhibition_activated c;
     inhibition_successful := inhibition_successful c;
     auto_activated := auto_activated c;
     screenSaverCookie := screenSaverCookie c;
     powerManagementCookie := powerManagementCookie c;
     timer := timer c; inhibit_id := inhibit_id c; note := v;
     ssProxy := ssProxy c; susuProxy := susuProxy c |}.

Definition set_ssProxy (v : option Proxy) (c : Caffeine) : Caffeine :=
  {| status_string := status_string c;
     screensaverAndPowersavingType := screensaverAndPowersavingType c;
     inhibition_activated := inhibition_activated c;
     inhibition_successful := inhibition_successful c;
     auto_activated := auto_activated c;
     screenSaverCookie := screenSaverCookie c;
     powerManagementCookie := powerManagementCookie c;
     timer := timer c; inhibit_id := inhibit_id c; note := note c;
     ssProxy := v; susuProxy := susuProxy c |}.

Definition set_susuProxy (v : option Proxy) (c : Caffeine) : Caffeine :=
  {| status_string := status_string c;
     screensaverAndPowersavingType := screensaverAndPowersavingType c;
     inhibition_activated := inhibition_activated c;
     inhibition_successful := inhibition_successful c;
     auto_activated := auto_activated c;
     screenSaverCookie := screenSaverCookie c;
     powerManagementCookie := powerManagementCookie c;
     timer := timer c; inhibit_id := inhibit_id c; note := note c;
     ssProxy := ssProxy c; susuProxy := v |}.

(** What the outside answers during one method call. *)
Record Env := {
  list_names : list string;                 (* bus.list_names() *)
  isProcessRunning : string -> bool;        (* utils.isProcessRunning *)
  get_process_list : list string;           (* process_manager.get_process_list() *)
  getActiveWindow : option (option (list string));
    (* no active window | a window and what getWmState says of it *)
  proxy_Inhibit : Proxy -> Result Z;        (* the cookie, or the call raises *)
  proxy_UnInhibit : Proxy -> Z -> Result unit;
  note_show : Result unit;                  (* self.note.show() *)
  timeout_add : Z;                          (* source id GObject.timeout_add returns *)
}.

(** The object, the timer threads created so far, and the calls made. *)
Record World := {
  self : Caffeine;
  timers : list Timer;
  trace : list Effect;
}.

(** ** The monad *)

Definition M (A : Type) : Type := Env -> World -> Result A * World.

Definition ret {A} (a : A) : M A := fun _ w => (Ok a, w).

Definition bind {A B} (m : M A) (f : A -> M B) : M B :=
  fun env w =>
    match m env w with
    | (Ok a, w') => f a env w'
    | (Raise e, w') => (Raise e, w')
    end.

Definition raise {A} (e : Exn) : M A := fun _ w => (Raise e, w).

(** [try: body  except Exception as e: handler e] *)
Definition try_except {A} (body : M A) (handler : Exn -> M A) : M A :=
  fun env w =>
    match body env w with
    | (Ok a, w') => (Ok a, w')
    | (Raise e, w') => handler e env w'
    end.

Definition ask : M Env := fun env w => (Ok env, w).

Definition get_self : M Caffeine := fun _ w => (Ok (self w), w).

Definition modify_self (f : Caffeine -> Caffeine) : M unit :=
  fun _ w => (Ok tt, {| self := f (self w); timers := timers w; trace := trace w |}).

Definition get_timers : M (list Timer) := fun _ w => (Ok (timers w), w).

Definition put_timers (ts : list Timer) : M unit :=
  fun _ w => (Ok tt, {| self := self w; timers := ts; trace := trace w |}).

Definition tell (e : Effect) : M unit :=
  fun _ w => (Ok tt, {| self := self w; timers := timers w; trace := trace w ++ [e] |}).

Definition lift_result {A} (r : Result A) : M A := fun _ w => (r, w).

Definition when (b : bool) (m : M unit) : M unit := if b then m else ret tt.

Declare Scope monad_scope.
Delimit Scope monad_scope with monad.
Notation "x <- m ;; k" := (bind m (fun x => k))
  (at level 100, m at next level, right associativity) : monad_scope.
Notation "m ;; k" := (bind m (fun _ => k))
  (at level 100, k at level 200, right associativity) : monad_scope.
Open Scope monad_scope.

(** ** External calls *)

Definition logging (lvl : Level) (msg : string) : M unit := tell (Log lvl msg).

Definition getoutput (cmd : string) : M unit := tell (Shell cmd).

Definition call_Inhibit (p : Proxy) : M Z :=
  tell (Inhibit p) ;;
  env <- ask ;;
  lift_result (proxy_Inhibit env p).

Definition call_UnInhibit (p : Proxy) (cookie : Z) : M unit :=
  tell (UnInhibit p cookie) ;;
  env <- ask ;;
  lift_result (proxy_UnInhibit env p cookie).

(** ** Timer threads *)

(** The timer object [self.timer] refers to.  References are only ever made
    by [Timer_new], so the last case is not reachable from the constructor. *)
Definition deref (i : nat) : M Timer :=
  ts <- get_timers ;;
  match ts !! i with
  | Some t => ret t
  | None => raise (AttributeError "dangling timer reference")
  end.

(** [threading.Timer.cancel] *)
Definition Timer_cancel (i : nat) : M unit :=
  t <- deref i ;;
  tell (TimerCancel i) ;;
  ts <- get_timers ;;
  put_timers (<[i := Timer_set_finished t]> ts).

(** [self.timer = threading.Timer(time, self._deactivate, args=[note]);
     self.timer.name = "Active"; self.timer.start()] *)
Definition Timer_new (time : Z) (note : bool) : M unit :=
  ts <- get_timers ;;
  put_timers (ts ++ [{| interval := time; name := "Active"; args := note; finished := false |}]) ;;
  modify_self (set_timer (Some (length ts))) ;;
  tell (TimerStart (length ts) time).

(** A timer thread is live while its [finished] event is not set. *)
Definition live (t : Timer) : bool := negb (finished t).

Definition live_timers (w : World) : list Timer := filter (fun t => live t = true) (timers w).

(** ** The methods of [Caffeine] *)

(** [__init__]: the attributes of a fresh object; the constructor registers
    the auto-activation poll and prints the (empty) status string. *)
Definition Caffeine_init : Caffeine :=
  {| status_string := EmptyString;
     screensaverAndPowersavingType := None;
     inhibition_activated := false;
     inhibition_successful := false;
     auto_activated := false;
     screenSaverCookie := None;
     powerManagementCookie := None;
     timer := None;
     inhibit_id := None;
     note := None;
     ssProxy := None;
     susuProxy := None |}.

Definition init_world : World :=
  {| self := Caffeine_init; timers := []; trace := [TimeoutAdd 10000; Stdout EmptyString] |}.

Definition get_activated : M bool :=
  c <- get_self ;; ret (inhibition_activated c).

(** [_notify(message, icon, title="Caffeine")].  The [finally: return False]
    makes the method return [False] on every path. *)
Definition _notify (message : string) (icon : Icon) : M bool :=
  let title := "Caffeine" in
  try_except
    (c <- get_self ;;
     match note c with
     | Some _ => modify_self (set_note (Some (title, message, icon)))   (* note.update *)
     | None => modify_self (set_note (Some (title, message, icon)))     (* Notify.Notification *)
     end ;;
     c <- get_self ;;
     match screenSaverCookie c with
     | Some cookie =>
         when (inhibition_successful c)
           match ssProxy c with
           | Some p => call_UnInhibit p cookie
           | None => raise (AttributeError "'Caffeine' object has no attribute 'ssProxy'")
           end
     | None => ret tt
     end ;;
     tell (NotifyShow title message icon) ;;
     env <- ask ;;
     lift_result (note_show env) ;;
     c <- get_self ;;
     match screenSaverCookie c with
     | Some _ =>
         when (inhibition_successful c)
           match ssProxy c with
           | Some p =>
               k <- call_Inhibit p ;;
               modify_self (set_screenSaverCookie (Some k))
           | None => raise (AttributeError "'Caffeine' object has no attribute 'ssProxy'")
           end
     | None => ret tt
     end ;;
     ret false)
    (fun e =>
       logging ERROR ("Exception occurred:" +:+ LF +:+ " " +:+ exn_str e) ;;
       logging ERROR ("Exception occurred attempting to display " +:+
                      "message:" +:+ LF +:+ message) ;;
       ret false).

(** Python's [x in names]. *)
Definition contains (x : string) (names : list string) : bool :=
  bool_decide (x ∈ names).

(** The tag [_detectScreensaverAndPowersavingType] assigns. *)
Definition detected_type (env : Env) : string :=
  if contains "org.gnome.SessionManager" (list_names env) then "Gnome3"
  else if contains "org.freedesktop.ScreenSaver" (list_names env) &&
          contains "org.freedesktop.PowerManagement.Inhibit" (list_names env) then "KDE"
  else if isProcessRunning env "xscreensaver" then "XSS+DPMS"
  else "DPMS".

Definition _detectScreensaverAndPowersavingType : M unit :=
  logging DEBUG "Attempting to detect screensaver/powersaving type..." ;;
  env <- ask ;;
  modify_self (set_screensaverAndPowersavingType (Some (detected_type env))) ;;
  c <- get_self ;;
  logging INFO ("Successfully detected screensaver and powersaving type: " +:+
                match screensaverAndPowersavingType c with
                | Some t => t
                | None => "None"
                end).

Definition _toggleDPMS : M unit :=
  c <- get_self ;;
  if inhibition_successful c then
    (getoutput "xset +dpms" ;;
     getoutput "xset s on")
  else
    (getoutput "xset -dpms" ;;
     getoutput "xset s off").

Definition _toggleXSS : M unit :=
  c <- get_self ;;
  if inhibition_successful c then
    match inhibit_id c with
    | Some i => tell (SourceRemove i)
    | None => ret tt
    end
  else
    (env <- ask ;;
     tell (TimeoutAdd 50000) ;;
     modify_self (set_inhibit_id (Some (timeout_add env)))).

Definition _toggleXSSAndDPMS : M unit :=
  _toggleXSS ;;
  _toggleDPMS.

Definition _toggleGnome3 : M unit :=
  _toggleDPMS ;;
  modify_self (set_susuProxy (Some SessionManager)) ;;
  c <- get_self ;;
  if inhibition_successful c then
    match screenSaverCookie c with
    | Some cookie => call_UnInhibit SessionManager cookie
    | None => ret tt
    end
  else
    (k <- call_Inhibit SessionManager ;;
     modify_self (set_screenSaverCookie (Some k))).

Definition _toggleKDE : M unit :=
  _toggleDPMS ;;
  modify_self (set_ssProxy (Some ScreenSaver)) ;;
  let pmProxy := PowerManagement in
  c <- get_self ;;
  if inhibition_successful c then
    (match screenSaverCookie c with
     | Some cookie => call_UnInhibit ScreenSaver cookie
     | None => ret tt
     end ;;
     match powerManagementCookie c with
     | Some cookie => call_UnInhibit pmProxy cookie
     | None => ret tt
     end)
  else
    (k <- call_Inhibit pmProxy ;;
     modify_self (set_powerManagementCookie (Some k)) ;;
     k <- call_Inhibit ScreenSaver ;;
     modify_self (set_screenSaverCookie (Some k))).

(** [self.screensaverAndPowersavingType == tag] *)
Definition type_is (c : Caffeine) (tag : string) : bool :=
  match screensaverAndPowersavingType c with
  | Some t => String.eqb t tag
  | None => false
  end.

Definition _performTogglingActions : M unit :=
  _detectScreensaverAndPowersavingType ;;
  c <- get_self ;;
  (if type_is c "Gnome3" then _toggleGnome3
   else if type_is c "KDE" then _toggleKDE
   else if type_is c "XSS+DPMS" then _toggleXSSAndDPMS
   else if type_is c "DPMS" then _toggleDPMS
   else ret tt) ;;
  c <- get_self ;;
  when (negb (inhibition_successful c))
    match screensaverAndPowersavingType c with
    | Some t =>
        logging INFO ("Caffeine is now preventing powersaving modes" +:+
                      " and screensaver activation (" +:+ t +:+ ")")
    | None => raise (TypeError "can only concatenate str (not 'NoneType') to str")
    end ;;
  modify_self (set_inhibition_successful (negb (inhibition_successful c))).

(** [__toggle_activated(note)] *)
Definition __toggle_activated (note : bool) : M unit :=
  c <- get_self ;;
  (if inhibition_activated c then
     (* sleep prevention was on now turn it off *)
     modify_self (set_inhibition_activated false) ;;
     logging INFO "Caffeine is now dormant; powersaving is re-enabled" ;;
     modify_self (set_status_string (gettext "Caffeine is dormant; powersaving is enabled")) ;;
     c <- get_self ;;
     match timer c with
     | Some i =>
         t <- deref i ;;
         if negb (String.eqb (name t) "Expired") then
           let message := gettext "Timed activation cancelled (was set for " +:+
                          str (interval t) +:+ ")" in
           logging INFO ("Timed activation cancelled (was set for " +:+
                         str (interval t) +:+ ")") ;;
           when note (_notify message empty_cup_icon ;; ret tt) ;;
           Timer_cancel i ;;
           modify_self (set_timer None)
         else
           let message := str (interval t) +:+
                          gettext " have elapsed; powersaving is re-enabled" in
           logging INFO ("Timed activation period (" +:+
                         str (interval t) +:+
                         ") has elapsed") ;;
           when note (_notify message empty_cup_icon ;; ret tt) ;;
           modify_self (set_timer None)
     | None => ret tt
     end
   else
     modify_self (set_inhibition_activated true)) ;;
  _performTogglingActions ;;
  c <- get_self ;;
  when (String.eqb (status_string c) EmptyString)
    match screensaverAndPowersavingType c with
    | Some t =>
        modify_self (set_status_string
          (gettext ("Caffeine is preventing powersaving " +:+
                    "modes and screensaver activation ") +:+
           "(" +:+ t +:+ ")"))
    | None => ret tt
    end ;;
  a <- get_activated ;;
  c <- get_self ;;
  tell (Emit a (status_string c)) ;;
  modify_self (set_status_string EmptyString).

(** [toggle_activated(show_notification=True)] *)
Definition toggle_activated (show_notification : bool) : M unit :=
  modify_self (set_auto_activated false) ;;
  __toggle_activated show_notification.

(** [set_activated(activate, show_notification=True)] *)
Definition set_activated (activate show_notification : bool) : M unit :=
  a <- get_activated ;;
  when (negb (Bool.eqb a activate)) (toggle_activated show_notification).

(** [__set_activated(activate)]: the flag is passed on as [note]. *)
Definition __set_activated (activate : bool) : M unit :=
  a <- get_activated ;;
  when (negb (Bool.eqb a activate)) (__toggle_activated activate).

(** [timed_activation(time, note=True)] *)
Definition timed_activation (time : Z) (note : bool) : M unit :=
  let message := gettext "Timed activation set; " +:+
                 gettext "Caffeine will prevent powersaving for the next " +:+
                 str time in
  logging INFO ("Timed activation set for " +:+ str time) ;;
  c <- get_self ;;
  when (String.eqb (status_string c) EmptyString)
    (modify_self (set_status_string (gettext "Activated for " +:+ str time)) ;;
     a <- get_activated ;;
     c <- get_self ;;
     tell (Emit a (status_string c))) ;;
  set_activated true note ;;
  when note (_notify message full_cup_icon ;; ret tt) ;;
  (* and deactivate after time has passed.  Stop already running timer *)
  c <- get_self ;;
  match timer c with
  | Some i =>
      t <- deref i ;;
      logging INFO ("Previous timed activation cancelled due to a " +:+
                    "second timed activation request (was set for " +:+
                    str (interval t) +:+ " or " +:+
                    str time +:+ " seconds )") ;;
      Timer_cancel i
  | None => ret tt
  end ;;
  Timer_new time note.

(** [_deactivate(note)], the callback of the timer thread.  After the
    thread is renamed, the call [self.toggle_activated(note=note)] passes a
    keyword that [toggle_activated(self, show_notification=True)] does not
    have: Python raises [TypeError] while binding the arguments, before the
    body of [toggle_activated] runs. *)
Definition _deactivate (note : bool) : M unit :=
  c <- get_self ;;
  match timer c with
  | Some i =>
      t <- deref i ;;
      ts <- get_timers ;;
      put_timers (<[i := Timer_set_name "Expired" t]> ts)
  | None => raise (AttributeError "'NoneType' object has no attribute 'name'")
  end ;;
  raise (TypeError "toggle_activated() got an unexpected keyword argument 'note'").

(** [threading.Timer.run] for the thread [i], once its interval has passed:
    the callback runs unless the timer was cancelled, then [finished] is
    set; an exception of the callback leaves [run] before that.  There is
    nothing to run for an [i] that names no thread. *)
Definition Timer_run (i : nat) : M unit :=
  ts <- get_timers ;;
  match ts !! i with
  | Some t =>
      when (negb (finished t))
        (_deactivate (args t) ;;
         ts <- get_timers ;;
         match ts !! i with
         | Some t' => put_timers (<[i := Timer_set_finished t']> ts)
         | None => ret tt
         end)
  | None => ret tt
  end.

(** The [for proc in get_process_list()] loop of [__attempt_autoactivation];
    [process_running] is the loop-carried variable. *)
Fixpoint check_processes (procs : list string) (process_running : bool) : M bool :=
  match procs with
  | [] => ret process_running
  | proc :: rest =>
      env <- ask ;;
      if isProcessRunning env proc then
        c <- get_self ;;
        (if auto_activated c then
           logging INFO ("Process " +:+ proc +:+ " detected but was already " +:+
                         "auto-activated")
         else if negb (inhibition_activated c) then
           logging INFO ("Process " +:+ proc +:+ " detected. Inhibiting.")
         else ret tt) ;;
        check_processes rest true
      else check_processes rest process_running
  end.

(** The truth value of [fullscreen] after the EWMH query. *)
Definition query_fullscreen (env : Env) : bool :=
  match getActiveWindow env with
  | Some (Some states) =>
      negb (bool_decide (states = [])) && contains "_NET_WM_STATE_FULLSCREEN" states
  | Some None => false
  | None => false
  end.

(** [__attempt_autoactivation()], the 10 s poll. *)
Definition __attempt_autoactivation : M bool :=
  c <- get_self ;;
  if inhibition_activated c && negb (auto_activated c) then
    logging DEBUG ("Inhibition manually activated. Won't attempt to " +:+
                   "auto-activate") ;;
    ret true
  else
    env <- ask ;;
    process_running <- check_processes (get_process_list env) false ;;
    let fullscreen := query_fullscreen env in
    c <- get_self ;;
    when fullscreen
      (if auto_activated c then
         logging DEBUG ("Fullscreen app detected, but was already " +:+
                        "auto-activated")
       else if negb (inhibition_activated c) then
         logging INFO "Fullscreen app detected. Inhibiting."
       else ret tt) ;;
    (* Disable auto-activation? *)
    (if negb process_running && negb fullscreen && auto_activated c then
       logging INFO ("Was auto-inhibited, but there's no fullscreen or " +:+
                     "whitelisted process now. De-activating.") ;;
       modify_self (set_auto_activated false) ;;
       __set_activated false
     else if process_running || fullscreen && negb (auto_activated c) then
       modify_self (set_auto_activated true) ;;
       __set_activated true
     else ret tt) ;;
    ret true.

(** [quit()] *)
Definition quit : M unit :=
  c <- get_self ;;
  match timer c with
  | Some i => Timer_cancel i
  | None => ret tt
  end.

(** ** Runs: sequences of entries into the object *)

Inductive Op :=
| OpToggleActivated (show_notification : bool)
| OpSetActivated (activate show_notification : bool)
| OpTimedActivation (time : Z) (note : bool)
| OpPoll                                    (* the 10 s GLib timeout fires *)
| OpTimerExpiry (i : nat)                   (* the interval of timer thread i is over *)
| OpQuit.

Definition run_op (op : Op) : M unit :=
  match op with
  | OpToggleActivated n => toggle_activated n
  | OpSetActivated a n => set_activated a n
  | OpTimedActivation t n => timed_activation t n
  | OpPoll => __attempt_autoactivation ;; ret tt
  | OpTimerExpiry i => Timer_run i
  | OpQuit => quit
  end.

(** Each entry runs against what the outside answers at that moment; an
    exception ends the entry (the main loop or the thread reports it) and
    the object stays as the entry left it. *)
Fixpoint run (ops : list (Op * Env)) (w : World) : World :=
  match ops with
  | [] => w
  | (op, env) :: rest => run rest (snd (run_op op env w))
  end.

(** The [activation-toggled] emissions of a trace, in order. *)
Fixpoint emits (t : list Effect) : list (bool * string) :=
  match t with
  | [] => []
  | Emit a s :: t' => (a, s) :: emits t'
  | _ :: t' => emits t'
  end.

(** * Verification *)

(** ** Specification vocabulary *)

(** [post m env w Q]: running [m] from [w] ends in a result and a world
    that satisfy [Q]. *)
Definition post {A} (m : M A) (env : Env) (w : World)
    (Q : Result A -> World -> Prop) : Prop :=
  Q (fst (m env w)) (snd (m env w)).

Definition upd_self (f : Caffeine -> Caffeine) (w : World) : World :=
  {| self := f (self w); timers := timers w; trace := trace w |}.

Definition upd_trace (e : Effect) (w : World) : World :=
  {| self := self w; timers := timers w; trace := trace w ++ [e] |}.

Definition upd_timers (ts : list Timer) (w : World) : World :=
  {| self := self w; timers := ts; trace := trace w |}.

(** [w] after some more calls to the outside. *)
Definition with_trace (w : World) (more : list Effect) : World :=
  {| self := self w; timers := timers w; trace := trace w ++ more |}.

(** What the toggles are about: the three flags, the status string and the
    emissions so far. *)
Definition view (w : World) : bool * bool * bool * string * list (bool * string) :=
  (inhibition_activated (self w), inhibition_successful (self w),
   auto_activated (self w), status_string (self w), emits (trace w)).

(** The timer reference and the timer store. *)
Definition tview (w : World) : option nat * list Timer :=
  (timer (self w), timers w).

(** An exception [e] that is the answer of a D-Bus method call. *)
Definition backend_raises (env : Env) (e : Exn) : Prop :=
  (exists p, proxy_Inhibit env p = Raise e) \/
  (exists p k, proxy_UnInhibit env p k = Raise e).

(** The timer reference of [w] names no timer thread. *)
Definition dangling (w : World) : Prop :=
  exists i, timer (self w) = Some i /\ timers w !! i = None.

(** The status string the second half of a toggle emits from [w]: the one
    already set, or the "preventing" message with the detected type. *)
Definition composed_status (env : Env) (w : World) : string :=
  if String.eqb (status_string (self w)) EmptyString then
    gettext ("Caffeine is preventing powersaving " +:+
             "modes and screensaver activation ") +:+
    "(" +:+ detected_type env +:+ ")"
  else status_string (self w).

(** The status string a toggle started in [w] emits. *)
Definition toggle_status (env : Env) (w : World) : string :=
  if inhibition_activated (self w) then
    gettext "Caffeine is dormant; powersaving is enabled"
  else composed_status env w.

(** What a toggle guarantees from the point where the activated flag has
    been flipped: the steps from [_performTogglingActions] on. *)
Definition toggle_tail_post (env : Env) (w1 : World) (r : Result unit) (w' : World) : Prop :=
  inhibition_activated (self w') = inhibition_activated (self w1) /\
  auto_activated (self w') = auto_activated (self w1) /\
  tview w' = tview w1 /\
  match r with
  | Ok _ =>
      inhibition_successful (self w') = negb (inhibition_successful (self w1)) /\
      emits (trace w') =
        emits (trace w1) ++ [(inhibition_activated (self w1), composed_status env w1)] /\
      status_string (self w') = EmptyString /\
      screensaverAndPowersavingType (self w') = Some (detected_type env)
  | Raise e =>
      inhibition_successful (self w') = inhibition_successful (self w1) /\
      emits (trace w') = emits (trace w1) /\
      backend_raises env e /\
      (detected_type env = "Gnome3" \/ detected_type env = "KDE")
  end.

(** What [__toggle_activated] guarantees.  It raises when a D-Bus call of
    the Gnome3 or KDE adapter does (or on a dangling timer reference, which
    no run from the constructor produces). *)
Definition toggle_post (env : Env) (w : World) (r : Result unit) (w' : World) : Prop :=
  inhibition_activated (self w') = negb (inhibition_activated (self w)) /\
  (inhibition_activated (self w) = false -> tview w' = tview w) /\
  match r with
  | Ok _ =>
      inhibition_successful (self w') = negb (inhibition_successful (self w)) /\
      emits (trace w') =
        emits (trace w) ++ [(negb (inhibition_activated (self w)), toggle_status env w)] /\
      status_string (self w') = EmptyString /\
      screensaverAndPowersavingType (self w') = Some (detected_type env)
  | Raise e =>
      inhibition_successful (self w') = inhibition_successful (self w) /\
      emits (trace w') = emits (trace w) /\
      (backend_raises env e /\
       (detected_type env = "Gnome3" \/ detected_type env = "KDE") \/
       dangling w)
  end.

(** The extra emission [timed_activation] makes before it activates: when
    the status string is empty on entry, it is set to "Activated for .."
    and emitted with the activated flag as it is at that moment. *)
Definition announcement (op : Op) (w : World) : list (bool * string) :=
  match op with
  | OpTimedActivation time _ =>
      if String.eqb (status_string (self w)) EmptyString then
        [(inhibition_activated (self w), gettext "Activated for " +:+ str time)]
      else []
  | _ => []
  end.

(** What one entry into the object does to the two inhibition flags and to
    the emissions: it makes no toggle, or one toggle that completes, or one
    toggle that an exception cuts short after the activated flag is flipped. *)
Definition op_post {A} (announce : list (bool * string)) (w : World)
    (r : Result A) (w' : World) : Prop :=
  (inhibition_activated (self w') = inhibition_activated (self w) /\
   inhibition_successful (self w') = inhibition_successful (self w) /\
   emits (trace w') = emits (trace w) ++ announce) \/
  (inhibition_activated (self w') = negb (inhibition_activated (self w)) /\
   inhibition_successful (self w') = negb (inhibition_successful (self w)) /\
   exists st,
     emits (trace w') =
       emits (trace w) ++ announce ++ [(inhibition_activated (self w'), st)]) \/
  ((exists e, r = Raise e) /\
   inhibition_activated (self w') = negb (inhibition_activated (self w)) /\
   inhibition_successful (self w') = inhibition_successful (self w) /\
   emits (trace w') = emits (trace w) ++ announce).

Definition is_log (e : Effect) : bool :=
  match e with
  | Log _ _ => true
  | _ => false
  end.

(** The two branches at the end of [__attempt_autoactivation], each followed
    by the method's [return True]. *)
Definition deactivation_branch : M bool :=
  logging INFO ("Was auto-inhibited, but there's no fullscreen or " +:+
                "whitelisted process now. De-activating.") ;;
  modify_self (set_auto_activated false) ;;
  __set_activated false ;;
  ret true.

Definition activation_branch : M bool :=
  modify_self (set_auto_activated true) ;;
  __set_activated true ;;
  ret true.

(** [process_running] after the loop over the whitelist. *)
Definition any_process_running (env : Env) : bool :=
  existsb (isProcessRunning env) (get_process_list env).

(** The guard at the top of [__attempt_autoactivation]. *)
Definition manually_activated (w : World) : bool :=
  inhibition_activated (self w) && negb (auto_activated (self w)).

(** The condition of the de-activating branch. *)
Definition auto_deactivation (env : Env) (w : World) : bool :=
  negb (any_process_running env) && negb (query_fullscreen env) &&
  auto_activated (self w).

(** A toggle completes at the one place where [__inhibition_successful] is
    flipped (the last line of [_performTogglingActions]; what follows cannot
    raise), and an entry makes at most one toggle: the entries across which
    that flag changes are the ones with a completed toggle. *)
Definition toggle_completed (op : Op) (env : Env) (w : World) : bool :=
  negb (Bool.eqb (inhibition_successful (self (snd (run_op op env w))))
                 (inhibition_successful (self w))).

Fixpoint completed_toggles (ops : list (Op * Env)) (w : World) : nat :=
  match ops with
  | [] => 0
  | (op, env) :: rest =>
      (if toggle_completed op env w then 1 else 0) +
      completed_toggles rest (snd (run_op op env w))
  end.

(** The number of extra emissions of [timed_activation] along a run. *)
Fixpoint announcements (ops : list (Op * Env)) (w : World) : nat :=
  match ops with
  | [] => 0
  | (op, env) :: rest =>
      length (announcement op w) + announcements rest (snd (run_op op env w))
  end.

(** Every entry of the run returns normally. *)
Fixpoint all_complete (ops : list (Op * Env)) (w : World) : Prop :=
  match ops with
  | [] => True
  | (op, env) :: rest =>
      fst (run_op op env w) = Ok tt /\ all_complete rest (snd (run_op op env w))
  end.

(** What [_toggleDPMS] runs when it re-enables powersaving. *)
Definition xset_on : list Effect := [Shell "xset +dpms"; Shell "xset s on"].

(** ** Sample environments *)

(** A bare X session: no D-Bus service, no xscreensaver, nothing running. *)
Definition env_plain : Env :=
  {| list_names := [];
     isProcessRunning := fun _ => false;
     get_process_list := [];
     getActiveWindow := None;
     proxy_Inhibit := fun _ => Ok 7%Z;
     proxy_UnInhibit := fun _ _ => Ok tt;
     note_show := Ok tt;
     timeout_add := 42%Z |}.

(** A Gnome session whose session manager answers. *)
Definition env_gnome : Env :=
  {| list_names := ["org.freedesktop.DBus"; "org.gnome.SessionManager"];
     isProcessRunning := fun _ => false;
     get_process_list := [];
     getActiveWindow := None;
     proxy_Inhibit := fun _ => Ok 7%Z;
     proxy_UnInhibit := fun _ _ => Ok tt;
     note_show := Ok tt;
     timeout_add := 42%Z |}.

(** A Gnome session whose session manager does not reply to [Inhibit]. *)
Definition env_gnome_down : Env :=
  {| list_names := ["org.freedesktop.DBus"; "org.gnome.SessionManager"];
     isProcessRunning := fun _ => false;
     get_process_list := [];
     getActiveWindow := None;
     proxy_Inhibit := fun _ => Raise (DBusException "org.freedesktop.DBus.Error.NoReply");
     proxy_UnInhibit := fun _ _ => Ok tt;
     note_show := Ok tt;
     timeout_add := 42%Z |}.

(** A KDE session whose power management service refuses [Inhibit]. *)
Definition env_kde_down : Env :=
  {| list_names := ["org.freedesktop.ScreenSaver";
                    "org.freedesktop.PowerManagement.Inhibit"];
     isProcessRunning := fun _ => false;
     get_process_list := [];
     getActiveWindow := None;
     proxy_Inhibit := fun p =>
       match p with
       | PowerManagement => Raise (DBusException "org.freedesktop.DBus.Error.AccessDenied")
       | _ => Ok 7%Z
       end;
     proxy_UnInhibit := fun _ _ => Ok tt;
     note_show := Ok tt;
     timeout_add := 42%Z |}.

(** A bare X session in which the whitelisted process [mplayer] runs. *)
Definition env_player : Env :=
  {| list_names := [];
     isProcessRunning := String.eqb "mplayer";
     get_process_list := ["mplayer"];
     getActiveWindow := None;
     proxy_Inhibit := fun _ => Ok 7%Z;
     proxy_UnInhibit := fun _ _ => Ok tt;
     note_show := Ok tt;
     timeout_add := 42%Z |}.

(** A bare X session with a fullscreen window in front. *)
Definition env_fullscreen : Env :=
  {| list_names := [];
     isProcessRunning := fun _ => false;
     get_process_list := ["mplayer"];
     getActiveWindow := Some (Some ["_NET_WM_STATE_FULLSCREEN"]);
     proxy_Inhibit := fun _ => Ok 7%Z;
     proxy_UnInhibit := fun _ _ => Ok tt;
     note_show := Ok tt;
     timeout_add := 42%Z |}.

(** The object after the user has switched inhibition on by hand. *)
Definition manual_world : World :=
  snd (toggle_activated true env_plain init_world).

(** The object after the poll has switched inhibition on for [mplayer]. *)
Definition auto_world : World :=
  snd (__attempt_autoactivation env_player init_world).

(** ** Vocabulary for the further properties *)

(** What [_toggleDPMS] runs when it disables powersaving. *)
Definition xset_off : list Effect := [Shell "xset -dpms"; Shell "xset s off"].

(** The [xset] pair [_toggleDPMS] runs, by the successful flag it finds. *)
Definition xset_pair (successful : bool) : list Effect :=
  if successful then xset_on else xset_off.

(** The D-Bus method calls of a trace, in order. *)
Fixpoint dbus_calls (t : list Effect) : list Effect :=
  match t with
  | [] => []
  | Inhibit p :: t' => Inhibit p :: dbus_calls t'
  | UnInhibit p k :: t' => UnInhibit p k :: dbus_calls t'
  | _ :: t' => dbus_calls t'
  end.

(** The two error lines [_notify] logs when it catches [e]. *)
Definition notify_error_logs (message : string) (e : Exn) : list Effect :=
  [Log ERROR ("Exception occurred:" +:+ LF +:+ " " +:+ exn_str e);
   Log ERROR ("Exception occurred attempting to display " +:+
              "message:" +:+ LF +:+ message)].

(** The timer reference and the timer store a toggle started in [w] leaves:
    a deactivating toggle drops the reference, after cancelling the thread
    unless its callback has already named it "Expired". *)
Definition timers_after_toggle (w : World) : option nat * list Timer :=
  if inhibition_activated (self w) then
    match timer (self w) with
    | Some i =>
        match timers w !! i with
        | Some t =>
            (None,
             if String.eqb (name t) "Expired" then timers w
             else <[i := Timer_set_finished t]> (timers w))
        | None => (Some i, timers w)
        end
    | None => (None, timers w)
    end
  else (timer (self w), timers w).

(** The auto-activated flag is set only while inhibition is activated. *)
Definition auto_implies_activated (w : World) : Prop :=
  auto_activated (self w) = true -> inhibition_activated (self w) = true.

(** The timer discipline: the only thread that can still fire is the one
    [self.timer] refers to, the callback of that thread has not begun to
    run, and a timer is pending only while inhibition is activated. *)
Definition timers_ok (w : World) : Prop :=
  (forall j t, timers w !! j = Some t -> finished t = false ->
               timer (self w) = Some j /\ name t = "Active") /\
  (forall i, timer (self w) = Some i ->
             inhibition_activated (self w) = true /\
             exists t, timers w !! i = Some t /\ name t = "Active").

(** A KDE session; [ps] and [ss] are what [Inhibit] answers on the power
    management and on the screensaver service. *)
Definition env_kde (pm ss : Result Z) : Env :=
  {| list_names := ["org.freedesktop.ScreenSaver";
                    "org.freedesktop.PowerManagement.Inhibit"];
     isProcessRunning := fun _ => false;
     get_process_list := [];
     getActiveWindow := None;
     proxy_Inhibit := fun p =>
       match p with
       | PowerManagement => pm
       | _ => ss
       end;
     proxy_UnInhibit := fun _ _ => Ok tt;
     note_show := Ok tt;
     timeout_add := 42%Z |}.

(** A bare X session with xscreensaver running. *)
Definition env_xss : Env :=
  {| list_names := ["org.freedesktop.ScreenSaver"];
     isProcessRunning := String.eqb "xscreensaver";
     get_process_list := [];
     getActiveWindow := None;
     proxy_Inhibit := fun _ => Ok 7%Z;
     proxy_UnInhibit := fun _ _ => Ok tt;
     note_show := Ok tt;
     timeout_add := 42%Z |}.

(** The object while Gnome3 inhibition is on. *)
Definition gnome_world : World :=
  snd (toggle_activated true env_gnome init_world).

(** The object while a 5 s timed activation is pending. *)
Definition timed_world : World :=
  snd (timed_activation 5 true env_plain init_world).

(** The timer store after the pending timer, if any, has been cancelled. *)
Definition cancel_pending (w : World) : list Timer :=
  match timer (self w) with
  | Some i =>
      match timers w !! i with
      | Some t => <[i := Timer_set_finished t]> (timers w)
      | None => timers w
      end
  | None => timers w
  end.

(** The part of [timed_activation] that follows [set_activated]: the
    notification, the cancellation of the timer that is superseded and the
    start of the new one. *)
Definition timed_activation_tail (time : Z) (note : bool) : M unit :=
  let message := gettext "Timed activation set; " +:+
                 gettext "Caffeine will prevent powersaving for the next " +:+
                 str time in
  when note (_notify message full_cup_icon ;; ret tt) ;;
  c <- get_self ;;
  match timer c with
  | Some i =>
      t <- deref i ;;
      logging INFO ("Previous timed activation cancelled due to a " +:+
                    "second timed activation request (was set for " +:+
                    str (interval t) +:+ " or " +:+
                    str time +:+ " seconds )") ;;
      Timer_cancel i
  | None => ret tt
  end ;;
  Timer_new time note.

(** The object while the poll keeps inhibition on for [mplayer] and a 5 s
    timed activation has been requested on top. *)
Definition auto_timed_world : World :=
  snd (timed_activation 5 true env_player auto_world).

(** How one entry can move the activated and the auto-activated flag: it
    leaves both alone, or it ends with the auto-activated flag clear, or it
    ends with inhibition activated. *)
Definition flags_step (w w' : World) : Prop :=
  (inhibition_activated (self w') = inhibition_activated (self w) /\
   auto_activated (self w') = auto_activated (self w)) \/
  auto_activated (self w') = false \/
  inhibition_activated (self w') = true.

(** The log line and the notification message with which a deactivating
    toggle ends the timed activation of timer [t]: "elapsed" when the
    callback of the thread has named it "Expired", "cancelled" otherwise. *)
Definition ending_log (t : Timer) : string :=
  if String.eqb (name t) "Expired" then
    "Timed activation period (" +:+ str (interval t) +:+ ") has elapsed"
  else
    "Timed activation cancelled (was set for " +:+ str (interval t) +:+ ")".

Definition ending_message (t : Timer) : string :=
  if String.eqb (name t) "Expired" then
    str (interval t) +:+ gettext " have elapsed; powersaving is re-enabled"
  else
    gettext "Timed activation cancelled (was set for " +:+ str (interval t) +:+ ")".

(** [w'] is [w] after more calls to the outside, with the same note. *)
Definition grows (w w' : World) : Prop :=
  (exists more, trace w' = trace w ++ more) /\ note (self w') = note (self w).

(** ** Vocabulary for the outcome of the backend calls *)

(** The exception a call ended in, if it raised. *)
Definition failure_of {A} (r : Result A) : option Exn :=
  match r with
  | Ok _ => None
  | Raise e => Some e
  end.

(** The first failure of two calls made one after the other. *)
Definition or_else (first second : option Exn) : option Exn :=
  match first with
  | Some e => Some e
  | None => second
  end.

(** The exception, if any, in which the D-Bus calls of the adapter selected
    in [env] end on an object with attributes [c]; an adapter stops at the
    first call that raises.  Gnome3 makes one call: [Inhibit], or [Uninhibit]
    when it releases and holds a cookie.  KDE inhibits power management and
    then the screensaver; when it releases it uninhibits the screensaver and
    then power management, each if it holds the cookie.  The other adapters
    make no D-Bus call. *)
Definition backend_failure (env : Env) (c : Caffeine) : option Exn :=
  if String.eqb (detected_type env) "Gnome3" then
    if inhibition_successful c then
      match screenSaverCookie c with
      | Some cookie => failure_of (proxy_UnInhibit env SessionManager cookie)
      | None => None
      end
    else failure_of (proxy_Inhibit env SessionManager)
  else if String.eqb (detected_type env) "KDE" then
    if inhibition_successful c then
      or_else
        match screenSaverCookie c with
        | Some cookie => failure_of (proxy_UnInhibit env ScreenSaver cookie)
        | None => None
        end
        match powerManagementCookie c with
        | Some cookie => failure_of (proxy_UnInhibit env PowerManagement cookie)
        | None => None
        end
    else
      or_else (failure_of (proxy_Inhibit env PowerManagement))
              (failure_of (proxy_Inhibit env ScreenSaver))
  else None.

(** The result of a call that raises [e], or returns when there is none. *)
Definition failure_result (failure : option Exn) : Result unit :=
  match failure with
  | Some e => Raise e
  | None => Ok tt
  end.

(** The two halves of [__toggle_activated]: what comes before the call of
    [_performTogglingActions], and that call with what follows it. *)
Definition toggle_head (note : bool) : M unit :=
  c <- get_self ;;
  if inhibition_activated c then
    modify_self (set_inhibition_activated false) ;;
    logging INFO "Caffeine is now dormant; powersaving is re-enabled" ;;
    modify_self (set_status_string (gettext "Caffeine is dormant; powersaving is enabled")) ;;
    c <- get_self ;;
    match timer c with
    | Some i =>
        t <- deref i ;;
        if negb (String.eqb (name t) "Expired") then
          let message := gettext "Timed activation cancelled (was set for " +:+
                         str (interval t) +:+ ")" in
          logging INFO ("Timed activation cancelled (was set for " +:+
                        str (interval t) +:+ ")") ;;
          when note (_notify message empty_cup_icon ;; ret tt) ;;
          Timer_cancel i ;;
          modify_self (set_timer None)
        else
          let message := str (interval t) +:+
                         gettext " have elapsed; powersaving is re-enabled" in
          logging INFO ("Timed activation period (" +:+
                        str (interval t) +:+
                        ") has elapsed") ;;
          when note (_notify message empty_cup_icon ;; ret tt) ;;
          modify_self (set_timer None)
    | None => ret tt
    end
  else
    modify_self (set_inhibition_activated true).

Definition toggle_tail : M unit :=
  _performTogglingActions ;;
  c <- get_self ;;
  when (String.eqb (status_string c) EmptyString)
    match screensaverAndPowersavingType c with
    | Some t =>
        modify_self (set_status_string
          (gettext ("Caffeine is preventing powersaving " +:+
                    "modes and screensaver activation ") +:+
           "(" +:+ t +:+ ")"))
    | None => ret tt
    end ;;
  a <- get_activated ;;
  c <- get_self ;;
  tell (Emit a (status_string c)) ;;
  modify_self (set_status_string EmptyString).

(** The status string the first half of a toggle started in [w] leaves. *)
Definition head_status (w : World) : string :=
  if inhibition_activated (self w) then
    gettext "Caffeine is dormant; powersaving is enabled"
  else status_string (self w).

(** A toggle started in [w] shows no notification: none is asked for, or
    the toggle activates, or no timer is pending. *)
Definition quiet_toggle (note : bool) (w : World) : Prop :=
  note = false \/ inhibition_activated (self w) = false \/ timer (self w) = None.

(** A Gnome session whose session manager hands out cookies but does not
    answer [Uninhibit]. *)
Definition env_gnome_stuck : Env :=
  {| list_names := ["org.freedesktop.DBus"; "org.gnome.SessionManager"];
     isProcessRunning := fun _ => false;
     get_process_list := [];
     getActiveWindow := None;
     proxy_Inhibit := fun _ => Ok 7%Z;
     proxy_UnInhibit := fun _ _ => Raise (DBusException "org.freedesktop.DBus.Error.NoReply");
     note_show := Ok tt;
     timeout_add := 42%Z |}.

(** ** Rules for [post] *)

Lemma post_conseq {A} (m : M A) env w (P Q : Result A -> World -> Prop) :
  post m env w P -> (forall r w', P r w' -> Q r w') -> post m env w Q.
Proof. unfold post. auto. Qed.

Lemma post_bind {A B} (m : M A) (f : A -> M B) env w (Q : Result B -> World -> Prop) :
  post m env w (fun r w1 =>
    match r with
    | Ok a => post (f a) env w1 Q
    | Raise e => Q (Raise e) w1
    end) ->
  post (bind m f) env w Q.
Proof.
  unfold post, bind. destruct (m env w) as [[a|e] w1]; auto.
Qed.

Lemma post_assoc {A B C} (m : M A) (f : A -> M B) (g : B -> M C) env w Q :
  post (bind m (fun x => bind (f x) g)) env w Q ->
  post (bind (bind m f) g) env w Q.
Proof.
  unfold post, bind. destruct (m env w) as [[a|e] w1]; auto.
Qed.

Lemma post_spec {A B} (m : M A) (f : A -> M B) env w
    (P : Result A -> World -> Prop) (Q : Result B -> World -> Prop) :
  post m env w P ->
  (forall r w1, P r w1 ->
     match r with
     | Ok a => post (f a) env w1 Q
     | Raise e => Q (Raise e) w1
     end) ->
  post (bind m f) env w Q.
Proof.
  intros Hm Hk. apply post_bind. eapply post_conseq; [exact Hm|]. exact Hk.
Qed.

Lemma post_and {A} (m : M A) env w (P Q : Result A -> World -> Prop) :
  post m env w P -> post m env w Q -> post m env w (fun r w' => P r w' /\ Q r w').
Proof. unfold post. auto. Qed.

Lemma emits_app t1 t2 : emits (t1 ++ t2) = emits t1 ++ emits t2.
Proof.
  induction t1 as [|e t1 IH]; [reflexivity|].
  destruct e; simpl; rewrite ?IH; reflexivity.
Qed.

(** ** Tactics *)

(** Case analysis on whatever a computation branches on next. *)
Ltac run_step :=
  match goal with
  | |- context [match ?x with _ => _ end] =>
      lazymatch x with
      | context [match _ with _ => _ end] => fail
      | _ => destruct x eqn:?
      end
  end.

Ltac crunch := repeat (simpl in *; try run_step); simpl in *.

Ltac unfold_monad :=
  unfold post, call_UnInhibit, call_Inhibit, logging, getoutput, get_activated,
    when, try_except, bind, tell, modify_self, get_self, get_timers,
    put_timers, ask, lift_result, raise, ret, view, tview in *.

(** One step through a primitive at the head of a computation. *)
Ltac mstep :=
  lazymatch goal with
  | |- post (bind (bind _ _) _) _ _ _ => apply post_assoc
  | |- post (bind get_self ?f) ?env ?w ?Q =>
      change (post (f (self w)) env w Q); cbv beta
  | |- post (bind get_activated ?f) ?env ?w ?Q =>
      change (post (f (inhibition_activated (self w))) env w Q); cbv beta
  | |- post (bind get_timers ?f) ?env ?w ?Q =>
      change (post (f (timers w)) env w Q); cbv beta
  | |- post (bind ask ?f) ?env ?w ?Q =>
      change (post (f env) env w Q); cbv beta
  | |- post (bind (ret ?a) ?f) ?env ?w ?Q =>
      change (post (f a) env w Q); cbv beta
  | |- post (bind (modify_self ?g) ?f) ?env ?w ?Q =>
      change (post (f tt) env (upd_self g w) Q); cbv beta
  | |- post (bind (put_timers ?ts) ?f) ?env ?w ?Q =>
      change (post (f tt) env (upd_timers ts w) Q); cbv beta
  | |- post (bind (tell ?e) ?f) ?env ?w ?Q =>
      change (post (f tt) env (upd_trace e w) Q); cbv beta
  | |- post (bind (logging ?l ?s) ?f) ?env ?w ?Q =>
      change (post (f tt) env (upd_trace (Log l s) w) Q); cbv beta
  | |- post (bind (raise ?e) ?f) ?env ?w ?Q =>
      change (Q (Raise e) w); cbv beta
  | |- post (ret ?a) ?env ?w ?Q => change (Q (Ok a) w); cbv beta
  | |- post (raise ?e) ?env ?w ?Q => change (Q (Raise e) w); cbv beta
  | |- post (modify_self ?g) ?env ?w ?Q =>
      change (Q (Ok tt) (upd_self g w)); cbv beta
  | |- post (put_timers ?ts) ?env ?w ?Q =>
      change (Q (Ok tt) (upd_timers ts w)); cbv beta
  | |- post (tell ?e) ?env ?w ?Q =>
      change (Q (Ok tt) (upd_trace e w)); cbv beta
  | |- post (logging ?l ?s) ?env ?w ?Q =>
      change (Q (Ok tt) (upd_trace (Log l s) w)); cbv beta
  | |- post (bind (when ?b _) _) _ _ _ => unfold when at 1
  | |- post (when ?b _) _ _ _ => unfold when at 1
  end.

Ltac msteps := repeat mstep.

(** Step up to a method call and continue from its specification [H]. *)
Ltac call H := msteps; eapply post_spec; [apply H|].

Ltac proj :=
  unfold view, tview, upd_self, upd_trace, upd_timers, with_trace in *;
  cbn [self timers trace
       status_string screensaverAndPowersavingType inhibition_activated
       inhibition_successful auto_activated screenSaverCookie
       powerManagementCookie timer inhibit_id note ssProxy susuProxy
       set_status_string set_screensaverAndPowersavingType
       set_inhibition_activated set_inhibition_successful set_auto_activated
       set_screenSaverCookie set_powerManagementCookie set_timer
       set_inhibit_id set_note set_ssProxy set_susuProxy fst snd negb] in *.

Ltac norm :=
  proj; rewrite ?emits_app in *; cbn [emits app] in *; rewrite ?app_nil_r in *.

Ltac views :=
  norm;
  repeat match goal with
         | H : (_, _) = (_, _) |- _ => injection H; clear H; intros
         end.

(** Use up the equations that relate the attributes of successive worlds. *)
Ltac chain :=
  repeat match goal with
         | H : _ /\ _ |- _ => destruct H
         | H : exists _, _ |- _ => destruct H
         end;
  views;
  repeat match goal with
         | H : ?l = _ |- _ =>
             lazymatch l with
             | context [self _] => idtac
             | context [trace _] => idtac
             | context [timers _] => idtac
             end;
             try rewrite H in *; clear H
         end.

(** ** The helpers *)

Lemma _notify_spec message icon env w :
  post (_notify message icon) env w (fun r w' =>
    r = Ok false /\ view w' = view w /\ tview w' = tview w /\
    screensaverAndPowersavingType (self w') = screensaverAndPowersavingType (self w) /\
    exists more, trace w' = trace w ++ more /\ emits more = []).
Proof.
  destruct w as [[] ts tr]. unfold _notify. unfold_monad.
  crunch; rewrite ?emits_app; simpl; rewrite ?app_nil_r;
    rewrite <- ?app_assoc; repeat split; try congruence;
    eexists; (split; [reflexivity|reflexivity]).
Qed.

Lemma detected_type_cases env :
  detected_type env = "Gnome3" \/ detected_type env = "KDE" \/
  detected_type env = "XSS+DPMS" \/ detected_type env = "DPMS".
Proof.
  unfold detected_type.
  destruct (contains "org.gnome.SessionManager" _); auto.
  destruct (_ && _); auto.
  destruct (isProcessRunning _ _); auto.
Qed.

Lemma _performTogglingActions_spec env w :
  post _performTogglingActions env w (fun r w' =>
    screensaverAndPowersavingType (self w') = Some (detected_type env) /\
    tview w' = tview w /\
    inhibition_activated (self w') = inhibition_activated (self w) /\
    auto_activated (self w') = auto_activated (self w) /\
    status_string (self w') = status_string (self w) /\
    emits (trace w') = emits (trace w) /\
    match r with
    | Ok _ => inhibition_successful (self w') = negb (inhibition_successful (self w))
    | Raise e =>
        inhibition_successful (self w') = inhibition_successful (self w) /\
        backend_raises env e /\
        (detected_type env = "Gnome3" \/ detected_type env = "KDE")
    end).
Proof.
  destruct w as [[] ts tr].
  unfold _performTogglingActions, _detectScreensaverAndPowersavingType,
    _toggleGnome3, _toggleKDE, _toggleXSSAndDPMS, _toggleXSS, _toggleDPMS,
    type_is, backend_raises.
  unfold_monad.
  destruct (detected_type_cases env) as [H|[H|[H|H]]]; rewrite H;
    crunch; rewrite ?emits_app; simpl; rewrite ?app_nil_r;
    repeat split; eauto 6; congruence.
Qed.

Lemma deref_spec i env w :
  post (deref i) env w (fun r w' =>
    w' = w /\
    match r with
    | Ok t => timers w !! i = Some t
    | Raise _ => timers w !! i = None
    end).
Proof.
  unfold deref. mstep. destruct (timers w !! i); mstep; auto.
Qed.

Lemma Timer_cancel_spec i env w :
  post (Timer_cancel i) env w (fun r w' =>
    view w' = view w /\ self w' = self w /\
    match r with
    | Ok _ => exists t, timers w !! i = Some t /\
                        timers w' = <[i := Timer_set_finished t]> (timers w) /\
                        trace w' = trace w ++ [TimerCancel i]
    | Raise _ => timers w !! i = None /\ w' = w
    end).
Proof.
  unfold Timer_cancel, deref. msteps.
  destruct (timers w !! i) eqn:E; msteps.
  - norm. eauto 6.
  - auto.
Qed.

(** ** The toggle *)

Ltac toggle_finish :=
  let r := fresh "r" in
  intros r ?;
  unfold toggle_tail_post, toggle_post, toggle_status, composed_status, gettext in *;
  destruct r; chain; simpl; intuition congruence.

Lemma __toggle_activated_spec note env w :
  post (__toggle_activated note) env w (fun r w' =>
    auto_activated (self w') = auto_activated (self w) /\ toggle_post env w r w').
Proof.
  unfold __toggle_activated.
  lazymatch goal with
  | |- post (bind get_self (fun c => bind _ ?rest)) _ _ _ => set (tail := rest)
  end.
  assert (Htail : forall w1, post (tail tt) env w1 (toggle_tail_post env w1)).
  { intros w1. subst tail. cbv beta.
    eapply post_spec; [apply _performTogglingActions_spec|].
    intros r w2 (Hty & Htv & Ha & Hau & Hst & Hem & Hr).
    destruct r as [[]|e].
    - msteps. unfold toggle_tail_post, composed_status.
      rewrite Hst, Hty.
      destruct (String.eqb (status_string (self w1)) EmptyString) eqn:E; msteps; proj;
        rewrite emits_app, Hem; simpl; repeat split; congruence.
    - unfold toggle_tail_post. tauto. }
  clearbody tail. mstep.
  destruct (inhibition_activated (self w)) eqn:Hact.
  - (* sleep prevention was on now turn it off *)
    msteps. proj.
    destruct (timer (self w)) as [i|] eqn:Htimer.
    + call deref_spec.
      intros r w1 [-> Hd]. proj. destruct r as [t|e].
      2:{ unfold toggle_post, dangling. norm. rewrite Hact.
          repeat split; eauto; congruence. }
      destruct (negb (String.eqb (name t) "Expired")).
      * msteps. destruct note.
        -- call _notify_spec.
           intros r w1 (-> & Hv & Htv & Hty & _).
           call Timer_cancel_spec.
           intros r w2 (Hv2 & Hs2 & Hr2). destruct r as [[]|e].
           ++ msteps. eapply post_conseq; [apply Htail|]. toggle_finish.
           ++ destruct Hr2 as [Hn ->]. views. congruence.
        -- call Timer_cancel_spec.
           intros r w2 (Hv2 & Hs2 & Hr2). destruct r as [[]|e].
           ++ msteps. eapply post_conseq; [apply Htail|]. toggle_finish.
           ++ destruct Hr2 as [Hn ->]. views. congruence.
      * msteps. destruct note.
        -- call _notify_spec.
           intros r w1 (-> & Hv & Htv & Hty & _). msteps.
           eapply post_conseq; [apply Htail|]. toggle_finish.
        -- msteps.
           eapply post_conseq; [apply Htail|]. toggle_finish.
    + msteps.
      eapply post_conseq; [apply Htail|]. toggle_finish.
  - msteps.
    eapply post_conseq; [apply Htail|]. toggle_finish.
Qed.

(** ** The entries *)

Lemma toggle_activated_spec note env w :
  post (toggle_activated note) env w (fun r w' =>
    auto_activated (self w') = false /\ toggle_post env w r w').
Proof.
  unfold toggle_activated. mstep.
  eapply post_conseq; [apply __toggle_activated_spec|].
  intros r w'. unfold toggle_post, toggle_status, composed_status, dangling.
  proj. tauto.
Qed.

Lemma toggle_post_op_post env w r w' :
  toggle_post env w r w' -> op_post [] w r w'.
Proof.
  unfold toggle_post, op_post. intros (Ha & _ & Hr).
  destruct r as [[]|e].
  - right; left. destruct Hr as (Hs & He & _). rewrite Ha. eauto.
  - right; right. destruct Hr as (Hs & He & _). rewrite app_nil_r. eauto.
Qed.

Lemma op_post_refl {A} (r : Result A) w : op_post [] w r w.
Proof. left. rewrite app_nil_r. auto. Qed.

Lemma set_activated_spec activate note env w :
  post (set_activated activate note) env w (op_post [] w).
Proof.
  unfold set_activated. mstep.
  destruct (negb (Bool.eqb (inhibition_activated (self w)) activate)); mstep.
  - eapply post_conseq; [apply toggle_activated_spec|].
    intros r w' [_ H]. apply toggle_post_op_post with env. exact H.
  - apply op_post_refl.
Qed.

Lemma __set_activated_spec activate env w :
  post (__set_activated activate) env w (fun r w' =>
    auto_activated (self w') = auto_activated (self w) /\ op_post [] w r w').
Proof.
  unfold __set_activated. mstep.
  destruct (negb (Bool.eqb (inhibition_activated (self w)) activate)); mstep.
  - eapply post_conseq; [apply __toggle_activated_spec|].
    intros r w' [H1 H2]. split; [exact H1|]. apply toggle_post_op_post with env. exact H2.
  - split; [reflexivity|apply op_post_refl].
Qed.

Lemma with_trace_nil w : with_trace w [] = w.
Proof. destruct w. unfold with_trace. simpl. rewrite app_nil_r. reflexivity. Qed.

Lemma emits_logs logs : forallb is_log logs = true -> emits logs = [].
Proof.
  induction logs as [|e logs IH]; [reflexivity|].
  destruct e; simpl; try discriminate. exact IH.
Qed.

Lemma check_processes_spec procs b env w :
  exists logs, forallb is_log logs = true /\
    check_processes procs b env w =
      (Ok (b || existsb (isProcessRunning env) procs), with_trace w logs).
Proof.
  revert b w. induction procs as [|proc rest IH]; intros b w.
  - exists []. rewrite with_trace_nil, orb_false_r. auto.
  - cbn [check_processes existsb]. unfold bind at 1. unfold ask.
    destruct (isProcessRunning env proc).
    + unfold bind at 1. unfold get_self.
      destruct (auto_activated (self w)); [|destruct (negb (inhibition_activated (self w)))].
      * unfold bind at 1. unfold logging, tell.
        match goal with |- context [check_processes rest true env ?w1] =>
          destruct (IH true w1) as (logs & Hl & ->) end.
        eexists (Log INFO _ :: logs). split; [exact Hl|].
        rewrite orb_true_r. unfold with_trace. simpl. rewrite <- app_assoc. reflexivity.
      * unfold bind at 1. unfold logging, tell.
        match goal with |- context [check_processes rest true env ?w1] =>
          destruct (IH true w1) as (logs & Hl & ->) end.
        eexists (Log INFO _ :: logs). split; [exact Hl|].
        rewrite orb_true_r. unfold with_trace. simpl. rewrite <- app_assoc. reflexivity.
      * unfold bind at 1. unfold ret.
        destruct (IH true w) as (logs & Hl & ->).
        exists logs. split; [exact Hl|]. rewrite orb_true_r. reflexivity.
    + destruct (IH b w) as (logs & Hl & ->).
      exists logs. split; [exact Hl|]. reflexivity.
Qed.

(** Past its guard, a poll only logs before it reaches the final
    conditional. *)
Lemma poll_unfold env w :
  manually_activated w = false ->
  exists logs, forallb is_log logs = true /\
    __attempt_autoactivation env w =
      (if auto_deactivation env w then deactivation_branch
       else if any_process_running env ||
               query_fullscreen env && negb (auto_activated (self w))
            then activation_branch
            else ret true) env (with_trace w logs).
Proof.
  unfold manually_activated, auto_deactivation, any_process_running.
  intros Hg. unfold __attempt_autoactivation.
  unfold bind at 1. unfold get_self. rewrite Hg.
  unfold bind at 1. unfold ask.
  unfold bind at 1.
  destruct (check_processes_spec (get_process_list env) false env w) as (logs & Hl & ->).
  cbn [orb].
  set (pr := existsb (isProcessRunning env) (get_process_list env)).
  set (fs := query_fullscreen env).
  unfold bind at 1. unfold get_self. cbn [self with_trace].
  set (auto := auto_activated (self w)).
  assert (Hfs : exists logs', forallb is_log logs' = true /\
    when fs
      (if auto
       then logging DEBUG ("Fullscreen app detected, but was already " +:+ "auto-activated")
       else if negb (inhibition_activated (self w))
            then logging INFO "Fullscreen app detected. Inhibiting."
            else ret tt) env (with_trace w logs) = (Ok tt, with_trace w logs')).
  { destruct fs; [destruct auto; [|destruct (negb (inhibition_activated (self w)))]|];
      cbn [when]; unfold logging, tell, ret.
    - eexists (logs ++ [Log DEBUG _]).
      split; [|unfold with_trace; cbn; rewrite app_assoc; reflexivity].
      rewrite forallb_app, Hl. reflexivity.
    - eexists (logs ++ [Log INFO _]).
      split; [|unfold with_trace; cbn; rewrite app_assoc; reflexivity].
      rewrite forallb_app, Hl. reflexivity.
    - exists logs. auto.
    - exists logs. auto. }
  destruct Hfs as (logs' & Hl' & Hfs).
  exists logs'. split; [exact Hl'|].
  unfold bind at 1. rewrite Hfs.
  destruct (negb pr && negb fs && auto).
  - unfold deactivation_branch, bind, logging, tell, modify_self.
    cbn [with_trace self timers trace].
    destruct (__set_activated false env _) as [[[]|e] w1]; reflexivity.
  - destruct (pr || fs && negb auto).
    + unfold activation_branch, bind, modify_self.
      cbn [with_trace self timers trace].
      destruct (__set_activated true env _) as [[[]|e] w1]; reflexivity.
    + reflexivity.
Qed.

Lemma op_post_pre {A} announce w w1 (r : Result A) w' :
  op_post [] w1 r w' ->
  inhibition_activated (self w1) = inhibition_activated (self w) ->
  inhibition_successful (self w1) = inhibition_successful (self w) ->
  emits (trace w1) = emits (trace w) ++ announce ->
  op_post announce w r w'.
Proof.
  unfold op_post. intros H Ha Hs He.
  rewrite Ha, Hs, He in H. cbn [app] in H.
  destruct H as [(H1 & H2 & H3)|[(H1 & H2 & st & H3)|(H0 & H1 & H2 & H3)]].
  - left. rewrite app_nil_r in H3. auto.
  - right; left. rewrite <- app_assoc in H3. eauto.
  - right; right. rewrite app_nil_r in H3. auto.
Qed.

Lemma op_post_post {A B} announce w (r : Result A) (r' : Result B) w1 w' :
  op_post announce w r w1 ->
  inhibition_activated (self w') = inhibition_activated (self w1) ->
  inhibition_successful (self w') = inhibition_successful (self w1) ->
  emits (trace w') = emits (trace w1) ->
  ((exists e, r = Raise e) -> exists e, r' = Raise e) ->
  op_post announce w r' w'.
Proof.
  unfold op_post. intros H Ha Hs He Hr. rewrite Ha, Hs, He. tauto.
Qed.

Lemma Timer_new_spec time note env w :
  post (Timer_new time note) env w (fun r w' =>
    r = Ok tt /\ view w' = view w /\
    timer (self w') = Some (length (timers w)) /\
    timers w' = timers w ++
      [{| interval := time; name := "Active"; args := note; finished := false |}] /\
    trace w' = trace w ++ [TimerStart (length (timers w)) time]).
Proof.
  unfold Timer_new. msteps. norm. auto.
Qed.

Lemma poll_spec env w :
  post __attempt_autoactivation env w (op_post [] w).
Proof.
  destruct (manually_activated w) eqn:Hg.
  - unfold __attempt_autoactivation. mstep.
    unfold manually_activated in Hg. rewrite Hg. msteps.
    left. norm. auto.
  - destruct (poll_unfold env w Hg) as (logs & Hl & Heq).
    unfold post at 1. rewrite Heq.
    match goal with
    | |- op_post _ _ (fst (?m env ?w1)) _ => change (post m env w1 (op_post [] w))
    end.
    pose proof (emits_logs logs Hl) as He.
    destruct (auto_deactivation env w);
      [|destruct (any_process_running env || _)].
    + unfold deactivation_branch.
      call __set_activated_spec.
      intros r w1 [_ H]. destruct r as [[]|e]; msteps.
      * eapply op_post_post; [eapply op_post_pre; [exact H|..]|..]; norm;
          rewrite ?He, ?app_nil_r; auto.
        intros [e Hr]; discriminate.
      * eapply op_post_post; [eapply op_post_pre; [exact H|..]|..]; norm;
          rewrite ?He, ?app_nil_r; eauto.
    + unfold activation_branch.
      call __set_activated_spec.
      intros r w1 [_ H]. destruct r as [[]|e]; msteps.
      * eapply op_post_post; [eapply op_post_pre; [exact H|..]|..]; norm;
          rewrite ?He, ?app_nil_r; auto.
        intros [e Hr]; discriminate.
      * eapply op_post_post; [eapply op_post_pre; [exact H|..]|..]; norm;
          rewrite ?He, ?app_nil_r; eauto.
    + mstep. left. norm. rewrite He, !app_nil_r. auto.
Qed.

Lemma quit_spec env w :
  post quit env w (op_post [] w).
Proof.
  unfold quit. mstep. destruct (timer (self w)) as [i|].
  - eapply post_conseq; [apply Timer_cancel_spec|].
    intros r w' (Hv & Hs & _). left. views. auto.
  - mstep. apply op_post_refl.
Qed.

Lemma Timer_run_spec i env w :
  post (Timer_run i) env w (op_post [] w).
Proof.
  unfold Timer_run. mstep.
  destruct (timers w !! i) as [t|]; [|mstep; apply op_post_refl].
  destruct (negb (finished t)); [|mstep; apply op_post_refl].
  mstep. unfold _deactivate. msteps.
  destruct (timer (self w)) as [j|].
  - call deref_spec. intros r w1 [-> Hd]. destruct r as [t'|e].
    + msteps. left. norm. auto.
    + apply op_post_refl.
  - msteps. apply op_post_refl.
Qed.

(** The callback of a timer thread raises before it reaches the object. *)
Lemma Timer_run_frame i env w :
  post (Timer_run i) env w (fun r w' => self w' = self w /\ trace w' = trace w).
Proof.
  unfold Timer_run. mstep.
  destruct (timers w !! i) as [t|]; [|mstep; split; reflexivity].
  destruct (negb (finished t)); [|mstep; split; reflexivity].
  mstep. unfold _deactivate. msteps.
  destruct (timer (self w)) as [j|].
  - call deref_spec. intros r w1 [-> Hd]. destruct r as [t'|e].
    + msteps. proj. split; reflexivity.
    + split; reflexivity.
  - msteps. split; reflexivity.
Qed.

Lemma timed_activation_spec time note env w :
  post (timed_activation time note) env w
    (op_post (announcement (OpTimedActivation time note) w) w).
Proof.
  unfold timed_activation, announcement. msteps. proj.
  (* the part after [set_activated]: it leaves flags and emissions alone *)
  assert (Hrest : forall w2 (k := fun _ : unit =>
      (when note (_notify (gettext "Timed activation set; " +:+
                           gettext "Caffeine will prevent powersaving for the next " +:+
                           str time) full_cup_icon ;; ret tt) ;;
       c <- get_self ;;
       match timer c with
       | Some i =>
           t <- deref i ;;
           logging INFO ("Previous timed activation cancelled due to a " +:+
                         "second timed activation request (was set for " +:+
                         str (interval t) +:+ " or " +:+ str time +:+ " seconds )") ;;
           Timer_cancel i
       | None => ret tt
       end ;;
       Timer_new time note)),
    post (k tt) env w2 (fun r w' => view w' = view w2)).
  { intros w2 k. subst k. cbv beta.
    assert (Hk : forall w3, view w3 = view w2 ->
      post (c <- get_self ;;
            match timer c with
            | Some i =>
                t <- deref i ;;
                logging INFO ("Previous timed activation cancelled due to a " +:+
                              "second timed activation request (was set for " +:+
                              str (interval t) +:+ " or " +:+ str time +:+ " seconds )") ;;
                Timer_cancel i
            | None => ret tt
            end ;;
            Timer_new time note) env w3 (fun r w' => view w' = view w2)).
    { intros w3 H3. mstep. destruct (timer (self w3)) as [i|].
      - call deref_spec. intros r w4 [-> Hd]. destruct r as [t|e]; [|exact H3].
        call Timer_cancel_spec. intros r w4 (Hv & _). destruct r as [[]|e].
        + eapply post_conseq; [apply Timer_new_spec|].
          intros r w5 (_ & Hv5 & _). rewrite Hv5, Hv, <- H3. norm. reflexivity.
        + rewrite Hv, <- H3. norm. reflexivity.
      - mstep. eapply post_conseq; [apply Timer_new_spec|].
        intros r w5 (_ & Hv5 & _). congruence. }
    destruct note.
    - call _notify_spec. intros r w3 (-> & Hv & _). mstep. apply Hk. exact Hv.
    - msteps. apply Hk. reflexivity. }
  destruct (String.eqb (status_string (self w)) EmptyString).
  - msteps. call set_activated_spec.
    intros r w2 H. destruct r as [[]|e].
    + eapply post_conseq; [apply Hrest|]. cbv beta. intros r w' Hv.
      eapply op_post_post; [eapply op_post_pre; [exact H|..]|..];
        try (intros [? ?]; discriminate); views;
        try congruence; try reflexivity.
    + eapply op_post_pre; [exact H|..]; norm; reflexivity.
  - msteps. call set_activated_spec.
    intros r w2 H. destruct r as [[]|e].
    + eapply post_conseq; [apply Hrest|]. cbv beta. intros r w' Hv.
      eapply op_post_post; [eapply op_post_pre; [exact H|..]|..];
        try (intros [? ?]; discriminate); views;
        try congruence; try reflexivity.
    + eapply op_post_pre; [exact H|..]; norm; reflexivity.
Qed.

(** Every entry makes at most one toggle. *)
Lemma run_op_spec op env w :
  post (run_op op) env w (op_post (announcement op w) w).
Proof.
  destruct op; cbn [run_op announcement].
  - eapply post_conseq; [apply toggle_activated_spec|].
    intros r w' [_ H]. eapply toggle_post_op_post, H.
  - apply set_activated_spec.
  - apply timed_activation_spec.
  - eapply post_spec; [apply poll_spec|].
    intros r w1 H. destruct r as [b|e]; [mstep|];
      (eapply op_post_post; [exact H|..]; eauto).
    intros [e He]; discriminate.
  - apply Timer_run_spec.
  - apply quit_spec.
Qed.

(** ** Timed activation *)

Lemma timed_activation_from_off time note env w :
  inhibition_activated (self w) = false ->
  timer (self w) = None ->
  post (timed_activation time note) env w (fun r w1 =>
    r = Ok tt ->
    inhibition_activated (self w1) = true /\
    status_string (self w1) = EmptyString /\
    timer (self w1) = Some (length (timers w)) /\
    timers w1 = timers w ++
      [{| interval := time; name := "Active"; args := note; finished := false |}]).
Proof.
  intros Hact Htimer. unfold timed_activation. msteps. proj.
  assert (Hset : forall w0,
    inhibition_activated (self w0) = false -> tview w0 = tview w ->
    post (set_activated true note) env w0 (fun r w1 =>
      r = Ok tt ->
      inhibition_activated (self w1) = true /\ status_string (self w1) = EmptyString /\
      tview w1 = tview w)).
  { intros w0 Ha0 Ht0. unfold set_activated. mstep. rewrite Ha0. cbn [Bool.eqb negb].
    mstep. eapply post_conseq; [apply toggle_activated_spec|].
    intros r w1 [_ (Ha & Htv & Hr)] ->. rewrite Ha0 in *.
    destruct Hr as (_ & _ & Hst & _). rewrite Htv by reflexivity. auto. }
  assert (Hrest : forall w1,
    inhibition_activated (self w1) = true /\ status_string (self w1) = EmptyString /\
    tview w1 = tview w ->
    post (when note (_notify (gettext "Timed activation set; " +:+
                              gettext "Caffeine will prevent powersaving for the next " +:+
                              str time) full_cup_icon ;; ret tt) ;;
          c <- get_self ;;
          match timer c with
          | Some i =>
              t <- deref i ;;
              logging INFO ("Previous timed activation cancelled due to a " +:+
                            "second timed activation request (was set for " +:+
                            str (interval t) +:+ " or " +:+ str time +:+ " seconds )") ;;
              Timer_cancel i
          | None => ret tt
          end ;;
          Timer_new time note) env w1 (fun r w2 =>
      r = Ok tt ->
      inhibition_activated (self w2) = true /\ status_string (self w2) = EmptyString /\
      timer (self w2) = Some (length (timers w)) /\
      timers w2 = timers w ++
        [{| interval := time; name := "Active"; args := note; finished := false |}])).
  { intros w1 (Ha1 & Hs1 & Ht1).
    assert (Hk : forall w2, view w2 = view w1 -> tview w2 = tview w1 ->
      post (c <- get_self ;;
            match timer c with
            | Some i =>
                t <- deref i ;;
                logging INFO ("Previous timed activation cancelled due to a " +:+
                              "second timed activation request (was set for " +:+
                              str (interval t) +:+ " or " +:+ str time +:+ " seconds )") ;;
                Timer_cancel i
            | None => ret tt
            end ;;
            Timer_new time note) env w2 (fun r w3 =>
        r = Ok tt ->
        inhibition_activated (self w3) = true /\ status_string (self w3) = EmptyString /\
        timer (self w3) = Some (length (timers w)) /\
        timers w3 = timers w ++
          [{| interval := time; name := "Active"; args := note; finished := false |}])).
    { intros w2 Hv2 Ht2. mstep.
      assert (Hn : timer (self w2) = None) by (views; congruence).
      rewrite Hn. mstep.
      eapply post_conseq; [apply Timer_new_spec|].
      intros r w3 (_ & Hv3 & Hti & Hts & _) _. views.
      repeat split; congruence. }
    destruct note.
    - call _notify_spec. intros r w2 (-> & Hv & Htv & _). mstep. apply Hk; assumption.
    - msteps. apply Hk; reflexivity. }
  destruct (String.eqb (status_string (self w)) EmptyString).
  - msteps. eapply post_spec; [apply Hset; proj; auto|].
    intros r w1 H. destruct r as [[]|e]; [|discriminate].
    apply Hrest. auto.
  - msteps. eapply post_spec; [apply Hset; proj; auto|].
    intros r w1 H. destruct r as [[]|e]; [|discriminate].
    apply Hrest. auto.
Qed.

Lemma timed_activation_supersedes time note env w1 i t :
  inhibition_activated (self w1) = true ->
  status_string (self w1) = EmptyString ->
  timer (self w1) = Some i ->
  timers w1 !! i = Some t ->
  post (timed_activation time note) env w1 (fun r w2 =>
    r = Ok tt /\
    timer (self w2) = Some (length (timers w1)) /\
    timers w2 = <[i := Timer_set_finished t]> (timers w1) ++
      [{| interval := time; name := "Active"; args := note; finished := false |}] /\
    exists before,
      emits before = [(true, gettext "Activated for " +:+ str time)] /\
      trace w2 = trace w1 ++ before ++
        [Log INFO ("Previous timed activation cancelled due to a " +:+
                   "second timed activation request (was set for " +:+
                   str (interval t) +:+ " or " +:+ str time +:+ " seconds )");
         TimerCancel i;
         TimerStart (length (timers w1)) time]).
Proof.
  intros Hact Hst Htimer Hd. unfold timed_activation. msteps. proj.
  rewrite Hst. cbn [String.eqb]. msteps.
  unfold set_activated at 1. msteps. proj. rewrite Hact. cbn [Bool.eqb negb]. msteps.
  assert (Hk : forall w2 more,
    timer (self w2) = Some i -> timers w2 = timers w1 ->
    trace w2 = trace w1 ++ [Log INFO ("Timed activation set for " +:+ str time);
                            Emit true (gettext "Activated for " +:+ str time)] ++ more ->
    emits more = [] ->
    post (c <- get_self ;;
          match timer c with
          | Some i =>
              t <- deref i ;;
              logging INFO ("Previous timed activation cancelled due to a " +:+
                            "second timed activation request (was set for " +:+
                            str (interval t) +:+ " or " +:+ str time +:+ " seconds )") ;;
              Timer_cancel i
          | None => ret tt
          end ;;
          Timer_new time note) env w2 (fun r w3 =>
      r = Ok tt /\
      timer (self w3) = Some (length (timers w1)) /\
      timers w3 = <[i := Timer_set_finished t]> (timers w1) ++
        [{| interval := time; name := "Active"; args := note; finished := false |}] /\
      exists before,
        emits before = [(true, gettext "Activated for " +:+ str time)] /\
        trace w3 = trace w1 ++ before ++
          [Log INFO ("Previous timed activation cancelled due to a " +:+
                     "second timed activation request (was set for " +:+
                     str (interval t) +:+ " or " +:+ str time +:+ " seconds )");
           TimerCancel i;
           TimerStart (length (timers w1)) time])).
  { intros w2 more Hti Hts Htr Hem. mstep. rewrite Hti.
    call deref_spec. intros r w3 [-> Hd3]. rewrite Hts, Hd in Hd3.
    destruct r as [t'|e]; [|discriminate]. injection Hd3 as <-.
    call Timer_cancel_spec. intros r w3 (_ & Hs3 & Hr3).
    destruct r as [[]|e].
    2:{ destruct Hr3 as [Hn _]. proj. congruence. }
    destruct Hr3 as (t' & Hd' & Hts3 & Htr3). proj.
    rewrite Hts, Hd in Hd'. injection Hd' as <-.
    eapply post_conseq; [apply Timer_new_spec|].
    intros r w4 (-> & _ & Hti4 & Hts4 & Htr4).
    rewrite Hts4, Hts3, Hti4, Hts3, Hts, length_insert.
    repeat split.
    exists ([Log INFO ("Timed activation set for " +:+ str time);
             Emit true (gettext "Activated for " +:+ str time)] ++ more).
    split.
    - rewrite emits_app, Hem. reflexivity.
    - rewrite Htr4, Htr3, Htr, Hts3, length_insert, Hts.
      rewrite <- !app_assoc. reflexivity. }
  destruct note.
  - call _notify_spec. intros r w2 (-> & _ & Htv & _ & more & Htr & Hem).
    mstep. apply Hk with more; views; try congruence; auto.
    rewrite Htr, <- !app_assoc. reflexivity.
  - msteps. apply Hk with []; proj; auto. rewrite <- !app_assoc. reflexivity.
Qed.

(** ** When a toggle raises *)

Lemma _performTogglingActions_result env w :
  fst (_performTogglingActions env w) = failure_result (backend_failure env (self w)).
Proof.
  destruct w as [[] ts tr].
  unfold _performTogglingActions, _detectScreensaverAndPowersavingType,
    _toggleGnome3, _toggleKDE, _toggleXSSAndDPMS, _toggleXSS, _toggleDPMS,
    type_is, backend_failure, failure_result, failure_of, or_else.
  unfold_monad.
  destruct (detected_type_cases env) as [H|[H|[H|H]]]; rewrite H;
    crunch; congruence.
Qed.

Lemma backend_failure_ext env c c' :
  inhibition_successful c' = inhibition_successful c ->
  screenSaverCookie c' = screenSaverCookie c ->
  powerManagementCookie c' = powerManagementCookie c ->
  backend_failure env c' = backend_failure env c.
Proof.
  unfold backend_failure. intros -> -> ->. reflexivity.
Qed.

Lemma __toggle_activated_split note env w :
  __toggle_activated note env w = (toggle_head note ;; toggle_tail) env w.
Proof. reflexivity. Qed.

Lemma toggle_tail_result env w :
  fst (toggle_tail env w) = fst (_performTogglingActions env w) /\
  (forall e, fst (_performTogglingActions env w) = Raise e ->
             toggle_tail env w = _performTogglingActions env w).
Proof.
  unfold toggle_tail.
  lazymatch goal with
  | |- context [bind _performTogglingActions ?k] => set (rest := k)
  end.
  unfold bind.
  destruct (_performTogglingActions env w) as [[[]|e] w1]; cbn [fst].
  - split; [|discriminate]. subst rest. unfold_monad.
    destruct (String.eqb (status_string (self w1)) EmptyString); [|reflexivity].
    destruct (screensaverAndPowersavingType (self w1)); reflexivity.
  - split; reflexivity.
Qed.

Lemma _notify_cookies message icon env w :
  post (_notify message icon) env w (fun r w' =>
    powerManagementCookie (self w') = powerManagementCookie (self w) /\
    ssProxy (self w') = ssProxy (self w) /\
    (screenSaverCookie (self w') = screenSaverCookie (self w) \/
     exists p k, ssProxy (self w) = Some p /\ proxy_Inhibit env p = Ok k /\
                 screenSaverCookie (self w') = Some k)).
Proof.
  destruct w as [[] ts tr]. unfold _notify. unfold_monad.
  crunch; repeat split; eauto 8.
Qed.

(** What the first half of a toggle does to the attributes the second half
    reads. *)
Lemma toggle_head_spec note env w :
  post (toggle_head note) env w (fun r w1 =>
    inhibition_activated (self w1) = negb (inhibition_activated (self w)) /\
    inhibition_successful (self w1) = inhibition_successful (self w) /\
    powerManagementCookie (self w1) = powerManagementCookie (self w) /\
    status_string (self w1) = head_status w /\
    emits (trace w1) = emits (trace w) /\
    (screenSaverCookie (self w1) = screenSaverCookie (self w) \/
     ~ quiet_toggle note w /\
     exists p k, ssProxy (self w) = Some p /\ proxy_Inhibit env p = Ok k /\
                 screenSaverCookie (self w1) = Some k) /\
    match r with
    | Ok _ => True
    | Raise _ => dangling w
    end).
Proof.
  unfold toggle_head, head_status, quiet_toggle. mstep.
  destruct (inhibition_activated (self w)) eqn:Hact.
  - msteps. proj.
    destruct (timer (self w)) as [i|] eqn:Htimer.
    + call deref_spec.
      intros r w1 [-> Hd]. proj. destruct r as [t|e].
      2:{ unfold dangling. norm. repeat split; eauto. }
      assert (Hq : ~ (true = false \/ true = false \/ Some i = None))
        by (intros [H|[H|H]]; discriminate).
      destruct (negb (String.eqb (name t) "Expired")).
      * msteps. destruct note.
        -- msteps; eapply post_spec; [apply post_and; [apply _notify_spec|apply _notify_cookies]|].
           cbv beta. intros r w1 [(-> & Hv & Htv & Hty & _) (Hpm & Hss & Hck)].
           call Timer_cancel_spec.
           intros r w2 (Hv2 & Hs2 & Hr2). destruct r as [[]|e].
           ++ msteps. norm. rewrite Hs2. views.
              repeat split; try congruence.
              destruct Hck as [Hck|(p & k & Hp & Hk & Hck)]; [left; congruence|].
              right. split; [exact Hq|]. exists p, k. repeat split; assumption.
           ++ destruct Hr2 as [Hn ->]. views. congruence.
        -- msteps. call Timer_cancel_spec.
           intros r w2 (Hv2 & Hs2 & Hr2). destruct r as [[]|e].
           ++ msteps. norm. rewrite Hs2. views. repeat split; auto.
           ++ destruct Hr2 as [Hn ->]. proj. congruence.
      * msteps. destruct note.
        -- msteps; eapply post_spec; [apply post_and; [apply _notify_spec|apply _notify_cookies]|].
           cbv beta. intros r w1 [(-> & Hv & Htv & Hty & _) (Hpm & Hss & Hck)].
           msteps. views. repeat split; try congruence.
           destruct Hck as [Hck|(p & k & Hp & Hk & Hck)]; [left; congruence|].
           right. split; [exact Hq|]. exists p, k. repeat split; assumption.
        -- msteps. norm. repeat split; auto.
    + msteps. norm. repeat split; auto.
  - msteps. norm. repeat split; auto.
Qed.

(** A toggle ends the way the D-Bus calls of its adapter end. *)
Lemma __toggle_activated_result note env w :
  ~ dangling w ->
  fst (__toggle_activated note env w) =
    failure_result (backend_failure env (self (snd (toggle_head note env w)))).
Proof.
  intros Hd. rewrite __toggle_activated_split. unfold bind.
  pose proof (toggle_head_spec note env w) as H. unfold post in H.
  destruct (toggle_head note env w) as [[[]|e] w1]; cbn [fst snd] in *.
  - rewrite (proj1 (toggle_tail_result env w1)). apply _performTogglingActions_result.
  - exfalso. apply Hd, H.
Qed.

Lemma __toggle_activated_result_quiet note env w :
  ~ dangling w ->
  quiet_toggle note w ->
  fst (__toggle_activated note env w) = failure_result (backend_failure env (self w)).
Proof.
  intros Hd Hq. rewrite __toggle_activated_result by exact Hd.
  pose proof (toggle_head_spec note env w) as H. unfold post in H.
  destruct H as (_ & Hs & Hpm & _ & _ & Hck & _).
  f_equal. apply backend_failure_ext; auto.
  destruct Hck as [Hck|[Hn _]]; [exact Hck|contradiction].
Qed.

(** A toggle emits once, unless a D-Bus call of its adapter raises. *)
Lemma __toggle_activated_emits note env w :
  ~ dangling w ->
  emits (trace (snd (__toggle_activated note env w))) =
    emits (trace w) ++
    match backend_failure env (self (snd (toggle_head note env w))) with
    | None => [(negb (inhibition_activated (self w)), toggle_status env w)]
    | Some _ => []
    end.
Proof.
  intros Hd.
  pose proof (__toggle_activated_result note env w Hd) as E.
  pose proof (__toggle_activated_spec note env w) as H. unfold post in H.
  destruct H as (_ & _ & _ & Hr). rewrite E in Hr.
  destruct (backend_failure env _) as [e|]; cbn [failure_result] in Hr.
  - rewrite app_nil_r. apply Hr.
  - apply Hr.
Qed.

(** The status string a toggle that raises leaves behind. *)
Lemma __toggle_activated_raise_status note env w e :
  fst (__toggle_activated note env w) = Raise e ->
  status_string (self (snd (__toggle_activated note env w))) = head_status w.
Proof.
  rewrite __toggle_activated_split. unfold bind.
  pose proof (toggle_head_spec note env w) as H. unfold post in H.
  destruct (toggle_head note env w) as [[[]|e1] w1]; cbn [fst snd] in *; intros Hr.
  - destruct H as (_ & _ & _ & Hst & _).
    rewrite (proj1 (toggle_tail_result env w1)) in Hr.
    rewrite (proj2 (toggle_tail_result env w1) e Hr).
    pose proof (_performTogglingActions_spec env w1) as P. unfold post in P.
    destruct P as (_ & _ & _ & _ & Hst1 & _). congruence.
  - apply H.
Qed.

Lemma toggle_activated_unfold note env w :
  toggle_activated note env w =
    __toggle_activated note env (upd_self (set_auto_activated false) w).
Proof. reflexivity. Qed.

Lemma dangling_auto w :
  dangling (upd_self (set_auto_activated false) w) <-> dangling w.
Proof. unfold dangling. proj. reflexivity. Qed.

Lemma not_dangling_without_timer w : timer (self w) = None -> ~ dangling w.
Proof. intros H (i & Hi & _). congruence. Qed.

(** * The claims *)

(** C1 (the code re-detects).  The claim: the backend type, once resolved,
    is reused by every later toggle.  The code: [_performTogglingActions]
    calls [_detectScreensaverAndPowersavingType] unconditionally, so after
    every toggle the type is whatever the session bus and the process table
    say at that moment.  A Gnome session whose session manager has gone gets
    its second toggle from the DPMS adapter: the type changes from "Gnome3"
    to "DPMS", and the cookie the session manager issued is kept and never
    given back. *)
Theorem C1_backend_type_redetected_on_every_toggle :
  (forall env w,
     screensaverAndPowersavingType (self (snd (_performTogglingActions env w))) =
       Some (detected_type env)) /\
  let w1 := snd (toggle_activated true env_gnome init_world) in
  let w2 := snd (toggle_activated true env_plain w1) in
  screensaverAndPowersavingType (self w1) = Some "Gnome3" /\
  screenSaverCookie (self w1) = Some 7%Z /\
  screensaverAndPowersavingType (self w2) = Some "DPMS" /\
  screenSaverCookie (self w2) = Some 7%Z /\
  trace w2 = trace w1 ++
    [Log INFO "Caffeine is now dormant; powersaving is re-enabled";
     Log DEBUG "Attempting to detect screensaver/powersaving type...";
     Log INFO "Successfully detected screensaver and powersaving type: DPMS";
     Shell "xset +dpms"; Shell "xset s on";
     Emit false "Caffeine is dormant; powersaving is enabled"].
Proof.
  split.
  - intros env w. apply (_performTogglingActions_spec env w).
  - vm_compute. repeat split.
Qed.

(** C2, as stated, fails: with a session manager that does not answer
    [Inhibit], the first toggle ends in the D-Bus exception; the activated
    flag is flipped, but nothing is emitted and no status is composed. *)
Lemma C2_counterexample :
  let (r, w') := toggle_activated true env_gnome_down init_world in
  r = Raise (DBusException "org.freedesktop.DBus.Error.NoReply") /\
  inhibition_activated (self w') = true /\
  inhibition_successful (self w') = false /\
  status_string (self w') = EmptyString /\
  emits (trace w') = [].
Proof. vm_compute. repeat split. Qed.

(** With Gnome3 detected and inhibition not yet successful, an [Inhibit]
    that raises ends the toggle with that exception. *)
Lemma gnome3_inhibit_failure_escapes note env w e :
  inhibition_activated (self w) = false ->
  inhibition_successful (self w) = false ->
  detected_type env = "Gnome3" ->
  proxy_Inhibit env SessionManager = Raise e ->
  fst (__toggle_activated note env w) = Raise e.
Proof.
  intros Ha Hs Hd He. destruct w as [[] ts tr]. simpl in Ha, Hs. subst.
  unfold __toggle_activated, _performTogglingActions,
    _detectScreensaverAndPowersavingType, _toggleGnome3, _toggleDPMS, type_is.
  unfold_monad. simpl. rewrite Hd. simpl. rewrite He. reflexivity.
Qed.

(** C2 (amended).  A toggle always flips the activated flag.  No D-Bus call
    of an adapter is guarded: the toggle raises exactly when one of the
    calls its adapter makes raises ([Inhibit] or [Uninhibit] of Gnome3;
    either [Inhibit] and either [UnInhibit] of KDE), and with the exception
    of the first call that does.  Then [__inhibition_successful] stays as it
    was, nothing is emitted, and the status string stays as the first half
    of the toggle left it: untouched when the toggle activates, the
    "dormant" message, not cleared, when it deactivates.  When no call
    raises the toggle also flips [__inhibition_successful], emits once and
    clears the status string; with the DPMS and XSS+DPMS adapters, which
    only run shell commands, that is always so.  (The adapter finds the
    cookies as the first half of the toggle leaves them: as they were,
    unless the notification of a deactivating toggle has replaced the
    screensaver cookie.) *)
Theorem C2_backend_failure_leaves_the_toggle :
  forall note env w,
    (let (r, w') := __toggle_activated note env w in
     inhibition_activated (self w') = negb (inhibition_activated (self w)) /\
     match r with
     | Ok _ =>
         inhibition_successful (self w') = negb (inhibition_successful (self w)) /\
         emits (trace w') =
           emits (trace w) ++
           [(inhibition_activated (self w'), toggle_status env w)] /\
         status_string (self w') = EmptyString
     | Raise e =>
         inhibition_successful (self w') = inhibition_successful (self w) /\
         emits (trace w') = emits (trace w) /\
         status_string (self w') = head_status w /\
         (backend_raises env e /\
          (detected_type env = "Gnome3" \/ detected_type env = "KDE") \/
          dangling w)
     end) /\
    fst (_performTogglingActions env w) =
      failure_result (backend_failure env (self w)) /\
    (~ dangling w ->
     let w1 := snd (toggle_head note env w) in
     fst (__toggle_activated note env w) =
       failure_result (backend_failure env (self w1)) /\
     inhibition_successful (self w1) = inhibition_successful (self w) /\
     powerManagementCookie (self w1) = powerManagementCookie (self w) /\
     (screenSaverCookie (self w1) = screenSaverCookie (self w) \/
      ~ quiet_toggle note w /\
      exists p k, ssProxy (self w) = Some p /\ proxy_Inhibit env p = Ok k /\
                  screenSaverCookie (self w1) = Some k) /\
     (quiet_toggle note w ->
      fst (__toggle_activated note env w) =
        failure_result (backend_failure env (self w)))) /\
    (forall e,
       inhibition_activated (self w) = false ->
       inhibition_successful (self w) = false ->
       detected_type env = "Gnome3" ->
       proxy_Inhibit env SessionManager = Raise e ->
       fst (__toggle_activated note env w) = Raise e) /\
    (detected_type env = "DPMS" \/ detected_type env = "XSS+DPMS" ->
     ~ dangling w ->
     fst (__toggle_activated note env w) = Ok tt).
Proof.
  intros note env w.
  pose proof (__toggle_activated_spec note env w) as H. unfold post in H.
  pose proof (__toggle_activated_raise_status note env w) as Hst.
  destruct (__toggle_activated note env w) as [r w'] eqn:E. cbn [fst snd] in H, Hst.
  destruct H as (_ & Ha & _ & Hr).
  split; [|split; [|split; [|split]]].
  - split; [exact Ha|]. destruct r as [[]|e].
    + destruct Hr as (Hs & He & Hs' & _). rewrite Ha. auto.
    + destruct Hr as (Hs & He & Hw). pose proof (Hst e eq_refl). auto.
  - apply _performTogglingActions_result.
  - intros Hd. cbv zeta.
    pose proof (toggle_head_spec note env w) as P. unfold post in P.
    destruct P as (_ & Hs & Hpm & _ & _ & Hck & _).
    rewrite <- E.
    split; [apply __toggle_activated_result, Hd|].
    split; [exact Hs|]. split; [exact Hpm|]. split; [exact Hck|].
    intros Hq. apply __toggle_activated_result_quiet; assumption.
  - intros e H1 H2 H3 H4.
    rewrite <- (gnome3_inhibit_failure_escapes note env w e H1 H2 H3 H4), E.
    reflexivity.
  - intros Hd Ht. cbn [fst]. destruct r as [[]|e]; [reflexivity|].
    destruct Hr as (_ & _ & [[_ [Hg|Hk]]|Hdang]).
    + destruct Hd as [Hd|Hd]; rewrite Hd in Hg; discriminate.
    + destruct Hd as [Hd|Hd]; rewrite Hd in Hk; discriminate.
    + contradiction.
Qed.

Lemma C2_witness :
  (* Gnome3: Inhibit, then Uninhibit *)
  fst (__toggle_activated true env_gnome_down init_world) =
    Raise (DBusException "org.freedesktop.DBus.Error.NoReply") /\
  fst (__toggle_activated true env_gnome_stuck gnome_world) =
    Raise (DBusException "org.freedesktop.DBus.Error.NoReply") /\
  (* KDE: the Inhibit of the screensaver, after that of power management *)
  fst (__toggle_activated true
         (env_kde (Ok 3%Z) (Raise (DBusException "org.freedesktop.DBus.Error.NoReply")))
         init_world) =
    Raise (DBusException "org.freedesktop.DBus.Error.NoReply") /\
  (* no D-Bus service *)
  fst (__toggle_activated true env_plain init_world) = Ok tt.
Proof.
  assert (D0 : ~ dangling init_world)
    by (apply not_dangling_without_timer; vm_compute; reflexivity).
  assert (D1 : ~ dangling gnome_world)
    by (apply not_dangling_without_timer; vm_compute; reflexivity).
  split; [|split; [|split]].
  - pose proof (C2_backend_failure_leaves_the_toggle true env_gnome_down init_world)
      as (_ & _ & _ & H & _).
    apply H; vm_compute; reflexivity.
  - pose proof (C2_backend_failure_leaves_the_toggle true env_gnome_stuck gnome_world)
      as (_ & _ & H & _).
    destruct (H D1) as (_ & _ & _ & _ & Hq).
    refine (eq_trans (Hq _) _).
    + right. right. vm_compute. reflexivity.
    + vm_compute. reflexivity.
  - pose proof (C2_backend_failure_leaves_the_toggle true
                  (env_kde (Ok 3%Z)
                     (Raise (DBusException "org.freedesktop.DBus.Error.NoReply")))
                  init_world)
      as (_ & _ & H & _).
    destruct (H D0) as (_ & _ & _ & _ & Hq).
    refine (eq_trans (Hq _) _).
    + right. right. vm_compute. reflexivity.
    + vm_compute. reflexivity.
  - pose proof (C2_backend_failure_leaves_the_toggle true env_plain init_world)
      as (_ & _ & _ & _ & H).
    apply H; [left; vm_compute; reflexivity|exact D0].
Defined.

(** C3, as stated, fails: one [timed_activation] from the fresh object
    makes one toggle and two emissions, and the first emission carries the
    activated flag as it was before the toggle. *)
Lemma C3_counterexample :
  let ops := [(OpTimedActivation 5 true, env_plain)] in
  emits (trace (run ops init_world)) =
    [(false, "Activated for 5"); (true, "Activated for 5")] /\
  completed_toggles ops init_world = 1.
Proof. vm_compute. split; reflexivity. Qed.

Lemma run_op_emits op env w :
  let w' := snd (run_op op env w) in
  exists st,
    emits (trace w') =
      emits (trace w) ++ announcement op w ++
      (if toggle_completed op env w
       then [(inhibition_activated (self w'), st)] else []).
Proof.
  cbv zeta. unfold toggle_completed.
  destruct (run_op_spec op env w) as [(_ & Hs & He)|[(_ & Hs & st & He)|(_ & _ & Hs & He)]].
  - exists EmptyString. rewrite Hs, He, Bool.eqb_reflx, app_nil_r. reflexivity.
  - exists st. rewrite Hs, He.
    destruct (inhibition_successful (self w)); reflexivity.
  - exists EmptyString. rewrite Hs, He, Bool.eqb_reflx, app_nil_r. reflexivity.
Qed.

(** C3 (amended).  Every completed toggle, manual or automatic, makes
    exactly one emission, which carries the activated flag as the toggle
    leaves it and the status string of that toggle; a toggle that raises
    makes none, and a toggle raises exactly when a D-Bus call of its adapter
    does.  Besides,
    [timed_activation] itself emits once more, before it activates, whenever
    the status string is empty on entry: that emission carries the flag as
    it is before any toggle.  So along any run the number of emissions is
    the number of completed toggles plus the number of those
    announcements.  (The end of a timer's interval adds to neither: the
    callback raises before it reaches [toggle_activated], so it changes no
    attribute and makes no call to the outside.) *)
Theorem C3_emissions_are_toggles_and_announcements :
  (forall note env w,
     let (r, w') := __toggle_activated note env w in
     match r with
     | Ok _ =>
         emits (trace w') =
           emits (trace w) ++ [(inhibition_activated (self w'), toggle_status env w)]
     | Raise _ => emits (trace w') = emits (trace w)
     end) /\
  (forall note env w,
     ~ dangling w ->
     emits (trace (snd (__toggle_activated note env w))) =
       emits (trace w) ++
       match backend_failure env (self (snd (toggle_head note env w))) with
       | None => [(negb (inhibition_activated (self w)), toggle_status env w)]
       | Some _ => []
       end) /\
  (forall op env w,
     let w' := snd (run_op op env w) in
     exists st,
       emits (trace w') =
         emits (trace w) ++ announcement op w ++
         (if toggle_completed op env w
          then [(inhibition_activated (self w'), st)] else [])) /\
  (forall i env w,
     let w' := snd (run_op (OpTimerExpiry i) env w) in
     self w' = self w /\ trace w' = trace w) /\
  (forall ops w,
     length (emits (trace (run ops w))) =
       length (emits (trace w)) + completed_toggles ops w + announcements ops w).
Proof.
  split; [|split; [|split; [|split]]].
  - intros note env w.
    pose proof (__toggle_activated_spec note env w) as H. unfold post in H.
    destruct (__toggle_activated note env w) as [r w']. cbn [fst snd] in H.
    destruct H as (_ & Ha & _ & Hr). destruct r as [[]|e].
    + destruct Hr as (_ & He & _). rewrite Ha. exact He.
    + apply Hr.
  - intros note env w. apply __toggle_activated_emits.
  - apply run_op_emits.
  - intros i env w. apply (Timer_run_frame i env w).
  - induction ops as [|[op env] rest IH]; intros w.
    + simpl. lia.
    + cbn [run completed_toggles announcements]. rewrite IH.
      destruct (run_op_emits op env w) as (st & He). rewrite He.
      rewrite !length_app.
      destruct (toggle_completed op env w); simpl; lia.
Qed.

Lemma C3_witness :
  (* the session manager does not answer Uninhibit: no emission *)
  emits (trace (snd (__toggle_activated true env_gnome_stuck gnome_world))) =
    emits (trace gnome_world) /\
  (* it answers: one emission *)
  emits (trace (snd (__toggle_activated true env_gnome gnome_world))) =
    emits (trace gnome_world) ++ [(false, "Caffeine is dormant; powersaving is enabled")].
Proof.
  assert (D1 : ~ dangling gnome_world)
    by (apply not_dangling_without_timer; vm_compute; reflexivity).
  pose proof C3_emissions_are_toggles_and_announcements as (_ & H & _).
  split.
  - refine (eq_trans (H true env_gnome_stuck gnome_world D1) _).
    vm_compute. reflexivity.
  - refine (eq_trans (H true env_gnome gnome_world D1) _).
    vm_compute. reflexivity.
Defined.

(** C4.  [set_activated] with the value the flag already has returns at
    once: the world after the call is the world before it, with the same
    attributes (flags, cookies, timer reference), the same timer threads and
    not one more call to the outside. *)
Theorem C4_set_activated_to_current_value_is_a_noop :
  forall want note env w,
    inhibition_activated (self w) = want ->
    set_activated want note env w = (Ok tt, w).
Proof.
  intros want note env w <-.
  unfold set_activated, get_activated, bind, get_self, ret, when.
  rewrite Bool.eqb_reflx. reflexivity.
Qed.

Lemma C4_witness :
  set_activated true false env_gnome_down manual_world = (Ok tt, manual_world).
Proof.
  apply (C4_set_activated_to_current_value_is_a_noop true false env_gnome_down manual_world).
  vm_compute; reflexivity.
Defined.

(** C5, as stated, fails: in a KDE session whose power management service
    refuses [Inhibit], [toggle_activated] flips the flag and emits
    nothing. *)
Lemma C5_counterexample :
  let (r, w') := toggle_activated false env_kde_down init_world in
  r = Raise (DBusException "org.freedesktop.DBus.Error.AccessDenied") /\
  inhibition_activated (self w') = true /\
  emits (trace w') = emits (trace init_world).
Proof. vm_compute. repeat split. Qed.

(** C5 (amended).  Every call of [toggle_activated] flips the activated
    flag and clears the auto-activated flag, whatever happens.  It raises
    exactly when a D-Bus call of the adapter it selects raises, with the
    exception of the first such call, and returns otherwise; it emits
    exactly once when it returns, and not at all when it raises. *)
Theorem C5_toggle_activated_flips_and_emits_when_it_returns :
  forall note env w,
    (let (r, w') := toggle_activated note env w in
     inhibition_activated (self w') = negb (inhibition_activated (self w)) /\
     auto_activated (self w') = false /\
     match r with
     | Ok _ =>
         emits (trace w') =
           emits (trace w) ++
           [(negb (inhibition_activated (self w)), toggle_status env w)]
     | Raise _ => emits (trace w') = emits (trace w)
     end) /\
    (~ dangling w ->
     let w0 := upd_self (set_auto_activated false) w in
     let failure := backend_failure env (self (snd (toggle_head note env w0))) in
     fst (toggle_activated note env w) = failure_result failure /\
     emits (trace (snd (toggle_activated note env w))) =
       emits (trace w) ++
       match failure with
       | None => [(negb (inhibition_activated (self w)), toggle_status env w)]
       | Some _ => []
       end) /\
    (~ dangling w ->
     quiet_toggle note w ->
     fst (toggle_activated note env w) =
       failure_result (backend_failure env (self w))).
Proof.
  intros note env w.
  pose proof (toggle_activated_spec note env w) as H. unfold post in H.
  destruct H as (Hau & Ha & _ & Hr).
  split; [|split].
  - destruct (toggle_activated note env w) as [r w']. cbn [fst snd] in *.
    repeat split; auto. destruct r; apply Hr.
  - intros Hd. cbv zeta.
    assert (E : fst (toggle_activated note env w) =
      failure_result (backend_failure env
        (self (snd (toggle_head note env (upd_self (set_auto_activated false) w)))))).
    { rewrite toggle_activated_unfold. apply __toggle_activated_result.
      rewrite dangling_auto. exact Hd. }
    split; [exact E|]. rewrite E in Hr.
    destruct (backend_failure env _) as [e|]; cbn [failure_result] in Hr.
    + rewrite app_nil_r. apply Hr.
    + apply Hr.
  - intros Hd Hq. rewrite toggle_activated_unfold.
    rewrite __toggle_activated_result_quiet;
      [|rewrite dangling_auto; exact Hd|exact Hq].
    f_equal.
Qed.

Lemma C5_witness :
  (* KDE: the screensaver service refuses after power management has agreed *)
  fst (toggle_activated false
         (env_kde (Ok 3%Z) (Raise (DBusException "org.freedesktop.DBus.Error.NoReply")))
         init_world) =
    Raise (DBusException "org.freedesktop.DBus.Error.NoReply") /\
  (* Gnome3: the session manager does not answer Uninhibit *)
  fst (toggle_activated true env_gnome_stuck gnome_world) =
    Raise (DBusException "org.freedesktop.DBus.Error.NoReply") /\
  emits (trace (snd (toggle_activated true env_gnome_stuck gnome_world))) =
    emits (trace gnome_world) /\
  (* Gnome3: the session manager answers *)
  fst (toggle_activated true env_gnome gnome_world) = Ok tt /\
  emits (trace (snd (toggle_activated true env_gnome gnome_world))) =
    emits (trace gnome_world) ++ [(false, "Caffeine is dormant; powersaving is enabled")].
Proof.
  assert (D0 : ~ dangling init_world)
    by (apply not_dangling_without_timer; vm_compute; reflexivity).
  assert (D1 : ~ dangling gnome_world)
    by (apply not_dangling_without_timer; vm_compute; reflexivity).
  split; [|split; [|split; [|split]]].
  - pose proof (C5_toggle_activated_flips_and_emits_when_it_returns false
                  (env_kde (Ok 3%Z)
                     (Raise (DBusException "org.freedesktop.DBus.Error.NoReply")))
                  init_world)
      as (_ & _ & H).
    refine (eq_trans (H D0 _) _).
    + left. reflexivity.
    + vm_compute. reflexivity.
  - pose proof (C5_toggle_activated_flips_and_emits_when_it_returns true
                  env_gnome_stuck gnome_world) as (_ & H & _).
    refine (eq_trans (proj1 (H D1)) _). vm_compute. reflexivity.
  - pose proof (C5_toggle_activated_flips_and_emits_when_it_returns true
                  env_gnome_stuck gnome_world) as (_ & H & _).
    refine (eq_trans (proj2 (H D1)) _). vm_compute. reflexivity.
  - pose proof (C5_toggle_activated_flips_and_emits_when_it_returns true
                  env_gnome gnome_world) as (_ & H & _).
    refine (eq_trans (proj1 (H D1)) _). vm_compute. reflexivity.
  - pose proof (C5_toggle_activated_flips_and_emits_when_it_returns true
                  env_gnome gnome_world) as (_ & H & _).
    refine (eq_trans (proj2 (H D1)) _). vm_compute. reflexivity.
Defined.

(** C6.  From an object that is off (not activated, no timer pending, no
    live timer thread), let [timed_activation(5)] return, and call
    [timed_activation(10)] before the first timer fires.  The second call
    returns too; it logs the supersession with both durations, then cancels
    the 5 s timer, then starts the 10 s timer, which is the one timer live
    afterwards and the one [self.timer] refers to; on the way it emits only
    the "Activated for 10" announcement, with the flag set; and when the
    interval of the cancelled 5 s thread is over nothing happens at all. *)
Theorem C6_second_timed_activation_supersedes_the_first :
  forall note1 note2 env1 env2 w w1,
    inhibition_activated (self w) = false ->
    timer (self w) = None ->
    live_timers w = [] ->
    timed_activation 5 note1 env1 w = (Ok tt, w1) ->
    exists w2 before,
      timed_activation 10 note2 env2 w1 = (Ok tt, w2) /\
      live_timers w2 =
        [{| interval := 10; name := "Active"; args := note2; finished := false |}] /\
      timer (self w2) = Some (S (length (timers w))) /\
      timers w2 !! S (length (timers w)) =
        Some {| interval := 10; name := "Active"; args := note2; finished := false |} /\
      timers w2 !! length (timers w) =
        Some {| interval := 5; name := "Active"; args := note1; finished := true |} /\
      trace w2 = trace w1 ++ before ++
        [Log INFO ("Previous timed activation cancelled due to a second timed " +:+
                   "activation request (was set for 5 or 10 seconds )");
         TimerCancel (length (timers w));
         TimerStart (S (length (timers w))) 10] /\
      emits before = [(true, "Activated for 10")] /\
      (forall env3, Timer_run (length (timers w)) env3 w2 = (Ok tt, w2)).
Proof.
  intros note1 note2 env1 env2 w w1 Hact Htimer Hlive H1.
  pose proof (timed_activation_from_off 5 note1 env1 w Hact Htimer) as P1.
  unfold post in P1. rewrite H1 in P1. cbn [fst snd] in P1.
  destruct (P1 eq_refl) as (Ha1 & Hs1 & Hti1 & Hts1). clear P1.
  set (t5 := {| interval := 5; name := "Active"; args := note1; finished := false |}) in *.
  assert (Hd : timers w1 !! length (timers w) = Some t5).
  { rewrite Hts1. apply list_lookup_middle. reflexivity. }
  pose proof (timed_activation_supersedes 10 note2 env2 w1 _ _ Ha1 Hs1 Hti1 Hd) as P2.
  unfold post in P2.
  destruct (timed_activation 10 note2 env2 w1) as [r w2]. cbn [fst snd] in P2.
  destruct P2 as (-> & Hti2 & Hts2 & before & Hem & Htr).
  assert (Hlen : length (timers w1) = S (length (timers w))).
  { rewrite Hts1, length_app. simpl. lia. }
  assert (Hts2' : timers w2 = timers w ++
            [Timer_set_finished t5;
             {| interval := 10; name := "Active"; args := note2; finished := false |}]).
  { rewrite Hts2, Hts1.
    rewrite insert_app_r_alt by lia. rewrite Nat.sub_diag. cbn [list_insert].
    rewrite <- app_assoc. reflexivity. }
  exists w2, before. repeat split.
  - unfold live_timers in *. rewrite Hts2', filter_app, Hlive. reflexivity.
  - rewrite Hti2, Hlen. reflexivity.
  - rewrite Hts2'. rewrite lookup_app_r by lia.
    replace (S (length (timers w)) - length (timers w)) with 1 by lia. reflexivity.
  - rewrite Hts2'. rewrite lookup_app_r by lia. rewrite Nat.sub_diag. reflexivity.
  - rewrite Htr, Hlen. reflexivity.
  - exact Hem.
  - intros env3. unfold Timer_run, bind, get_timers.
    rewrite Hts2'. rewrite lookup_app_r by lia. rewrite Nat.sub_diag. reflexivity.
Qed.

Lemma C6_witness :
  exists w2 before,
    timed_activation 10 true env_gnome
      (snd (timed_activation 5 true env_gnome init_world)) = (Ok tt, w2) /\
    live_timers w2 =
      [{| interval := 10; name := "Active"; args := true; finished := false |}] /\
    timer (self w2) = Some 1 /\
    timers w2 !! 1 =
      Some {| interval := 10; name := "Active"; args := true; finished := false |} /\
    timers w2 !! 0 =
      Some {| interval := 5; name := "Active"; args := true; finished := true |} /\
    trace w2 = trace (snd (timed_activation 5 true env_gnome init_world)) ++ before ++
      [Log INFO ("Previous timed activation cancelled due to a second timed " +:+
                 "activation request (was set for 5 or 10 seconds )");
       TimerCancel 0;
       TimerStart 1 10] /\
    emits before = [(true, "Activated for 10")] /\
    (forall env3, Timer_run 0 env3 w2 = (Ok tt, w2)).
Proof.
  apply (C6_second_timed_activation_supersedes_the_first
           true true env_gnome env_gnome init_world
           (snd (timed_activation 5 true env_gnome init_world)));
    vm_compute; reflexivity.
Defined.

(** C7.  While inhibition is on and was not switched on by the poll, a
    poll writes one debug line and returns: whatever runs and whatever
    window is in front, the attributes, the timer threads and the rest of
    the trace are as before (no backend call, no emission, no toggle). *)
Theorem C7_poll_leaves_manual_activation_alone :
  forall env w,
    inhibition_activated (self w) = true ->
    auto_activated (self w) = false ->
    __attempt_autoactivation env w =
      (Ok true,
       with_trace w
         [Log DEBUG "Inhibition manually activated. Won't attempt to auto-activate"]).
Proof.
  intros env w Ha Hau.
  unfold __attempt_autoactivation, bind, get_self. rewrite Ha, Hau. reflexivity.
Qed.

Lemma C7_witness :
  __attempt_autoactivation env_player manual_world =
    (Ok true,
     with_trace manual_world
       [Log DEBUG "Inhibition manually activated. Won't attempt to auto-activate"]).
Proof.
  apply (C7_poll_leaves_manual_activation_alone env_player manual_world);
    vm_compute; reflexivity.
Defined.

(** C8, as stated, fails: inhibition is on by hand and a whitelisted
    process runs.  The poll is no auto-deactivation and the condition
    [process_running or (fullscreen and not auto_activated)] holds, yet the
    poll returns at its first test and the activation branch, which would
    set the auto-activated flag, is not taken. *)
Lemma C8_counterexample :
  auto_deactivation env_player manual_world = false /\
  any_process_running env_player ||
    query_fullscreen env_player && negb (auto_activated (self manual_world)) = true /\
  auto_activated (self (snd (__attempt_autoactivation env_player manual_world))) = false /\
  auto_activated (self (snd (activation_branch env_player manual_world))) = true.
Proof. vm_compute. repeat split. Qed.

(** C8 (amended).  On every poll that gets past the test for manual
    activation and is not an auto-deactivation, the poll only logs and then
    takes the activation branch exactly when
    [process_running or (fullscreen and not auto_activated)] holds: a
    running whitelisted process takes it whatever the auto-activated flag
    is, a fullscreen window alone does not once the flag is set. *)
Theorem C8_activation_branch_past_the_manual_test :
  forall env w,
    manually_activated w = false ->
    auto_deactivation env w = false ->
    exists logs, forallb is_log logs = true /\
      __attempt_autoactivation env w =
        (if any_process_running env ||
            query_fullscreen env && negb (auto_activated (self w))
         then activation_branch
         else ret true) env (with_trace w logs) /\
      (any_process_running env = true ->
       __attempt_autoactivation env w = activation_branch env (with_trace w logs)) /\
      (any_process_running env = false -> auto_activated (self w) = true ->
       __attempt_autoactivation env w = (Ok true, with_trace w logs)).
Proof.
  intros env w Hg Hd.
  destruct (poll_unfold env w Hg) as (logs & Hl & Heq).
  rewrite Hd in Heq. exists logs. repeat split; auto.
  - intros Hp. rewrite Heq, Hp. reflexivity.
  - intros Hp Hau. rewrite Heq, Hp, Hau, andb_false_r. reflexivity.
Qed.

Lemma C8_witness :
  exists logs, forallb is_log logs = true /\
    __attempt_autoactivation env_fullscreen auto_world =
      (if any_process_running env_fullscreen ||
          query_fullscreen env_fullscreen && negb (auto_activated (self auto_world))
       then activation_branch
       else ret true) env_fullscreen (with_trace auto_world logs) /\
    (any_process_running env_fullscreen = true ->
     __attempt_autoactivation env_fullscreen auto_world =
       activation_branch env_fullscreen (with_trace auto_world logs)) /\
    (any_process_running env_fullscreen = false ->
     auto_activated (self auto_world) = true ->
     __attempt_autoactivation env_fullscreen auto_world =
       (Ok true, with_trace auto_world logs)).
Proof.
  apply (C8_activation_branch_past_the_manual_test env_fullscreen auto_world);
    vm_compute; reflexivity.
Defined.

(** C9, as stated, fails for the deactivating toggle that follows an
    activation whose [Inhibit] raised.  The object is activated, no cookie
    was ever issued and [__inhibition_successful] is still clear, so the
    Gnome3 adapter takes its inhibiting branch: the deactivating toggle
    makes no uninhibit call, but it calls [Inhibit] and ends in the
    exception of that call. *)
Lemma C9_counterexample :
  let w1 := snd (toggle_activated true env_gnome_down init_world) in
  inhibition_activated (self w1) = true /\
  screenSaverCookie (self w1) = None /\
  powerManagementCookie (self w1) = None /\
  inhibit_id (self w1) = None /\
  timer (self w1) = None /\
  let (r, w2) := toggle_activated true env_gnome_down w1 in
  r = Raise (DBusException "org.freedesktop.DBus.Error.NoReply") /\
  inhibition_activated (self w2) = false /\
  trace w2 = trace w1 ++
    [Log INFO "Caffeine is now dormant; powersaving is re-enabled";
     Log DEBUG "Attempting to detect screensaver/powersaving type...";
     Log INFO "Successfully detected screensaver and powersaving type: Gnome3";
     Shell "xset -dpms"; Shell "xset s off";
     Inhibit SessionManager].
Proof. vm_compute. repeat split. Qed.

(** C9 (amended).  In the direction that releases, which is the one an
    adapter takes when it finds [__inhibition_successful] set, no adapter
    calls uninhibit for a cookie it does not hold, and the absence of a
    cookie raises nothing.  DPMS holds no cookie and only runs [xset];
    XSS+DPMS without a keepalive source id removes no source; Gnome3
    without a screensaver cookie makes no D-Bus call; KDE skips the
    [UnInhibit] of whichever of its two cookies is absent, and then makes
    only the call for the other one, if that one is present: nothing else
    can raise.  With all three absent, [_performTogglingActions] returns
    normally whatever backend is detected, having logged the detection and
    run [xset] and nothing more; and so does the whole deactivating toggle
    of an object that is activated and has no timer pending, which ends with
    its one emission. *)
Theorem C9_no_uninhibit_without_a_cookie :
  forall env w,
    inhibition_successful (self w) = true ->
    _toggleDPMS env w = (Ok tt, with_trace w xset_on) /\
    (inhibit_id (self w) = None ->
     _toggleXSSAndDPMS env w = (Ok tt, with_trace w xset_on)) /\
    (screenSaverCookie (self w) = None ->
     _toggleGnome3 env w =
       (Ok tt, upd_self (set_susuProxy (Some SessionManager)) (with_trace w xset_on))) /\
    (screenSaverCookie (self w) = None ->
     _toggleKDE env w =
       let w1 := upd_self (set_ssProxy (Some ScreenSaver)) (with_trace w xset_on) in
       match powerManagementCookie (self w) with
       | Some cookie =>
           (proxy_UnInhibit env PowerManagement cookie,
            with_trace w1 [UnInhibit PowerManagement cookie])
       | None => (Ok tt, w1)
       end) /\
    (powerManagementCookie (self w) = None ->
     _toggleKDE env w =
       let w1 := upd_self (set_ssProxy (Some ScreenSaver)) (with_trace w xset_on) in
       match screenSaverCookie (self w) with
       | Some cookie =>
           (proxy_UnInhibit env ScreenSaver cookie,
            with_trace w1 [UnInhibit ScreenSaver cookie])
       | None => (Ok tt, w1)
       end) /\
    (screenSaverCookie (self w) = None ->
     powerManagementCookie (self w) = None ->
     inhibit_id (self w) = None ->
     fst (_performTogglingActions env w) = Ok tt /\
     trace (snd (_performTogglingActions env w)) =
       trace w ++
       [Log DEBUG "Attempting to detect screensaver/powersaving type...";
        Log INFO ("Successfully detected screensaver and powersaving type: " +:+
                  detected_type env)] ++ xset_on) /\
    (forall note,
     inhibition_activated (self w) = true ->
     timer (self w) = None ->
     screenSaverCookie (self w) = None ->
     powerManagementCookie (self w) = None ->
     inhibit_id (self w) = None ->
     fst (__toggle_activated note env w) = Ok tt /\
     trace (snd (__toggle_activated note env w)) =
       trace w ++
       [Log INFO "Caffeine is now dormant; powersaving is re-enabled";
        Log DEBUG "Attempting to detect screensaver/powersaving type...";
        Log INFO ("Successfully detected screensaver and powersaving type: " +:+
                  detected_type env)] ++ xset_on ++
       [Emit false "Caffeine is dormant; powersaving is enabled"]).
Proof.
  intros env w Hs. destruct w as [[] ts tr]. simpl in Hs. subst.
  unfold xset_on, with_trace, upd_self.
  repeat split.
  - unfold _toggleDPMS. unfold_monad. simpl. rewrite <- app_assoc. reflexivity.
  - simpl. intros ->.
    unfold _toggleXSSAndDPMS, _toggleXSS, _toggleDPMS. unfold_monad. simpl.
    rewrite <- app_assoc. reflexivity.
  - simpl. intros ->.
    unfold _toggleGnome3, _toggleDPMS. unfold_monad. simpl.
    rewrite <- app_assoc. reflexivity.
  - simpl. intros ->.
    unfold _toggleKDE, _toggleDPMS. unfold_monad. simpl.
    destruct powerManagementCookie0 as [k|]; simpl.
    + destruct (proxy_UnInhibit env PowerManagement k) as [[]|e];
        rewrite <- !app_assoc; reflexivity.
    + rewrite <- app_assoc. reflexivity.
  - simpl. intros ->.
    unfold _toggleKDE, _toggleDPMS. unfold_monad. simpl.
    destruct screenSaverCookie0 as [k|]; simpl.
    + destruct (proxy_UnInhibit env ScreenSaver k) as [[]|e];
        rewrite <- !app_assoc; reflexivity.
    + rewrite <- app_assoc. reflexivity.
  - simpl in *. subst.
    unfold _performTogglingActions, _detectScreensaverAndPowersavingType,
      _toggleGnome3, _toggleKDE, _toggleXSSAndDPMS, _toggleXSS, _toggleDPMS, type_is.
    unfold_monad.
    destruct (detected_type_cases env) as [Hd|[Hd|[Hd|Hd]]]; rewrite Hd; reflexivity.
  - simpl in *. subst.
    unfold _performTogglingActions, _detectScreensaverAndPowersavingType,
      _toggleGnome3, _toggleKDE, _toggleXSSAndDPMS, _toggleXSS, _toggleDPMS, type_is.
    unfold_monad.
    destruct (detected_type_cases env) as [Hd|[Hd|[Hd|Hd]]]; rewrite Hd; simpl;
      rewrite <- !app_assoc; reflexivity.
  - simpl in *. subst.
    unfold __toggle_activated, _performTogglingActions,
      _detectScreensaverAndPowersavingType,
      _toggleGnome3, _toggleKDE, _toggleXSSAndDPMS, _toggleXSS, _toggleDPMS, type_is.
    unfold_monad.
    destruct (detected_type_cases env) as [Hd|[Hd|[Hd|Hd]]]; rewrite Hd; reflexivity.
  - simpl in *. subst.
    unfold __toggle_activated, _performTogglingActions,
      _detectScreensaverAndPowersavingType,
      _toggleGnome3, _toggleKDE, _toggleXSSAndDPMS, _toggleXSS, _toggleDPMS, type_is.
    unfold_monad.
    destruct (detected_type_cases env) as [Hd|[Hd|[Hd|Hd]]]; rewrite Hd; simpl;
      rewrite <- !app_assoc; reflexivity.
Qed.

Lemma C9_witness :
  _toggleDPMS env_gnome_down manual_world =
    (Ok tt, with_trace manual_world xset_on) /\
  _toggleXSSAndDPMS env_gnome_down manual_world =
    (Ok tt, with_trace manual_world xset_on) /\
  _toggleGnome3 env_gnome_down manual_world =
    (Ok tt, upd_self (set_susuProxy (Some SessionManager))
              (with_trace manual_world xset_on)) /\
  _toggleKDE env_gnome_down manual_world =
    (Ok tt, upd_self (set_ssProxy (Some ScreenSaver))
              (with_trace manual_world xset_on)) /\
  fst (_performTogglingActions env_gnome_down manual_world) = Ok tt /\
  fst (__toggle_activated true env_gnome_down manual_world) = Ok tt /\
  trace (snd (__toggle_activated true env_gnome_down manual_world)) =
    trace manual_world ++
    [Log INFO "Caffeine is now dormant; powersaving is re-enabled";
     Log DEBUG "Attempting to detect screensaver/powersaving type...";
     Log INFO "Successfully detected screensaver and powersaving type: Gnome3";
     Shell "xset +dpms"; Shell "xset s on";
     Emit false "Caffeine is dormant; powersaving is enabled"].
Proof.
  assert (Hs : inhibition_successful (self manual_world) = true)
    by (vm_compute; reflexivity).
  assert (Ha : inhibition_activated (self manual_world) = true)
    by (vm_compute; reflexivity).
  assert (Hss : screenSaverCookie (self manual_world) = None)
    by (vm_compute; reflexivity).
  assert (Hpm : powerManagementCookie (self manual_world) = None)
    by (vm_compute; reflexivity).
  assert (Hid : inhibit_id (self manual_world) = None)
    by (vm_compute; reflexivity).
  assert (Hti : timer (self manual_world) = None)
    by (vm_compute; reflexivity).
  pose proof (C9_no_uninhibit_without_a_cookie env_gnome_down manual_world Hs)
    as (H1 & H2 & H3 & H4 & _ & H6 & H7).
  split; [exact H1|].
  split; [exact (H2 Hid)|].
  split; [exact (H3 Hss)|].
  split; [refine (eq_trans (H4 Hss) _); vm_compute; reflexivity|].
  split; [exact (proj1 (H6 Hss Hpm Hid))|].
  split; [exact (proj1 (H7 true Ha Hti Hss Hpm Hid))|].
  refine (eq_trans (proj2 (H7 true Ha Hti Hss Hpm Hid)) _).
  vm_compute. reflexivity.
Defined.

(** C10, as stated, fails: a toggle that a backend failure cuts short has
    flipped the activated flag only, and the next toggle, which completes,
    flips both: after that completed entry inhibition is off and
    [__inhibition_successful] is set, and so it stays.  The adapter of the
    second toggle was steered by the failure of the call before: it
    inhibits while the toggle deactivates. *)
Lemma C10_counterexample :
  let w1 := snd (run_op (OpToggleActivated true) env_gnome_down init_world) in
  let (r, w2) := run_op (OpToggleActivated true) env_gnome w1 in
  r = Ok tt /\
  inhibition_activated (self w2) = false /\
  inhibition_successful (self w2) = true /\
  trace w2 = trace w1 ++
    [Log INFO "Caffeine is now dormant; powersaving is re-enabled";
     Log DEBUG "Attempting to detect screensaver/powersaving type...";
     Log INFO "Successfully detected screensaver and powersaving type: Gnome3";
     Shell "xset -dpms"; Shell "xset s off";
     Inhibit SessionManager;
     Log INFO ("Caffeine is now preventing powersaving modes and " +:+
               "screensaver activation (Gnome3)");
     Emit false "Caffeine is dormant; powersaving is enabled"].
Proof. vm_compute. repeat split. Qed.

Lemma all_complete_flags_mirror ops :
  forall w,
    inhibition_successful (self w) = inhibition_activated (self w) ->
    all_complete ops w ->
    inhibition_successful (self (run ops w)) = inhibition_activated (self (run ops w)).
Proof.
  induction ops as [|[op env] rest IH]; intros w Heq Hall; [exact Heq|].
  cbn [run all_complete] in *. destruct Hall as [Hok Hall].
  apply IH; [|exact Hall].
  destruct (run_op_spec op env w) as [(Ha & Hs & _)|[(Ha & Hs & _)|([e He] & _)]].
  - congruence.
  - congruence.
  - congruence.
Qed.

(** C10 (amended).  Both flags start [False].  A toggle that completes
    flips each of them once, and a toggle that raises flips only the
    activated flag; a toggle raises exactly when a D-Bus call of its adapter
    does.  So a toggle that completes keeps the two flags equal if they were
    equal and different if they were different, a toggle that raises turns
    equal flags into different ones and different flags into equal ones,
    and an entry that returns normally, whichever it is, keeps them as they
    were in that respect: the two flags are equal after every entry of a
    run in which every entry so far has returned normally.  The adapters
    read [__inhibition_successful] and not the activated flag. *)
Theorem C10_flags_mirror_while_every_entry_returns :
  (inhibition_activated Caffeine_init = false /\
   inhibition_successful Caffeine_init = false) /\
  (forall note env w,
     let (r, w') := __toggle_activated note env w in
     inhibition_activated (self w') = negb (inhibition_activated (self w)) /\
     inhibition_successful (self w') =
       match r with
       | Ok _ => negb (inhibition_successful (self w))
       | Raise _ => inhibition_successful (self w)
       end) /\
  (forall note env w,
     ~ dangling w ->
     fst (__toggle_activated note env w) =
       failure_result (backend_failure env (self (snd (toggle_head note env w))))) /\
  (forall note env w,
     let (r, w') := __toggle_activated note env w in
     inhibition_successful (self w') = inhibition_activated (self w') <->
     match r with
     | Ok _ => inhibition_successful (self w) = inhibition_activated (self w)
     | Raise _ => inhibition_successful (self w) <> inhibition_activated (self w)
     end) /\
  (forall op env w,
     fst (run_op op env w) = Ok tt ->
     let w' := snd (run_op op env w) in
     inhibition_successful (self w') = inhibition_activated (self w') <->
     inhibition_successful (self w) = inhibition_activated (self w)) /\
  (forall b env w,
     fst (_performTogglingActions env (upd_self (set_inhibition_activated b) w)) =
       fst (_performTogglingActions env w)) /\
  (forall ops w,
     inhibition_successful (self w) = inhibition_activated (self w) ->
     all_complete ops w ->
     inhibition_successful (self (run ops w)) =
       inhibition_activated (self (run ops w))).
Proof.
  split; [split; reflexivity|].
  assert (T : forall note env w,
     let (r, w') := __toggle_activated note env w in
     inhibition_activated (self w') = negb (inhibition_activated (self w)) /\
     inhibition_successful (self w') =
       match r with
       | Ok _ => negb (inhibition_successful (self w))
       | Raise _ => inhibition_successful (self w)
       end).
  { intros note env w.
    pose proof (__toggle_activated_spec note env w) as H. unfold post in H.
    destruct (__toggle_activated note env w) as [r w']. cbn [fst snd] in H.
    destruct H as (_ & Ha & _ & Hr). split; [exact Ha|].
    destruct r; apply Hr. }
  split; [exact T|]. split; [|split; [|split; [|split]]].
  - intros note env w. apply __toggle_activated_result.
  - intros note env w. specialize (T note env w).
    destruct (__toggle_activated note env w) as [r w']. destruct T as [Ha Hs].
    rewrite Ha, Hs.
    destruct r, (inhibition_successful (self w)), (inhibition_activated (self w));
      cbn; split; congruence.
  - intros op env w Hok. cbv zeta.
    destruct (run_op_spec op env w) as [(Ha & Hs & _)|[(Ha & Hs & _)|([e He] & _)]].
    + rewrite Ha, Hs. reflexivity.
    + rewrite Ha, Hs.
      destruct (inhibition_successful (self w)), (inhibition_activated (self w));
        cbn; split; congruence.
    + congruence.
  - intros b env w. rewrite !_performTogglingActions_result. reflexivity.
  - intros ops. apply all_complete_flags_mirror.
Qed.

Lemma C10_witness :
  let ops := [(OpTimedActivation 5 true, env_gnome);
              (OpPoll, env_player);
              (OpToggleActivated true, env_gnome);
              (OpPoll, env_player);
              (OpTimerExpiry 0, env_gnome);
              (OpToggleActivated false, env_plain)] in
  (* the timed activation returns, and keeps the flags equal *)
  (inhibition_successful (self (snd (run_op (OpTimedActivation 5 true) env_gnome init_world))) =
     inhibition_activated (self (snd (run_op (OpTimedActivation 5 true) env_gnome init_world))) <->
   inhibition_successful (self init_world) = inhibition_activated (self init_world)) /\
  (* a toggle raises when the session manager does not answer *)
  fst (__toggle_activated true env_gnome_down init_world) =
    Raise (DBusException "org.freedesktop.DBus.Error.NoReply") /\
  (* along a run of entries that all return the flags are equal *)
  inhibition_successful (self (run ops init_world)) =
    inhibition_activated (self (run ops init_world)).
Proof.
  cbv zeta.
  pose proof C10_flags_mirror_while_every_entry_returns as (_ & _ & H3 & _ & H5 & _ & H7).
  split; [|split].
  - apply (H5 (OpTimedActivation 5 true) env_gnome init_world).
    vm_compute. reflexivity.
  - refine (eq_trans (H3 true env_gnome_down init_world _) _).
    + apply not_dangling_without_timer. vm_compute. reflexivity.
    + vm_compute. reflexivity.
  - apply H7.
    + vm_compute. reflexivity.
    + vm_compute. repeat split.
Defined.

(** * Further properties of the code *)

(** ** Notifications *)

(** X1.  [_notify] always returns [False] and never raises, whatever the
    notification daemon and the screensaver service do: its
    [finally: return False] swallows every exception.  It leaves the three
    flags, the status string, the backend type, the timer reference and the
    timer threads alone and emits nothing. *)
Theorem X1_notify_returns_false_and_never_raises :
  forall message icon env w,
    let (r, w') := _notify message icon env w in
    r = Ok false /\
    inhibition_activated (self w') = inhibition_activated (self w) /\
    inhibition_successful (self w') = inhibition_successful (self w) /\
    auto_activated (self w') = auto_activated (self w) /\
    status_string (self w') = status_string (self w) /\
    screensaverAndPowersavingType (self w') = screensaverAndPowersavingType (self w) /\
    timer (self w') = timer (self w) /\
    timers w' = timers w /\
    emits (trace w') = emits (trace w).
Proof.
  intros message icon env w.
  pose proof (_notify_spec message icon env w) as H. unfold post in H.
  destruct (_notify message icon env w) as [r w']. cbn [fst snd] in H.
  destruct H as (Hr & Hv & Htv & Hty & _). views. repeat split; assumption.
Qed.

(** X2.  As long as no cookie is held, or inhibition is not successful,
    [_notify] makes no D-Bus call: it records the note and shows it, and if
    showing raises it logs the two error lines. *)
Theorem X2_notify_without_cookie_only_shows :
  forall message icon env w,
    screenSaverCookie (self w) = None \/ inhibition_successful (self w) = false ->
    _notify message icon env w =
      (Ok false,
       with_trace (upd_self (set_note (Some ("Caffeine", message, icon))) w)
         (NotifyShow "Caffeine" message icon ::
          match note_show env with
          | Ok _ => []
          | Raise e => notify_error_logs message e
          end)).
Proof.
  intros message icon env w H. destruct w as [[] ts tr]. simpl in H.
  unfold _notify, notify_error_logs, with_trace, upd_self. unfold_monad.
  destruct H as [-> | ->]; crunch; rewrite <- ?app_assoc; reflexivity.
Qed.

Lemma X2_witness :
  _notify "hello" full_cup_icon env_plain init_world =
    (Ok false,
     with_trace (upd_self (set_note (Some ("Caffeine", "hello", full_cup_icon))) init_world)
       [NotifyShow "Caffeine" "hello" full_cup_icon]).
Proof.
  apply (X2_notify_without_cookie_only_shows "hello" full_cup_icon env_plain init_world).
  left. reflexivity.
Defined.

(** X3.  The attribute [ssProxy] is assigned by [_toggleKDE] only.  On an
    object that never ran the KDE adapter, [_notify] called while a cookie
    is held and inhibition is successful (a Gnome3 session that inhibits)
    shows nothing: reading [self.ssProxy] raises, [show()] is not reached,
    and the two error lines are all that is produced. *)
Theorem X3_notify_with_cookie_but_no_ssProxy_shows_nothing :
  forall message icon env w cookie,
    ssProxy (self w) = None ->
    screenSaverCookie (self w) = Some cookie ->
    inhibition_successful (self w) = true ->
    _notify message icon env w =
      (Ok false,
       with_trace (upd_self (set_note (Some ("Caffeine", message, icon))) w)
         (notify_error_logs message
            (AttributeError "'Caffeine' object has no attribute 'ssProxy'"))).
Proof.
  intros message icon env w cookie H1 H2 H3. destruct w as [[] ts tr].
  simpl in H1, H2, H3. subst.
  unfold _notify, notify_error_logs, with_trace, upd_self. unfold_monad.
  crunch; rewrite <- ?app_assoc; reflexivity.
Qed.

Lemma X3_witness :
  _notify "hello" full_cup_icon env_gnome gnome_world =
    (Ok false,
     with_trace (upd_self (set_note (Some ("Caffeine", "hello", full_cup_icon))) gnome_world)
       (notify_error_logs "hello"
          (AttributeError "'Caffeine' object has no attribute 'ssProxy'"))).
Proof.
  apply (X3_notify_with_cookie_but_no_ssProxy_shows_nothing
           "hello" full_cup_icon env_gnome gnome_world 7%Z);
    vm_compute; reflexivity.
Defined.

(** X4.  With a screensaver proxy, a cookie and successful inhibition,
    [_notify] lifts the inhibition around the popup: it calls [UnInhibit]
    with the cookie held, shows the note, calls [Inhibit] again and stores
    the new cookie, in that order, when each call returns. *)
Theorem X4_notify_reinhibits_around_the_popup :
  forall message icon env w p cookie cookie',
    ssProxy (self w) = Some p ->
    screenSaverCookie (self w) = Some cookie ->
    inhibition_successful (self w) = true ->
    proxy_UnInhibit env p cookie = Ok tt ->
    note_show env = Ok tt ->
    proxy_Inhibit env p = Ok cookie' ->
    _notify message icon env w =
      (Ok false,
       with_trace
         (upd_self (fun c => set_screenSaverCookie (Some cookie')
                               (set_note (Some ("Caffeine", message, icon)) c)) w)
         [UnInhibit p cookie; NotifyShow "Caffeine" message icon; Inhibit p]).
Proof.
  intros message icon env w p cookie cookie' H1 H2 H3 H4 H5 H6.
  destruct w as [[] ts tr]. simpl in H1, H2, H3. subst.
  unfold _notify, with_trace, upd_self. unfold_monad.
  destruct note0; cbn; rewrite H4; cbn; rewrite H5; cbn; rewrite H6; cbn;
    rewrite <- !app_assoc; reflexivity.
Qed.

Lemma X4_witness :
  let w := snd (toggle_activated true (env_kde (Ok 3%Z) (Ok 4%Z)) init_world) in
  _notify "hello" full_cup_icon (env_kde (Ok 5%Z) (Ok 6%Z)) w =
    (Ok false,
     with_trace
       (upd_self (fun c => set_screenSaverCookie (Some 6%Z)
                             (set_note (Some ("Caffeine", "hello", full_cup_icon)) c)) w)
       [UnInhibit ScreenSaver 4; NotifyShow "Caffeine" "hello" full_cup_icon;
        Inhibit ScreenSaver]).
Proof.
  apply (X4_notify_reinhibits_around_the_popup "hello" full_cup_icon
           (env_kde (Ok 5%Z) (Ok 6%Z))
           (snd (toggle_activated true (env_kde (Ok 3%Z) (Ok 4%Z)) init_world))
           ScreenSaver 4%Z 6%Z);
    vm_compute; reflexivity.
Defined.

(** ** Backend dispatch and the adapters *)

Lemma dbus_calls_app t1 t2 : dbus_calls (t1 ++ t2) = dbus_calls t1 ++ dbus_calls t2.
Proof.
  induction t1 as [|e t1 IH]; [reflexivity|].
  destruct e; simpl; rewrite ?IH; reflexivity.
Qed.

Ltac unfold_perform :=
  unfold _performTogglingActions, _detectScreensaverAndPowersavingType,
    _toggleGnome3, _toggleKDE, _toggleXSSAndDPMS, _toggleXSS, _toggleDPMS, type_is;
  unfold_monad.

(** X5.  Unless the Gnome session manager, or both freedesktop services,
    are on the session bus, [_performTogglingActions] makes no D-Bus call at
    all, keeps both cookies as they are and cannot raise: one freedesktop
    service alone does not select the KDE adapter. *)
Theorem X5_no_dbus_call_without_the_services :
  forall env w,
    contains "org.gnome.SessionManager" (list_names env) = false ->
    contains "org.freedesktop.ScreenSaver" (list_names env) &&
      contains "org.freedesktop.PowerManagement.Inhibit" (list_names env) = false ->
    let (r, w') := _performTogglingActions env w in
    r = Ok tt /\
    dbus_calls (trace w') = dbus_calls (trace w) /\
    screenSaverCookie (self w') = screenSaverCookie (self w) /\
    powerManagementCookie (self w') = powerManagementCookie (self w).
Proof.
  intros env w Hg Hk.
  assert (Hd : detected_type env = "XSS+DPMS" \/ detected_type env = "DPMS").
  { unfold detected_type. rewrite Hg, Hk. destruct (isProcessRunning env _); auto. }
  destruct w as [[] ts tr]. unfold_perform.
  destruct Hd as [Hd|Hd]; rewrite Hd; crunch;
    rewrite ?dbus_calls_app; simpl; rewrite ?app_nil_r; auto.
Qed.

Lemma X5_witness :
  let (r, w') := _performTogglingActions env_xss gnome_world in
  r = Ok tt /\
  dbus_calls (trace w') = dbus_calls (trace gnome_world) /\
  screenSaverCookie (self w') = screenSaverCookie (self gnome_world) /\
  powerManagementCookie (self w') = powerManagementCookie (self gnome_world).
Proof.
  apply (X5_no_dbus_call_without_the_services env_xss gnome_world);
    vm_compute; reflexivity.
Defined.

(** X6.  Whatever backend is detected, [_performTogglingActions] runs the
    [xset] pair that matches the successful flag it finds ([-dpms], [s off]
    to inhibit; [+dpms], [s on] to release), and runs it before any D-Bus
    call: when such a call then raises, DPMS has been switched all the
    same. *)
Theorem X6_every_backend_switches_dpms_first :
  forall env w,
    exists before after,
      trace (snd (_performTogglingActions env w)) =
        trace w ++ before ++ xset_pair (inhibition_successful (self w)) ++ after /\
      dbus_calls before = [].
Proof.
  intros env w. destruct w as [[] ts tr]. unfold_perform.
  unfold xset_pair, xset_on, xset_off.
  destruct (detected_type_cases env) as [Hd|[Hd|[Hd|Hd]]]; rewrite Hd;
    crunch; rewrite <- ?app_assoc; cbn [app];
    first [ eexists [_; _]; eexists; split; [reflexivity|reflexivity]
          | eexists [_; _; _]; eexists; split; [reflexivity|reflexivity] ].
Qed.

(** X7.  Gnome3: the cookie [Inhibit] returns is stored, and the next
    toggle of the adapter hands exactly that cookie to [Uninhibit], as its
    only D-Bus call; the cookie stays stored after the release. *)
Theorem X7_gnome3_releases_the_cookie_it_was_given :
  forall env1 env2 w cookie,
    detected_type env1 = "Gnome3" ->
    detected_type env2 = "Gnome3" ->
    inhibition_successful (self w) = false ->
    proxy_Inhibit env1 SessionManager = Ok cookie ->
    let (r1, w1) := _performTogglingActions env1 w in
    r1 = Ok tt /\
    screenSaverCookie (self w1) = Some cookie /\
    inhibition_successful (self w1) = true /\
    dbus_calls (trace w1) = dbus_calls (trace w) ++ [Inhibit SessionManager] /\
    let (r2, w2) := _performTogglingActions env2 w1 in
    r2 = proxy_UnInhibit env2 SessionManager cookie /\
    dbus_calls (trace w2) = dbus_calls (trace w1) ++ [UnInhibit SessionManager cookie] /\
    screenSaverCookie (self w2) = Some cookie.
Proof.
  intros env1 env2 w cookie Hd1 Hd2 Hs Hi. destruct w as [[] ts tr].
  simpl in Hs. subst. unfold_perform.
  rewrite Hd1, Hd2. cbn. rewrite Hi. cbn.
  destruct (proxy_UnInhibit env2 SessionManager cookie) as [[]|e]; cbn;
    rewrite ?dbus_calls_app; cbn; rewrite ?app_nil_r; repeat split.
Qed.

Lemma X7_witness :
  let (r1, w1) := _performTogglingActions env_gnome init_world in
  r1 = Ok tt /\
  screenSaverCookie (self w1) = Some 7%Z /\
  inhibition_successful (self w1) = true /\
  dbus_calls (trace w1) = dbus_calls (trace init_world) ++ [Inhibit SessionManager] /\
  let (r2, w2) := _performTogglingActions env_gnome_down w1 in
  r2 = proxy_UnInhibit env_gnome_down SessionManager 7%Z /\
  dbus_calls (trace w2) = dbus_calls (trace w1) ++ [UnInhibit SessionManager 7%Z] /\
  screenSaverCookie (self w2) = Some 7%Z.
Proof.
  apply (X7_gnome3_releases_the_cookie_it_was_given
           env_gnome env_gnome_down init_world 7%Z); vm_compute; reflexivity.
Defined.

(** X8.  KDE: inhibiting asks the power management service first and the
    screensaver service second and stores both cookies; releasing hands the
    screensaver cookie back first and the power management cookie second. *)
Theorem X8_kde_acquires_and_releases_both_cookies :
  forall env1 env2 w pm ss,
    detected_type env1 = "KDE" ->
    detected_type env2 = "KDE" ->
    inhibition_successful (self w) = false ->
    proxy_Inhibit env1 PowerManagement = Ok pm ->
    proxy_Inhibit env1 ScreenSaver = Ok ss ->
    proxy_UnInhibit env2 ScreenSaver ss = Ok tt ->
    let (r1, w1) := _performTogglingActions env1 w in
    r1 = Ok tt /\
    powerManagementCookie (self w1) = Some pm /\
    screenSaverCookie (self w1) = Some ss /\
    dbus_calls (trace w1) =
      dbus_calls (trace w) ++ [Inhibit PowerManagement; Inhibit ScreenSaver] /\
    let (r2, w2) := _performTogglingActions env2 w1 in
    r2 = proxy_UnInhibit env2 PowerManagement pm /\
    dbus_calls (trace w2) =
      dbus_calls (trace w1) ++ [UnInhibit ScreenSaver ss; UnInhibit PowerManagement pm].
Proof.
  intros env1 env2 w pm ss Hd1 Hd2 Hs Hp Hss Hu. destruct w as [[] ts tr].
  simpl in Hs. subst. unfold_perform.
  rewrite Hd1, Hd2. cbn. rewrite Hp. cbn. rewrite Hss. cbn. rewrite Hu. cbn.
  destruct (proxy_UnInhibit env2 PowerManagement pm) as [[]|e]; cbn;
    rewrite ?dbus_calls_app; cbn; rewrite ?app_nil_r; repeat split;
    rewrite <- ?app_assoc; reflexivity.
Qed.

Lemma X8_witness :
  let (r1, w1) := _performTogglingActions (env_kde (Ok 3%Z) (Ok 4%Z)) init_world in
  r1 = Ok tt /\
  powerManagementCookie (self w1) = Some 3%Z /\
  screenSaverCookie (self w1) = Some 4%Z /\
  dbus_calls (trace w1) =
    dbus_calls (trace init_world) ++ [Inhibit PowerManagement; Inhibit ScreenSaver] /\
  let (r2, w2) := _performTogglingActions (env_kde (Ok 5%Z) (Ok 6%Z)) w1 in
  r2 = proxy_UnInhibit (env_kde (Ok 5%Z) (Ok 6%Z)) PowerManagement 3%Z /\
  dbus_calls (trace w2) =
    dbus_calls (trace w1) ++ [UnInhibit ScreenSaver 4%Z; UnInhibit PowerManagement 3%Z].
Proof.
  apply (X8_kde_acquires_and_releases_both_cookies
           (env_kde (Ok 3%Z) (Ok 4%Z)) (env_kde (Ok 5%Z) (Ok 6%Z)) init_world 3%Z 4%Z);
    vm_compute; reflexivity.
Defined.

(** X9.  KDE, when the screensaver service fails after the power
    management service has answered: the exception leaves the adapter with
    the power management cookie stored and the successful flag still unset.
    The next toggle therefore inhibits again: it asks both services anew and
    overwrites the stored power management cookie, which is never handed
    back. *)
Theorem X9_kde_half_inhibited_cookie_is_overwritten :
  forall env1 env2 w pm e pm' ss',
    detected_type env1 = "KDE" ->
    detected_type env2 = "KDE" ->
    inhibition_successful (self w) = false ->
    proxy_Inhibit env1 PowerManagement = Ok pm ->
    proxy_Inhibit env1 ScreenSaver = Raise e ->
    proxy_Inhibit env2 PowerManagement = Ok pm' ->
    proxy_Inhibit env2 ScreenSaver = Ok ss' ->
    let (r1, w1) := _performTogglingActions env1 w in
    r1 = Raise e /\
    powerManagementCookie (self w1) = Some pm /\
    screenSaverCookie (self w1) = screenSaverCookie (self w) /\
    inhibition_successful (self w1) = false /\
    let (r2, w2) := _performTogglingActions env2 w1 in
    r2 = Ok tt /\
    dbus_calls (trace w2) =
      dbus_calls (trace w1) ++ [Inhibit PowerManagement; Inhibit ScreenSaver] /\
    powerManagementCookie (self w2) = Some pm' /\
    screenSaverCookie (self w2) = Some ss'.
Proof.
  intros env1 env2 w pm e pm' ss' Hd1 Hd2 Hs Hp He Hp' Hs'.
  destruct w as [[] ts tr]. simpl in Hs. subst. unfold_perform.
  rewrite Hd1, Hd2. cbn. rewrite Hp. cbn. rewrite He. cbn.
  rewrite Hp'. cbn. rewrite Hs'. cbn.
  rewrite ?dbus_calls_app; cbn; rewrite ?app_nil_r; repeat split;
    rewrite <- ?app_assoc; reflexivity.
Qed.

Lemma X9_witness :
  let env1 := env_kde (Ok 3%Z) (Raise (DBusException "org.freedesktop.DBus.Error.NoReply")) in
  let env2 := env_kde (Ok 5%Z) (Ok 6%Z) in
  let (r1, w1) := _performTogglingActions env1 init_world in
  r1 = Raise (DBusException "org.freedesktop.DBus.Error.NoReply") /\
  powerManagementCookie (self w1) = Some 3%Z /\
  screenSaverCookie (self w1) = screenSaverCookie (self init_world) /\
  inhibition_successful (self w1) = false /\
  let (r2, w2) := _performTogglingActions env2 w1 in
  r2 = Ok tt /\
  dbus_calls (trace w2) =
    dbus_calls (trace w1) ++ [Inhibit PowerManagement; Inhibit ScreenSaver] /\
  powerManagementCookie (self w2) = Some 5%Z /\
  screenSaverCookie (self w2) = Some 6%Z.
Proof.
  apply (X9_kde_half_inhibited_cookie_is_overwritten
           (env_kde (Ok 3%Z) (Raise (DBusException "org.freedesktop.DBus.Error.NoReply")))
           (env_kde (Ok 5%Z) (Ok 6%Z)) init_world 3%Z
           (DBusException "org.freedesktop.DBus.Error.NoReply") 5%Z 6%Z);
    vm_compute; reflexivity.
Defined.

(** X10.  XSS+DPMS: inhibiting registers the 50 s keepalive with GLib
    before it runs [xset] and stores the source id; releasing removes
    exactly that source, then runs [xset]; neither direction can raise. *)
Theorem X10_xss_removes_the_keepalive_it_registered :
  forall env1 env2 w,
    detected_type env1 = "XSS+DPMS" ->
    detected_type env2 = "XSS+DPMS" ->
    inhibition_successful (self w) = false ->
    let (r1, w1) := _performTogglingActions env1 w in
    r1 = Ok tt /\
    inhibit_id (self w1) = Some (timeout_add env1) /\
    trace w1 = trace w ++
      [Log DEBUG "Attempting to detect screensaver/powersaving type...";
       Log INFO "Successfully detected screensaver and powersaving type: XSS+DPMS";
       TimeoutAdd 50000; Shell "xset -dpms"; Shell "xset s off";
       Log INFO ("Caffeine is now preventing powersaving modes and " +:+
                 "screensaver activation (XSS+DPMS)")] /\
    let (r2, w2) := _performTogglingActions env2 w1 in
    r2 = Ok tt /\
    trace w2 = trace w1 ++
      [Log DEBUG "Attempting to detect screensaver/powersaving type...";
       Log INFO "Successfully detected screensaver and powersaving type: XSS+DPMS";
       SourceRemove (timeout_add env1); Shell "xset +dpms"; Shell "xset s on"].
Proof.
  intros env1 env2 w Hd1 Hd2 Hs. destruct w as [[] ts tr].
  simpl in Hs. subst. unfold_perform.
  rewrite Hd1, Hd2. cbn. rewrite <- !app_assoc. repeat split.
Qed.

Lemma X10_witness :
  let (r1, w1) := _performTogglingActions env_xss init_world in
  r1 = Ok tt /\
  inhibit_id (self w1) = Some (timeout_add env_xss) /\
  trace w1 = trace init_world ++
    [Log DEBUG "Attempting to detect screensaver/powersaving type...";
     Log INFO "Successfully detected screensaver and powersaving type: XSS+DPMS";
     TimeoutAdd 50000; Shell "xset -dpms"; Shell "xset s off";
     Log INFO ("Caffeine is now preventing powersaving modes and " +:+
               "screensaver activation (XSS+DPMS)")] /\
  let (r2, w2) := _performTogglingActions env_xss w1 in
  r2 = Ok tt /\
  trace w2 = trace w1 ++
    [Log DEBUG "Attempting to detect screensaver/powersaving type...";
     Log INFO "Successfully detected screensaver and powersaving type: XSS+DPMS";
     SourceRemove (timeout_add env_xss); Shell "xset +dpms"; Shell "xset s on"].
Proof.
  apply (X10_xss_removes_the_keepalive_it_registered env_xss env_xss init_world);
    vm_compute; reflexivity.
Defined.

(** ** Toggles and timers *)

Lemma __toggle_activated_timers note env w :
  post (__toggle_activated note) env w (fun r w' =>
    tview w' = timers_after_toggle w).
Proof.
  unfold __toggle_activated.
  lazymatch goal with
  | |- post (bind get_self (fun c => bind _ ?rest)) _ _ _ => set (tail := rest)
  end.
  assert (Htail : forall w1, post (tail tt) env w1 (fun r w' => tview w' = tview w1)).
  { intros w1. subst tail. cbv beta.
    eapply post_spec; [apply _performTogglingActions_spec|].
    intros r w2 (Hty & Htv & Ha & Hau & Hst & Hem & Hr).
    destruct r as [[]|e]; [|exact Htv].
    msteps. rewrite Hty.
    destruct (String.eqb (status_string (self w2)) EmptyString); msteps; proj; exact Htv. }
  clearbody tail. mstep. unfold timers_after_toggle.
  destruct (inhibition_activated (self w)) eqn:Hact.
  - msteps. proj.
    destruct (timer (self w)) as [i|] eqn:Htimer.
    + call deref_spec.
      intros r w1 [-> Hd]. proj. destruct r as [t|e].
      2:{ rewrite Hd. proj. congruence. }
      rewrite Hd.
      destruct (String.eqb (name t) "Expired"); cbn [negb].
      * msteps. destruct note.
        -- call _notify_spec.
           intros r w1 (-> & Hv & Htv & _). msteps.
           eapply post_conseq; [apply Htail|].
           intros r w2 ->. views. congruence.
        -- msteps. eapply post_conseq; [apply Htail|].
           intros r w2 ->. proj. reflexivity.
      * msteps. destruct note.
        -- call _notify_spec.
           intros r w1 (-> & Hv & Htv & _).
           call Timer_cancel_spec.
           intros r w2 (Hv2 & Hs2 & Hr2). destruct r as [[]|e].
           ++ msteps. eapply post_conseq; [apply Htail|].
              intros r w3 ->. destruct Hr2 as (t' & Hd' & Hts & _). views.
              rewrite Hts. assert (t' = t) by congruence. subst t'.
              congruence.
           ++ destruct Hr2 as [Hn ->]. views. congruence.
        -- call Timer_cancel_spec.
           intros r w2 (Hv2 & Hs2 & Hr2). destruct r as [[]|e].
           ++ msteps. eapply post_conseq; [apply Htail|].
              intros r w3 ->. destruct Hr2 as (t' & Hd' & Hts & _). proj.
              assert (t' = t) by congruence. subst t'. rewrite Hts. reflexivity.
           ++ destruct Hr2 as [Hn ->]. proj. congruence.
    + msteps. eapply post_conseq; [apply Htail|].
      intros r w2 ->. proj. rewrite Htimer. reflexivity.
  - msteps. eapply post_conseq; [apply Htail|].
    intros r w2 ->. proj. reflexivity.
Qed.

(** All that [toggle_activated] is known to do. *)
Lemma toggle_activated_full note env w :
  post (toggle_activated note) env w (fun r w' =>
    auto_activated (self w') = false /\
    toggle_post env w r w' /\
    tview w' = timers_after_toggle w).
Proof.
  eapply post_conseq.
  - apply post_and; [apply toggle_activated_spec|].
    unfold toggle_activated. mstep. apply __toggle_activated_timers.
  - cbv beta. intros r w' [[H1 H2] H3]. auto.
Qed.

Lemma set_activated_flag activate note env w :
  post (set_activated activate note) env w (fun r w' =>
    inhibition_activated (self w') = activate).
Proof.
  unfold set_activated. mstep.
  destruct (Bool.eqb (inhibition_activated (self w)) activate) eqn:E; cbn [negb]; mstep.
  - apply Bool.eqb_prop in E. exact E.
  - eapply post_conseq; [apply toggle_activated_spec|].
    intros r w' (_ & Ha & _). rewrite Ha.
    destruct (inhibition_activated (self w)), activate; simpl in *; congruence.
Qed.

Lemma __set_activated_flag activate env w :
  post (__set_activated activate) env w (fun r w' =>
    inhibition_activated (self w') = activate /\
    auto_activated (self w') = auto_activated (self w)).
Proof.
  unfold __set_activated. mstep.
  destruct (Bool.eqb (inhibition_activated (self w)) activate) eqn:E; cbn [negb]; mstep.
  - apply Bool.eqb_prop in E. split; [exact E|reflexivity].
  - eapply post_conseq; [apply __toggle_activated_spec|].
    intros r w' (Hau & Ha & _). split; [|exact Hau]. rewrite Ha.
    destruct (inhibition_activated (self w)), activate; simpl in *; congruence.
Qed.

(** X11.  [set_activated] and [__set_activated] always leave the activated
    flag equal to the value asked for, also when the backend call of the
    toggle they make raises; [__set_activated] never touches the
    auto-activated flag. *)
Theorem X11_set_activated_reaches_the_requested_value :
  forall activate note env w,
    inhibition_activated (self (snd (set_activated activate note env w))) = activate /\
    inhibition_activated (self (snd (__set_activated activate env w))) = activate /\
    auto_activated (self (snd (__set_activated activate env w))) =
      auto_activated (self w).
Proof.
  intros activate note env w. split.
  - apply (set_activated_flag activate note env w).
  - apply (__set_activated_flag activate env w).
Qed.

(** X12.  Two calls of [toggle_activated] that both return bring the two
    inhibition flags back to where they were, leave the status string empty
    and make two emissions with opposite values of the activated flag. *)
Theorem X12_two_toggles_restore_the_flags :
  forall note1 note2 env1 env2 w w1 w2,
    toggle_activated note1 env1 w = (Ok tt, w1) ->
    toggle_activated note2 env2 w1 = (Ok tt, w2) ->
    inhibition_activated (self w2) = inhibition_activated (self w) /\
    inhibition_successful (self w2) = inhibition_successful (self w) /\
    status_string (self w2) = EmptyString /\
    emits (trace w2) =
      emits (trace w) ++
      [(negb (inhibition_activated (self w)), toggle_status env1 w);
       (inhibition_activated (self w), toggle_status env2 w1)].
Proof.
  intros note1 note2 env1 env2 w w1 w2 H1 H2.
  pose proof (toggle_activated_spec note1 env1 w) as P1.
  pose proof (toggle_activated_spec note2 env2 w1) as P2.
  unfold post in P1, P2. rewrite H1 in P1. rewrite H2 in P2. cbn [fst snd] in *.
  destruct P1 as (_ & Ha1 & _ & Hs1 & He1 & _).
  destruct P2 as (_ & Ha2 & _ & Hs2 & He2 & Hst2 & _).
  rewrite Ha2, Hs2, He2, Ha1, Hs1, He1, !negb_involutive, <- app_assoc.
  repeat split; auto.
Qed.

Lemma X12_witness :
  let w1 := snd (toggle_activated true env_gnome init_world) in
  let w2 := snd (toggle_activated false env_plain w1) in
  inhibition_activated (self w2) = inhibition_activated (self init_world) /\
  inhibition_successful (self w2) = inhibition_successful (self init_world) /\
  status_string (self w2) = EmptyString /\
  emits (trace w2) =
    emits (trace init_world) ++
    [(negb (inhibition_activated (self init_world)), toggle_status env_gnome init_world);
     (inhibition_activated (self init_world), toggle_status env_plain w1)].
Proof.
  apply (X12_two_toggles_restore_the_flags true false env_gnome env_plain init_world
           (snd (toggle_activated true env_gnome init_world))
           (snd (toggle_activated false env_plain
                   (snd (toggle_activated true env_gnome init_world)))));
    vm_compute; reflexivity.
Defined.

(** X13.  Switching inhibition off while a timed activation is pending
    cancels its timer and drops the reference to it, even when the backend
    call that follows raises; when the interval of the cancelled thread is
    over, nothing happens. *)
Theorem X13_toggling_off_cancels_the_pending_timer :
  forall note env w i t,
    inhibition_activated (self w) = true ->
    timer (self w) = Some i ->
    timers w !! i = Some t ->
    name t <> "Expired" ->
    let w' := snd (toggle_activated note env w) in
    inhibition_activated (self w') = false /\
    timer (self w') = None /\
    timers w' = <[i := Timer_set_finished t]> (timers w) /\
    (forall env', Timer_run i env' w' = (Ok tt, w')).
Proof.
  intros note env w i t Hact Htimer Hd Hname. cbv zeta.
  pose proof (toggle_activated_full note env w) as P. unfold post in P.
  destruct (toggle_activated note env w) as [r w']. cbn [fst snd] in *.
  destruct P as (_ & (Ha & _) & Htv).
  unfold timers_after_toggle in Htv. rewrite Hact, Htimer, Hd in Htv.
  apply String.eqb_neq in Hname. rewrite Hname in Htv.
  unfold tview in Htv. injection Htv as Hti Hts.
  rewrite Ha, Hact. repeat split; auto.
  intros env'. unfold Timer_run, bind, get_timers.
  rewrite Hts, list_lookup_insert_eq by (eapply lookup_lt_Some; eauto).
  reflexivity.
Qed.

Lemma X13_witness :
  let w' := snd (toggle_activated true env_gnome_down timed_world) in
  inhibition_activated (self w') = false /\
  timer (self w') = None /\
  timers w' =
    <[0 := Timer_set_finished
             {| interval := 5; name := "Active"; args := true; finished := false |}]>
      (timers timed_world) /\
  (forall env', Timer_run 0 env' w' = (Ok tt, w')).
Proof.
  apply (X13_toggling_off_cancels_the_pending_timer true env_gnome_down timed_world 0
           {| interval := 5; name := "Active"; args := true; finished := false |});
    try (vm_compute; reflexivity).
  discriminate.
Defined.

(** ** Timed activation *)

Lemma set_activated_true_timers note env w :
  post (set_activated true note) env w (fun r w' =>
    r = Ok tt ->
    inhibition_activated (self w') = true /\ tview w' = tview w).
Proof.
  unfold set_activated. mstep.
  destruct (inhibition_activated (self w)) eqn:Ha; cbn [Bool.eqb negb]; mstep.
  - intros _. split; [exact Ha|reflexivity].
  - eapply post_conseq; [apply toggle_activated_spec|].
    intros r w' (_ & Ha' & Htv & _) _. rewrite Ha', Ha. auto.
Qed.

Lemma timed_activation_timers time note env w :
  post (timed_activation time note) env w (fun r w' =>
    r = Ok tt ->
    inhibition_activated (self w') = true /\
    timer (self w') = Some (length (timers w)) /\
    timers w' = cancel_pending w ++
      [{| interval := time; name := "Active"; args := note; finished := false |}]).
Proof.
  unfold timed_activation. msteps. proj.
  assert (Hrest : forall w1,
    inhibition_activated (self w1) = true -> tview w1 = tview w ->
    post (when note (_notify (gettext "Timed activation set; " +:+
                              gettext "Caffeine will prevent powersaving for the next " +:+
                              str time) full_cup_icon ;; ret tt) ;;
          c <- get_self ;;
          match timer c with
          | Some i =>
              t <- deref i ;;
              logging INFO ("Previous timed activation cancelled due to a " +:+
                            "second timed activation request (was set for " +:+
                            str (interval t) +:+ " or " +:+ str time +:+ " seconds )") ;;
              Timer_cancel i
          | None => ret tt
          end ;;
          Timer_new time note) env w1 (fun r w' =>
      r = Ok tt ->
      inhibition_activated (self w') = true /\
      timer (self w') = Some (length (timers w)) /\
      timers w' = cancel_pending w ++
        [{| interval := time; name := "Active"; args := note; finished := false |}])).
  { intros w1 Ha1 Ht1.
    assert (Hk : forall w2, view w2 = view w1 -> tview w2 = tview w1 ->
      post (c <- get_self ;;
            match timer c with
            | Some i =>
                t <- deref i ;;
                logging INFO ("Previous timed activation cancelled due to a " +:+
                              "second timed activation request (was set for " +:+
                              str (interval t) +:+ " or " +:+ str time +:+ " seconds )") ;;
                Timer_cancel i
            | None => ret tt
            end ;;
            Timer_new time note) env w2 (fun r w' =>
        r = Ok tt ->
        inhibition_activated (self w') = true /\
        timer (self w') = Some (length (timers w)) /\
        timers w' = cancel_pending w ++
          [{| interval := time; name := "Active"; args := note; finished := false |}])).
    { intros w2 Hv2 Ht2. mstep.
      assert (Hti : timer (self w2) = timer (self w)) by (views; congruence).
      assert (Hts : timers w2 = timers w) by (views; congruence).
      assert (Ha2 : inhibition_activated (self w2) = true) by (views; congruence).
      unfold cancel_pending. rewrite Hti.
      destruct (timer (self w)) as [i|].
      - call deref_spec. intros r w3 [-> Hd]. destruct r as [t|e]; [|discriminate].
        rewrite Hts in Hd. rewrite Hd.
        call Timer_cancel_spec. intros r w3 (Hv3 & Hs3 & Hr3).
        destruct r as [[]|e]; [|discriminate].
        destruct Hr3 as (t' & Hd' & Hts3 & _). proj.
        rewrite Hts in Hd'. assert (t' = t) by congruence. subst t'.
        eapply post_conseq; [apply Timer_new_spec|].
        intros r w4 (_ & Hv4 & Hti4 & Hts4 & _) _.
        rewrite Hti4, Hts4, Hts3, length_insert, Hts.
        repeat split. views. congruence.
      - mstep. eapply post_conseq; [apply Timer_new_spec|].
        intros r w4 (_ & Hv4 & Hti4 & Hts4 & _) _.
        rewrite Hti4, Hts4, Hts. repeat split. views. congruence. }
    destruct note.
    - call _notify_spec. intros r w2 (-> & Hv & Htv & _). mstep. apply Hk; assumption.
    - msteps. apply Hk; reflexivity. }
  destruct (String.eqb (status_string (self w)) EmptyString).
  - msteps. eapply post_spec; [apply set_activated_true_timers|].
    intros r w1 H. destruct r as [[]|e]; [|discriminate].
    destruct (H eq_refl) as [Ha Htv]. apply Hrest; [exact Ha|]. rewrite Htv. proj. reflexivity.
  - msteps. eapply post_spec; [apply set_activated_true_timers|].
    intros r w1 H. destruct r as [[]|e]; [|discriminate].
    destruct (H eq_refl) as [Ha Htv]. apply Hrest; [exact Ha|]. rewrite Htv. proj. reflexivity.
Qed.

(** X14.  Whenever [timed_activation] returns, inhibition is activated,
    the timer that was pending before (if any) has been cancelled and stays
    in place as a finished thread, and [self.timer] refers to a new thread
    named "Active", not finished, whose interval is the requested time and
    whose callback argument is [note]. *)
Theorem X14_timed_activation_leaves_one_fresh_timer :
  forall time note env w w',
    timed_activation time note env w = (Ok tt, w') ->
    inhibition_activated (self w') = true /\
    timer (self w') = Some (length (timers w)) /\
    timers w' = cancel_pending w ++
      [{| interval := time; name := "Active"; args := note; finished := false |}] /\
    timers w' !! length (timers w) =
      Some {| interval := time; name := "Active"; args := note; finished := false |}.
Proof.
  intros time note env w w' H.
  pose proof (timed_activation_timers time note env w) as P. unfold post in P.
  rewrite H in P. cbn [fst snd] in P. destruct (P eq_refl) as (Ha & Hti & Hts).
  repeat split; auto.
  rewrite Hts. apply list_lookup_middle.
  unfold cancel_pending.
  destruct (timer (self w)) as [i|]; [|reflexivity].
  destruct (timers w !! i); [|reflexivity].
  rewrite length_insert. reflexivity.
Qed.

Lemma X14_witness :
  let w' := snd (timed_activation 10 false env_gnome timed_world) in
  inhibition_activated (self w') = true /\
  timer (self w') = Some (length (timers timed_world)) /\
  timers w' = cancel_pending timed_world ++
    [{| interval := 10; name := "Active"; args := false; finished := false |}] /\
  timers w' !! length (timers timed_world) =
    Some {| interval := 10; name := "Active"; args := false; finished := false |}.
Proof.
  apply (X14_timed_activation_leaves_one_fresh_timer 10 false env_gnome timed_world
           (snd (timed_activation 10 false env_gnome timed_world))).
  vm_compute. reflexivity.
Defined.

(** X15.  The timer thread never switches inhibition off.  When the
    interval of a thread that was not cancelled is over, [_deactivate]
    renames the thread [self.timer] refers to to "Expired" and then raises
    [TypeError]: [toggle_activated] takes [show_notification], not the
    keyword [note] it is called with.  No toggle takes place: the attributes
    of the object are untouched (inhibition stays as it was and the
    reference to the timer is kept), no call to the outside is made, nothing
    is emitted, and the [finished] event of the thread is not set.  The
    timed activation ends with the next deactivating toggle, which finds the
    thread named "Expired" and drops the reference without cancelling. *)
Theorem X15_timer_expiry_raises_before_it_toggles :
  forall env w i t j tj,
    timers w !! i = Some t ->
    finished t = false ->
    timer (self w) = Some j ->
    timers w !! j = Some tj ->
    let w' := snd (Timer_run i env w) in
    fst (Timer_run i env w) =
      Raise (TypeError "toggle_activated() got an unexpected keyword argument 'note'") /\
    self w' = self w /\
    trace w' = trace w /\
    timers w' = <[j := Timer_set_name "Expired" tj]> (timers w) /\
    (forall note env',
       inhibition_activated (self w) = true ->
       tview (snd (toggle_activated note env' w')) = (None, timers w')).
Proof.
  intros env w i t j tj Hd Hfin Htimer Hdj. cbv zeta.
  assert (Hlt : j < length (timers w)) by (eapply lookup_lt_Some; eauto).
  assert (E : Timer_run i env w =
    (Raise (TypeError "toggle_activated() got an unexpected keyword argument 'note'"),
     upd_timers (<[j := Timer_set_name "Expired" tj]> (timers w)) w)).
  { unfold Timer_run, _deactivate, deref, when, bind, get_timers, get_self,
      put_timers, raise, ret, upd_timers.
    rewrite Hd, Hfin. cbn. rewrite Htimer. cbn. rewrite Hdj. reflexivity. }
  rewrite E. cbn [fst snd]. unfold upd_timers. cbn [self timers trace].
  repeat split.
  intros note env' Hact.
  match goal with
  | |- tview (snd (toggle_activated _ _ ?w1)) = _ =>
      pose proof (toggle_activated_full note env' w1) as P
  end.
  unfold post in P. destruct P as (_ & _ & Htv). rewrite Htv.
  unfold timers_after_toggle. cbn [self timers trace].
  rewrite Hact, Htimer, list_lookup_insert_eq by exact Hlt. reflexivity.
Qed.

Lemma X15_witness :
  let w' := snd (Timer_run 0 env_gnome timed_world) in
  fst (Timer_run 0 env_gnome timed_world) =
    Raise (TypeError "toggle_activated() got an unexpected keyword argument 'note'") /\
  self w' = self timed_world /\
  trace w' = trace timed_world /\
  timers w' =
    <[0 := Timer_set_name "Expired"
             {| interval := 5; name := "Active"; args := true; finished := false |}]>
      (timers timed_world) /\
  (forall note env',
     inhibition_activated (self timed_world) = true ->
     tview (snd (toggle_activated note env' w')) = (None, timers w')).
Proof.
  apply (X15_timer_expiry_raises_before_it_toggles env_gnome timed_world 0
           {| interval := 5; name := "Active"; args := true; finished := false |} 0
           {| interval := 5; name := "Active"; args := true; finished := false |});
    vm_compute; reflexivity.
Defined.

(** X16.  [quit] cancels the pending timer and does nothing else: the
    attributes are untouched (the reference is kept, inhibition stays as it
    is and no cookie is given back), nothing is emitted, and the cancelled
    thread does nothing when its interval is over.  Without a pending timer
    [quit] does nothing at all. *)
Theorem X16_quit_only_cancels_the_timer :
  forall env w,
    (timer (self w) = None -> quit env w = (Ok tt, w)) /\
    (forall i t,
       timer (self w) = Some i ->
       timers w !! i = Some t ->
       quit env w =
         (Ok tt,
          {| self := self w;
             timers := <[i := Timer_set_finished t]> (timers w);
             trace := trace w ++ [TimerCancel i] |}) /\
       forall env', Timer_run i env' (snd (quit env w)) = (Ok tt, snd (quit env w))).
Proof.
  intros env w. split.
  - intros H. unfold quit, bind, get_self, ret. rewrite H. reflexivity.
  - intros i t Hti Hd.
    assert (Hq : quit env w =
      (Ok tt, {| self := self w;
                 timers := <[i := Timer_set_finished t]> (timers w);
                 trace := trace w ++ [TimerCancel i] |})).
    { unfold quit, Timer_cancel, deref. unfold_monad. rewrite Hti. cbn. rewrite Hd.
      reflexivity. }
    split; [exact Hq|]. intros env'. rewrite Hq. cbn [snd].
    unfold Timer_run, bind, get_timers. cbn [timers].
    rewrite list_lookup_insert_eq by (eapply lookup_lt_Some; eauto). reflexivity.
Qed.

Lemma X16_witness :
  quit env_plain init_world = (Ok tt, init_world) /\
  quit env_plain timed_world =
    (Ok tt,
     {| self := self timed_world;
        timers := <[0 := Timer_set_finished
                           {| interval := 5; name := "Active"; args := true;
                              finished := false |}]> (timers timed_world);
        trace := trace timed_world ++ [TimerCancel 0] |}).
Proof.
  split.
  - refine (proj1 (X16_quit_only_cancels_the_timer env_plain init_world) _).
    reflexivity.
  - refine (proj1 (proj2 (X16_quit_only_cancels_the_timer env_plain timed_world) 0
              {| interval := 5; name := "Active"; args := true; finished := false |}
              _ _)); vm_compute; reflexivity.
Defined.

(** ** The poll *)

Lemma check_processes_none procs b env w :
  existsb (isProcessRunning env) procs = false ->
  check_processes procs b env w = (Ok b, w).
Proof.
  revert b. induction procs as [|proc rest IH]; intros b H; [reflexivity|].
  cbn [existsb] in H. apply orb_false_elim in H as [Hp Hr].
  cbn [check_processes]. unfold bind at 1. unfold ask. rewrite Hp. apply IH, Hr.
Qed.

(** X17.  A poll on an object that is off, with no whitelisted process
    running and no fullscreen window in front, does nothing at all: not even
    a log line is written. *)
Theorem X17_idle_poll_does_nothing :
  forall env w,
    inhibition_activated (self w) = false ->
    auto_activated (self w) = false ->
    any_process_running env = false ->
    query_fullscreen env = false ->
    __attempt_autoactivation env w = (Ok true, w).
Proof.
  intros env w Ha Hau Hp Hf. unfold any_process_running in Hp.
  unfold __attempt_autoactivation.
  unfold bind at 1. unfold get_self. rewrite Ha. cbn [andb].
  unfold bind at 1. unfold ask.
  unfold bind at 1. rewrite (check_processes_none _ _ _ _ Hp).
  rewrite Hf. unfold bind, get_self, when, ret. rewrite Hau. reflexivity.
Qed.

Lemma X17_witness :
  __attempt_autoactivation env_plain init_world = (Ok true, init_world).
Proof.
  apply (X17_idle_poll_does_nothing env_plain init_world); reflexivity.
Defined.

Lemma poll_activates env w :
  inhibition_activated (self w) = false ->
  auto_activated (self w) = false ->
  any_process_running env || query_fullscreen env = true ->
  post __attempt_autoactivation env w (fun r w' =>
    inhibition_activated (self w') = true /\
    auto_activated (self w') = true /\
    (r = Ok true ->
     inhibition_successful (self w') = negb (inhibition_successful (self w)) /\
     emits (trace w') = emits (trace w) ++ [(true, composed_status env w)])).
Proof.
  intros Ha Hau Hc.
  assert (Hg : manually_activated w = false)
    by (unfold manually_activated; rewrite Ha; reflexivity).
  destruct (poll_unfold env w Hg) as (logs & Hl & Heq).
  unfold auto_deactivation in Heq. rewrite Hau, andb_false_r in Heq.
  cbn [negb] in Heq. rewrite andb_true_r, Hc in Heq.
  pose proof (emits_logs logs Hl) as He.
  cut (post activation_branch env (with_trace w logs)
      (fun r w' =>
         inhibition_activated (self w') = true /\
         auto_activated (self w') = true /\
         (r = Ok true ->
          inhibition_successful (self w') = negb (inhibition_successful (self w)) /\
          emits (trace w') = emits (trace w) ++ [(true, composed_status env w)]))).
  { unfold post. rewrite Heq. auto. }
  unfold activation_branch. msteps. unfold __set_activated at 1. msteps. proj.
  rewrite Ha. cbn [Bool.eqb negb].
  eapply post_spec; [apply __toggle_activated_spec|].
  intros r w1 (Hau1 & Ha1 & _ & Hr). proj. rewrite Ha in *.
  destruct r as [[]|e].
  - mstep. repeat split; auto.
    + apply Hr.
    + destruct Hr as (_ & Hem & _). rewrite Hem, emits_app, He, app_nil_r.
      unfold toggle_status, composed_status. proj. rewrite Ha. reflexivity.
  - repeat split; auto; discriminate.
Qed.

Lemma poll_deactivates env w :
  inhibition_activated (self w) = true ->
  auto_activated (self w) = true ->
  any_process_running env = false ->
  query_fullscreen env = false ->
  post __attempt_autoactivation env w (fun r w' =>
    inhibition_activated (self w') = false /\
    auto_activated (self w') = false /\
    tview w' = timers_after_toggle w /\
    (r = Ok true ->
     inhibition_successful (self w') = negb (inhibition_successful (self w)) /\
     emits (trace w') =
       emits (trace w) ++ [(false, "Caffeine is dormant; powersaving is enabled")])).
Proof.
  intros Ha Hau Hp Hf.
  assert (Hg : manually_activated w = false)
    by (unfold manually_activated; rewrite Ha, Hau; reflexivity).
  destruct (poll_unfold env w Hg) as (logs & Hl & Heq).
  unfold auto_deactivation in Heq. rewrite Hp, Hf, Hau in Heq. cbn [negb andb] in Heq.
  pose proof (emits_logs logs Hl) as He.
  cut (post deactivation_branch env (with_trace w logs)
      (fun r w' =>
         inhibition_activated (self w') = false /\
         auto_activated (self w') = false /\
         tview w' = timers_after_toggle w /\
         (r = Ok true ->
          inhibition_successful (self w') = negb (inhibition_successful (self w)) /\
          emits (trace w') =
            emits (trace w) ++ [(false, "Caffeine is dormant; powersaving is enabled")]))).
  { unfold post. rewrite Heq. auto. }
  unfold deactivation_branch. msteps. unfold __set_activated at 1. msteps. proj.
  rewrite Ha. cbn [Bool.eqb negb].
  eapply post_spec; [apply post_and;
    [apply __toggle_activated_spec|apply __toggle_activated_timers]|].
  cbv beta. intros r w1 [(Hau1 & Ha1 & _ & Hr) Htv].
  unfold timers_after_toggle in *. proj. rewrite Ha in *.
  destruct r as [[]|e].
  - mstep. repeat split; auto.
    + apply Hr.
    + destruct Hr as (_ & Hem & _). rewrite Hem, !emits_app, He.
      unfold toggle_status. proj. rewrite Ha. cbn [emits app]. rewrite !app_nil_r.
      reflexivity.
  - repeat split; auto; discriminate.
Qed.

(** X18.  The auto-activation cycle.  On an object that is off, a poll that
    finds a whitelisted process running or a fullscreen window activates
    inhibition and marks it auto-activated; when it returns it has emitted
    [True] once.  On the object so activated, a poll that finds neither
    switches inhibition off again and clears the mark; when it returns it
    has emitted [False] with the "dormant" status once. *)
Theorem X18_poll_activates_and_deactivates :
  forall env1 env2 w,
    inhibition_activated (self w) = false ->
    auto_activated (self w) = false ->
    any_process_running env1 || query_fullscreen env1 = true ->
    any_process_running env2 = false ->
    query_fullscreen env2 = false ->
    let (r1, w1) := __attempt_autoactivation env1 w in
    inhibition_activated (self w1) = true /\
    auto_activated (self w1) = true /\
    (r1 = Ok true ->
     emits (trace w1) = emits (trace w) ++ [(true, composed_status env1 w)]) /\
    let (r2, w2) := __attempt_autoactivation env2 w1 in
    inhibition_activated (self w2) = false /\
    auto_activated (self w2) = false /\
    (r2 = Ok true ->
     emits (trace w2) =
       emits (trace w1) ++ [(false, "Caffeine is dormant; powersaving is enabled")]).
Proof.
  intros env1 env2 w Ha Hau Hc Hp Hf.
  pose proof (poll_activates env1 w Ha Hau Hc) as P1. unfold post in P1.
  destruct (__attempt_autoactivation env1 w) as [r1 w1]. cbn [fst snd] in P1.
  destruct P1 as (Ha1 & Hau1 & Hr1).
  pose proof (poll_deactivates env2 w1 Ha1 Hau1 Hp Hf) as P2. unfold post in P2.
  destruct (__attempt_autoactivation env2 w1) as [r2 w2]. cbn [fst snd] in P2.
  destruct P2 as (Ha2 & Hau2 & _ & Hr2).
  repeat split; auto.
  - intros H. apply Hr1, H.
  - intros H. apply Hr2, H.
Qed.

Lemma X18_witness :
  let (r1, w1) := __attempt_autoactivation env_fullscreen init_world in
  inhibition_activated (self w1) = true /\
  auto_activated (self w1) = true /\
  (r1 = Ok true ->
   emits (trace w1) =
     emits (trace init_world) ++ [(true, composed_status env_fullscreen init_world)]) /\
  let (r2, w2) := __attempt_autoactivation env_plain w1 in
  inhibition_activated (self w2) = false /\
  auto_activated (self w2) = false /\
  (r2 = Ok true ->
   emits (trace w2) =
     emits (trace w1) ++ [(false, "Caffeine is dormant; powersaving is enabled")]).
Proof.
  apply (X18_poll_activates_and_deactivates env_fullscreen env_plain init_world);
    vm_compute; reflexivity.
Defined.

(** X19.  Switching off by hand an inhibition that a whitelisted process
    or a fullscreen window keeps on does not last: [toggle_activated] clears
    the auto-activated mark together with the activated flag, so the next
    poll that still finds the process or the window activates again. *)
Theorem X19_poll_reactivates_after_manual_switch_off :
  forall note env1 env2 w,
    inhibition_activated (self w) = true ->
    any_process_running env2 || query_fullscreen env2 = true ->
    let w1 := snd (toggle_activated note env1 w) in
    let w2 := snd (__attempt_autoactivation env2 w1) in
    inhibition_activated (self w1) = false /\
    auto_activated (self w1) = false /\
    inhibition_activated (self w2) = true /\
    auto_activated (self w2) = true.
Proof.
  intros note env1 env2 w Ha Hc. cbv zeta.
  pose proof (toggle_activated_spec note env1 w) as P1. unfold post in P1.
  destruct (toggle_activated note env1 w) as [r1 w1]. cbn [fst snd] in *.
  destruct P1 as (Hau1 & Ha1 & _). rewrite Ha in Ha1. cbn in Ha1.
  pose proof (poll_activates env2 w1 Ha1 Hau1 Hc) as P2. unfold post in P2.
  destruct (__attempt_autoactivation env2 w1) as [r2 w2]. cbn [fst snd] in *.
  destruct P2 as (Ha2 & Hau2 & _). auto.
Qed.

Lemma X19_witness :
  let w1 := snd (toggle_activated true env_player auto_world) in
  let w2 := snd (__attempt_autoactivation env_player w1) in
  inhibition_activated (self w1) = false /\
  auto_activated (self w1) = false /\
  inhibition_activated (self w2) = true /\
  auto_activated (self w2) = true.
Proof.
  apply (X19_poll_reactivates_after_manual_switch_off true env_player env_player auto_world);
    vm_compute; reflexivity.
Defined.

(** ** Timed activation on an object that is already activated *)

Lemma timed_activation_eq time note :
  timed_activation time note =
    (logging INFO ("Timed activation set for " +:+ str time) ;;
     c <- get_self ;;
     when (String.eqb (status_string c) EmptyString)
       (modify_self (set_status_string (gettext "Activated for " +:+ str time)) ;;
        a <- get_activated ;;
        c <- get_self ;;
        tell (Emit a (status_string c))) ;;
     set_activated true note ;;
     timed_activation_tail time note).
Proof. reflexivity. Qed.

Lemma timed_activation_tail_view time note env w :
  post (timed_activation_tail time note) env w (fun r w' => view w' = view w).
Proof.
  unfold timed_activation_tail.
  assert (Hk : forall w2, view w2 = view w ->
    post (c <- get_self ;;
          match timer c with
          | Some i =>
              t <- deref i ;;
              logging INFO ("Previous timed activation cancelled due to a " +:+
                            "second timed activation request (was set for " +:+
                            str (interval t) +:+ " or " +:+ str time +:+ " seconds )") ;;
              Timer_cancel i
          | None => ret tt
          end ;;
          Timer_new time note) env w2 (fun r w' => view w' = view w)).
  { intros w2 H2. mstep. destruct (timer (self w2)) as [i|].
    - call deref_spec. intros r w3 [-> Hd]. destruct r as [t|e]; [|exact H2].
      call Timer_cancel_spec. intros r w3 (Hv & _). destruct r as [[]|e].
      + eapply post_conseq; [apply Timer_new_spec|].
        intros r w4 (_ & Hv4 & _). rewrite Hv4, Hv, <- H2. norm. reflexivity.
      + rewrite Hv, <- H2. norm. reflexivity.
    - mstep. eapply post_conseq; [apply Timer_new_spec|].
      intros r w4 (_ & Hv4 & _). congruence. }
  destruct note.
  - call _notify_spec. intros r w2 (-> & Hv & _). mstep. apply Hk. exact Hv.
  - msteps. apply Hk. reflexivity.
Qed.

Lemma timed_activation_when_active time note env w :
  inhibition_activated (self w) = true ->
  post (timed_activation time note) env w (fun r w' =>
    inhibition_activated (self w') = true /\
    inhibition_successful (self w') = inhibition_successful (self w) /\
    auto_activated (self w') = auto_activated (self w) /\
    status_string (self w') =
      (if String.eqb (status_string (self w)) EmptyString
       then gettext "Activated for " +:+ str time
       else status_string (self w)) /\
    emits (trace w') =
      emits (trace w) ++ announcement (OpTimedActivation time note) w).
Proof.
  intros Ha. rewrite timed_activation_eq. msteps. proj. unfold announcement.
  destruct (String.eqb (status_string (self w)) EmptyString).
  - msteps. unfold set_activated at 1. msteps. proj. rewrite Ha.
    cbn [Bool.eqb negb]. msteps.
    eapply post_conseq; [apply timed_activation_tail_view|].
    intros r w' Hv. views. repeat split; congruence.
  - msteps. unfold set_activated at 1. msteps. proj. rewrite Ha.
    cbn [Bool.eqb negb]. msteps.
    eapply post_conseq; [apply timed_activation_tail_view|].
    intros r w' Hv. views. repeat split; congruence.
Qed.

(** X20.  Of several timed activations in a row on an activated object,
    only the first is announced: it sets the status string, which nothing
    clears while no toggle happens, and the later calls, finding the string
    set, emit nothing and leave the string of the first call in place. *)
Theorem X20_only_the_first_timed_activation_is_announced :
  forall time1 time2 note1 note2 env1 env2 w,
    inhibition_activated (self w) = true ->
    status_string (self w) = EmptyString ->
    let w1 := snd (timed_activation time1 note1 env1 w) in
    let w2 := snd (timed_activation time2 note2 env2 w1) in
    emits (trace w1) = emits (trace w) ++ [(true, "Activated for " +:+ str time1)] /\
    status_string (self w1) = "Activated for " +:+ str time1 /\
    emits (trace w2) = emits (trace w1) /\
    status_string (self w2) = "Activated for " +:+ str time1.
Proof.
  intros time1 time2 note1 note2 env1 env2 w Ha Hst. cbv zeta.
  pose proof (timed_activation_when_active time1 note1 env1 w Ha) as P1.
  unfold post in P1.
  destruct (timed_activation time1 note1 env1 w) as [r1 w1]. cbn [fst snd] in *.
  destruct P1 as (Ha1 & _ & _ & Hst1 & Hem1).
  pose proof (timed_activation_when_active time2 note2 env2 w1 Ha1) as P2.
  unfold post in P2.
  destruct (timed_activation time2 note2 env2 w1) as [r2 w2]. cbn [fst snd] in *.
  destruct P2 as (_ & _ & _ & Hst2 & Hem2).
  unfold announcement, gettext in *. rewrite Hst in *. cbn [String.eqb] in *.
  rewrite Ha in Hem1. rewrite Hst1 in Hst2, Hem2. cbn in Hst2, Hem2.
  rewrite app_nil_r in Hem2. auto.
Qed.

Lemma X20_witness :
  let w1 := snd (timed_activation 5 true env_plain manual_world) in
  let w2 := snd (timed_activation 10 true env_plain w1) in
  emits (trace w1) = emits (trace manual_world) ++ [(true, "Activated for " +:+ str 5)] /\
  status_string (self w1) = "Activated for " +:+ str 5 /\
  emits (trace w2) = emits (trace w1) /\
  status_string (self w2) = "Activated for " +:+ str 5.
Proof.
  apply (X20_only_the_first_timed_activation_is_announced
           5 10 true true env_plain env_plain manual_world);
    vm_compute; reflexivity.
Defined.

(** X21.  A timed activation requested while inhibition is auto-activated
    does not take it over: [set_activated(True)] finds the flag set and does
    nothing, so the auto-activated mark stays, and the next poll that finds
    no whitelisted process and no fullscreen window switches inhibition off
    and cancels the timer that was just started, long before it is due. *)
Theorem X21_timed_activation_does_not_outlive_auto_deactivation :
  forall time note env1 env2 w w1,
    inhibition_activated (self w) = true ->
    auto_activated (self w) = true ->
    timed_activation time note env1 w = (Ok tt, w1) ->
    any_process_running env2 = false ->
    query_fullscreen env2 = false ->
    let w2 := snd (__attempt_autoactivation env2 w1) in
    auto_activated (self w1) = true /\
    timer (self w1) = Some (length (timers w)) /\
    inhibition_activated (self w2) = false /\
    timer (self w2) = None /\
    timers w2 =
      cancel_pending w ++
      [{| interval := time; name := "Active"; args := note; finished := true |}].
Proof.
  intros time note env1 env2 w w1 Ha Hau H1 Hp Hf. cbv zeta.
  pose proof (timed_activation_when_active time note env1 w Ha) as P1.
  pose proof (timed_activation_timers time note env1 w) as Q1.
  unfold post in P1, Q1. rewrite H1 in P1, Q1. cbn [fst snd] in *.
  destruct P1 as (Ha1 & _ & Hau1 & _). rewrite Hau in Hau1.
  destruct (Q1 eq_refl) as (_ & Hti1 & Hts1).
  pose proof (poll_deactivates env2 w1 Ha1 Hau1 Hp Hf) as P2. unfold post in P2.
  destruct (__attempt_autoactivation env2 w1) as [r2 w2]. cbn [fst snd] in *.
  destruct P2 as (Ha2 & _ & Htv & _).
  assert (Hlen : length (cancel_pending w) = length (timers w)).
  { unfold cancel_pending. destruct (timer (self w)) as [i|]; [|reflexivity].
    destruct (timers w !! i); [|reflexivity]. apply length_insert. }
  unfold timers_after_toggle in Htv. rewrite Ha1, Hti1, Hts1 in Htv.
  rewrite list_lookup_middle in Htv by (symmetry; exact Hlen).
  cbn [name String.eqb Ascii.eqb Bool.eqb] in Htv.
  unfold tview in Htv. injection Htv as Hti2 Hts2.
  repeat split; auto.
  rewrite Hts2, <- Hlen, insert_app_r_alt by lia. rewrite Nat.sub_diag. reflexivity.
Qed.

Lemma X21_witness :
  let w1 := auto_timed_world in
  let w2 := snd (__attempt_autoactivation env_plain w1) in
  auto_activated (self w1) = true /\
  timer (self w1) = Some (length (timers auto_world)) /\
  inhibition_activated (self w2) = false /\
  timer (self w2) = None /\
  timers w2 =
    cancel_pending auto_world ++
    [{| interval := 5; name := "Active"; args := true; finished := true |}].
Proof.
  apply (X21_timed_activation_does_not_outlive_auto_deactivation
           5 true env_player env_plain auto_world auto_timed_world);
    vm_compute; reflexivity.
Defined.

(** ** Invariants of the flags *)

Lemma flags_step_refl w : flags_step w w.
Proof. left. auto. Qed.

Lemma flags_step_view w w0 w' :
  view w0 = view w -> flags_step w0 w' -> flags_step w w'.
Proof.
  unfold flags_step. intros Hv H. views. intuition congruence.
Qed.

Lemma flags_step_view_r w w1 w' :
  view w' = view w1 -> flags_step w w1 -> flags_step w w'.
Proof.
  unfold flags_step. intros Hv H. views. intuition congruence.
Qed.

Lemma set_activated_flags_step activate note env w :
  post (set_activated activate note) env w (fun r w' => flags_step w w').
Proof.
  unfold set_activated. mstep.
  destruct (negb (Bool.eqb (inhibition_activated (self w)) activate)); mstep.
  - eapply post_conseq; [apply toggle_activated_spec|].
    intros r w' [Hau _]. right; left. exact Hau.
  - apply flags_step_refl.
Qed.

Lemma Timer_run_flags_step i env w :
  post (Timer_run i) env w (fun r w' => flags_step w w').
Proof.
  unfold Timer_run. mstep.
  destruct (timers w !! i) as [t|]; [|mstep; apply flags_step_refl].
  destruct (negb (finished t)); [|mstep; apply flags_step_refl].
  mstep. unfold _deactivate. msteps.
  destruct (timer (self w)) as [j|].
  - call deref_spec. intros r w1 [-> Hd]. destruct r as [t'|e].
    + msteps. left. proj. auto.
    + apply flags_step_refl.
  - msteps. apply flags_step_refl.
Qed.

Lemma poll_flags_step env w :
  post __attempt_autoactivation env w (fun r w' => flags_step w w').
Proof.
  destruct (manually_activated w) eqn:Hg.
  - unfold __attempt_autoactivation. mstep.
    unfold manually_activated in Hg. rewrite Hg. msteps.
    left. proj. auto.
  - destruct (poll_unfold env w Hg) as (logs & Hl & Heq).
    cut (post (if auto_deactivation env w then deactivation_branch
               else if any_process_running env ||
                       query_fullscreen env && negb (auto_activated (self w))
                    then activation_branch else ret true)
              env (with_trace w logs) (fun r w' => flags_step w w')).
    { unfold post. rewrite Heq. auto. }
    destruct (auto_deactivation env w);
      [|destruct (any_process_running env || _)].
    + unfold deactivation_branch.
      call __set_activated_flag. intros r w1 [_ Hau]. proj.
      destruct r; msteps; right; left; exact Hau.
    + unfold activation_branch.
      call __set_activated_flag. intros r w1 [Ha _].
      destruct r; msteps; right; right; exact Ha.
    + mstep. left. proj. auto.
Qed.

Lemma run_op_flags_step op env w :
  post (run_op op) env w (fun r w' => flags_step w w').
Proof.
  destruct op as [n|a n|time n| |i|]; cbn [run_op].
  - eapply post_conseq; [apply toggle_activated_spec|].
    intros r w' [Hau _]. right; left. exact Hau.
  - apply set_activated_flags_step.
  - rewrite timed_activation_eq. msteps.
    assert (Hk : forall w0, view w0 = view w \/
                   (inhibition_activated (self w0) = inhibition_activated (self w) /\
                    auto_activated (self w0) = auto_activated (self w)) ->
      post (set_activated true n ;; timed_activation_tail time n) env w0
        (fun r w' => flags_step w w')).
    { intros w0 H0.
      assert (Hf : forall w1, flags_step w0 w1 -> flags_step w w1).
      { unfold flags_step. intros w1 H1.
        destruct H0 as [H0|[H0 H0']]; [views|]; intuition congruence. }
      eapply post_spec; [apply set_activated_flags_step|].
      intros r w1 H1. destruct r as [[]|e]; [|apply Hf, H1].
      eapply post_conseq; [apply timed_activation_tail_view|].
      cbv beta. intros r w' Hv. eapply flags_step_view_r; [exact Hv|]. apply Hf, H1. }
    proj. destruct (String.eqb (status_string (self w)) EmptyString).
    + msteps. apply Hk. right. proj. auto.
    + msteps. apply Hk. right. proj. auto.
  - eapply post_spec; [apply poll_flags_step|].
    intros r w1 H. destruct r; [mstep|]; exact H.
  - apply Timer_run_flags_step.
  - unfold quit. mstep. destruct (timer (self w)) as [i|].
    + eapply post_conseq; [apply Timer_cancel_spec|].
      intros r w' (_ & Hs & _). left. rewrite Hs. auto.
    + mstep. apply flags_step_refl.
Qed.

(** X22.  The auto-activated flag is set only while inhibition is
    activated: this holds of the fresh object and is kept by every entry
    (toggle, set, timed activation, poll, timer expiry, quit), whether the
    entry returns or raises, so it holds along every run. *)
Theorem X22_auto_activated_implies_activated :
  auto_implies_activated init_world /\
  forall ops w, auto_implies_activated w -> auto_implies_activated (run ops w).
Proof.
  split; [intros H; discriminate|].
  induction ops as [|[op env] rest IH]; intros w Hw; [exact Hw|].
  cbn [run]. apply IH.
  pose proof (run_op_flags_step op env w) as H. unfold post in H.
  unfold auto_implies_activated in *.
  destruct H as [[Ha Hau]|[Hau|Ha]]; intros H'.
  - rewrite Ha. apply Hw. congruence.
  - congruence.
  - exact Ha.
Qed.

Lemma X22_witness :
  auto_implies_activated
    (run [(OpPoll, env_player); (OpTimedActivation 5 true, env_gnome_down);
          (OpTimerExpiry 0, env_plain);
          (OpPoll, env_plain); (OpToggleActivated true, env_gnome_down)] init_world).
Proof.
  apply (proj2 X22_auto_activated_implies_activated).
  intros H. discriminate.
Defined.

(** ** The timer discipline *)

Lemma timers_ok_same w w' :
  inhibition_activated (self w') = inhibition_activated (self w) ->
  tview w' = tview w ->
  timers_ok w -> timers_ok w'.
Proof.
  unfold timers_ok, tview. intros Ha Htv. injection Htv as Hti Hts.
  rewrite Ha, Hti, Hts. auto.
Qed.

Lemma timers_ok_toggle w w' :
  timers_ok w ->
  inhibition_activated (self w') = negb (inhibition_activated (self w)) ->
  tview w' = timers_after_toggle w ->
  timers_ok w'.
Proof.
  unfold timers_ok, timers_after_toggle, tview. intros [HA HB] Ha Htv.
  destruct (inhibition_activated (self w)) eqn:Hact.
  - destruct (timer (self w)) as [i|] eqn:Hti.
    + destruct (HB i eq_refl) as (_ & t & Hd & Hn).
      rewrite Hd, Hn in Htv. cbn in Htv. injection Htv as Hti' Hts'.
      rewrite Hti', Hts'. split; [|discriminate].
      intros j t' Hj Hf. exfalso.
      destruct (decide (i = j)) as [->|Hne].
      * rewrite list_lookup_insert_eq in Hj by (eapply lookup_lt_Some; eauto).
        injection Hj as <-. discriminate.
      * rewrite list_lookup_insert_ne in Hj by exact Hne.
        destruct (HA j t' Hj Hf) as [Hc _]. congruence.
    + injection Htv as Hti' Hts'. rewrite Hti', Hts'. split; [|discriminate].
      intros j t' Hj Hf. destruct (HA j t' Hj Hf) as [Hc _]. discriminate.
  - injection Htv as Hti' Hts'. rewrite Ha, Hti', Hts'. split; [exact HA|].
    intros i Hi. destruct (HB i Hi) as (_ & H). auto.
Qed.

Lemma timers_ok_timed time note w w' :
  timers_ok w ->
  inhibition_activated (self w') = true ->
  timer (self w') = Some (length (timers w)) ->
  timers w' = cancel_pending w ++
    [{| interval := time; name := "Active"; args := note; finished := false |}] ->
  timers_ok w'.
Proof.
  unfold timers_ok. intros [HA HB] Ha Hti Hts.
  assert (Hlen : length (cancel_pending w) = length (timers w)).
  { unfold cancel_pending. destruct (timer (self w)) as [i|]; [|reflexivity].
    destruct (timers w !! i); [|reflexivity]. apply length_insert. }
  assert (Hold : forall j t, cancel_pending w !! j = Some t -> finished t = true).
  { intros j t Hj. destruct (finished t) eqn:Hf; [reflexivity|]. exfalso.
    unfold cancel_pending in Hj. destruct (timer (self w)) as [i|] eqn:Hi.
    - destruct (HB i eq_refl) as (_ & t0 & Hd & _). rewrite Hd in Hj.
      destruct (decide (i = j)) as [->|Hne].
      + rewrite list_lookup_insert_eq in Hj by (eapply lookup_lt_Some; eauto).
        injection Hj as <-. discriminate.
      + rewrite list_lookup_insert_ne in Hj by exact Hne.
        destruct (HA j t Hj Hf) as [Hc _]. congruence.
    - destruct (HA j t Hj Hf) as [Hc _]. discriminate. }
  rewrite Ha, Hti, Hts. split.
  - intros j t Hj Hf.
    destruct (decide (j < length (cancel_pending w))) as [Hlt|Hge].
    + rewrite lookup_app_l in Hj by exact Hlt.
      rewrite (Hold j t Hj) in Hf. discriminate.
    + rewrite lookup_app_r in Hj by lia.
      destruct (j - length (cancel_pending w)) as [|k] eqn:Hk; [|discriminate].
      injection Hj as <-. split; [|reflexivity]. f_equal. lia.
  - intros i Hi. injection Hi as <-. split; [reflexivity|].
    eexists. split; [apply list_lookup_middle; symmetry; exact Hlen|reflexivity].
Qed.

Lemma __set_activated_timers_ok activate env w :
  post (__set_activated activate) env w (fun r w' => timers_ok w -> timers_ok w').
Proof.
  unfold __set_activated. mstep.
  destruct (negb (Bool.eqb (inhibition_activated (self w)) activate)); msteps.
  - eapply post_conseq; [apply post_and;
      [apply __toggle_activated_spec|apply __toggle_activated_timers]|].
    cbv beta. intros r w' [(_ & Ha & _) Htv] Hw.
    eapply timers_ok_toggle; eauto.
  - auto.
Qed.

Lemma poll_timers_ok env w :
  post __attempt_autoactivation env w (fun r w' => timers_ok w -> timers_ok w').
Proof.
  destruct (manually_activated w) eqn:Hg.
  - unfold __attempt_autoactivation. mstep.
    unfold manually_activated in Hg. rewrite Hg. msteps.
    apply timers_ok_same; reflexivity.
  - destruct (poll_unfold env w Hg) as (logs & Hl & Heq).
    cut (post (if auto_deactivation env w then deactivation_branch
               else if any_process_running env ||
                       query_fullscreen env && negb (auto_activated (self w))
                    then activation_branch else ret true)
              env (with_trace w logs) (fun r w' => timers_ok w -> timers_ok w')).
    { unfold post. rewrite Heq. auto. }
    destruct (auto_deactivation env w);
      [|destruct (any_process_running env || _)].
    + unfold deactivation_branch.
      call __set_activated_timers_ok. intros r w1 H.
      destruct r; msteps; intros Hw; apply H; revert Hw;
        apply timers_ok_same; reflexivity.
    + unfold activation_branch.
      call __set_activated_timers_ok. intros r w1 H.
      destruct r; msteps; intros Hw; apply H; revert Hw;
        apply timers_ok_same; reflexivity.
    + mstep. apply timers_ok_same; reflexivity.
Qed.

Lemma Timer_run_timers_ok i env w :
  post (Timer_run i) env w (fun r w' => timers_ok w -> r = Ok tt -> timers_ok w').
Proof.
  unfold Timer_run. mstep.
  destruct (timers w !! i) as [t|] eqn:Hd; [|mstep; auto].
  destruct (finished t) eqn:Hfin; cbn [negb]; [msteps; auto|].
  mstep. unfold _deactivate. msteps.
  destruct (timer (self w)) as [j|] eqn:Hti.
  2:{ msteps. intros _ H. discriminate. }
  call deref_spec. intros r w1 [-> Hdj]. destruct r as [tj|e].
  2:{ intros _ H. discriminate. }
  msteps. intros _ H. discriminate.
Qed.

Lemma run_op_timers_ok op env w :
  timers_ok w -> fst (run_op op env w) = Ok tt -> timers_ok (snd (run_op op env w)).
Proof.
  cut (post (run_op op) env w (fun r w' => timers_ok w -> r = Ok tt -> timers_ok w')).
  { unfold post. auto. }
  destruct op as [n|a n|time n| |i|]; cbn [run_op].
  - eapply post_conseq; [apply toggle_activated_full|].
    intros r w' (_ & (Ha & _) & Htv) Hw _. eapply timers_ok_toggle; eauto.
  - unfold set_activated. mstep.
    destruct (negb (Bool.eqb (inhibition_activated (self w)) a)); msteps; [|auto].
    eapply post_conseq; [apply toggle_activated_full|].
    intros r w' (_ & (Ha & _) & Htv) Hw _. eapply timers_ok_toggle; eauto.
  - eapply post_conseq; [apply timed_activation_timers|].
    intros r w' H Hw Hr. destruct (H Hr) as (Ha & Hti & Hts).
    eapply timers_ok_timed; eauto.
  - eapply post_spec; [apply poll_timers_ok|].
    intros r w1 H. destruct r; [mstep; auto|]. intros _ Hr. discriminate.
  - apply Timer_run_timers_ok.
  - unfold quit. mstep. destruct (timer (self w)) as [i|] eqn:Hti; [|mstep; auto].
    eapply post_conseq; [apply Timer_cancel_spec|].
    intros r w' (_ & Hs & Hr) [HA HB] ->. destruct Hr as (t & Hd & Hts & _).
    unfold timers_ok. rewrite Hs, Hts. split.
    + intros j t' Hj Hf. exfalso.
      destruct (decide (i = j)) as [->|Hne].
      * rewrite list_lookup_insert_eq in Hj by (eapply lookup_lt_Some; eauto).
        injection Hj as <-. discriminate.
      * rewrite list_lookup_insert_ne in Hj by exact Hne.
        destruct (HA j t' Hj Hf) as [Hc _]. congruence.
    + intros i' Hi'. destruct (HB i' Hi') as (Hact & t' & Hd' & Hn).
      split; [exact Hact|]. assert (i' = i) by congruence. subst i'.
      assert (t' = t) by congruence. subst t'.
      exists (Timer_set_finished t). split; [|exact Hn].
      apply list_lookup_insert_eq. eapply lookup_lt_Some; eauto.
Qed.

Lemma run_timers_ok ops :
  forall w, timers_ok w -> all_complete ops w -> timers_ok (run ops w).
Proof.
  induction ops as [|[op env] rest IH]; intros w Hw Hall; [exact Hw|].
  cbn [run all_complete] in *. destruct Hall as [Hok Hall].
  apply IH; [|exact Hall]. apply run_op_timers_ok; assumption.
Qed.

(** X23.  The timer discipline.  Along a run in which every entry returns,
    starting from the fresh object (or from any object that keeps the
    discipline): at most one timer thread can still fire, it is the one
    [self.timer] refers to, no reference dangles, and a timer is pending
    only while inhibition is activated.  (The entries of such a run that are
    timer expiries are those of cancelled threads: the callback of a thread
    that was not cancelled raises.) *)
Theorem X23_at_most_one_timer_thread_can_fire :
  timers_ok init_world /\
  forall ops w,
    timers_ok w ->
    all_complete ops w ->
    let w' := run ops w in
    timers_ok w' /\
    (forall j1 j2 t1 t2,
       timers w' !! j1 = Some t1 -> finished t1 = false ->
       timers w' !! j2 = Some t2 -> finished t2 = false ->
       j1 = j2 /\ timer (self w') = Some j1) /\
    (forall i, timer (self w') = Some i ->
       inhibition_activated (self w') = true /\ is_Some (timers w' !! i)).
Proof.
  split.
  - split; [intros j t H; discriminate|intros i H; discriminate].
  - intros ops w Hw Hall. cbv zeta.
    pose proof (run_timers_ok ops w Hw Hall) as H. split; [exact H|].
    destruct H as [HA HB]. split.
    + intros j1 j2 t1 t2 H1 F1 H2 F2.
      destruct (HA j1 t1 H1 F1) as [E1 _]. destruct (HA j2 t2 H2 F2) as [E2 _].
      split; [congruence|exact E1].
    + intros i Hi. destruct (HB i Hi) as (Ha & t & Hd & _). split; [exact Ha|eauto].
Qed.

Lemma X23_witness :
  let w' := run [(OpTimedActivation 5 true, env_gnome);
                 (OpTimedActivation 10 false, env_plain);
                 (OpPoll, env_player);
                 (OpTimerExpiry 0, env_plain);
                 (OpToggleActivated true, env_plain);
                 (OpTimerExpiry 1, env_plain);
                 (OpTimedActivation 7 true, env_plain);
                 (OpQuit, env_plain)] init_world in
  timers_ok w' /\
  (forall j1 j2 t1 t2,
     timers w' !! j1 = Some t1 -> finished t1 = false ->
     timers w' !! j2 = Some t2 -> finished t2 = false ->
     j1 = j2 /\ timer (self w') = Some j1) /\
  (forall i, timer (self w') = Some i ->
     inhibition_activated (self w') = true /\ is_Some (timers w' !! i)).
Proof.
  apply (proj2 X23_at_most_one_timer_thread_can_fire).
  - apply (proj1 X23_at_most_one_timer_thread_can_fire).
  - vm_compute. repeat split.
Defined.

(** ** How a timed activation ends *)

Lemma grows_refl w : grows w w.
Proof. split; [exists []; rewrite app_nil_r|]; reflexivity. Qed.

Lemma grows_trans w1 w2 w3 : grows w1 w2 -> grows w2 w3 -> grows w1 w3.
Proof.
  intros [[m1 H1] N1] [[m2 H2] N2]. split; [|congruence].
  exists (m1 ++ m2). rewrite H2, H1, app_assoc. reflexivity.
Qed.

Lemma _performTogglingActions_grows env w :
  post _performTogglingActions env w (fun r w' => grows w w').
Proof.
  destruct w as [[] ts tr]. unfold grows. unfold_perform.
  destruct (detected_type_cases env) as [H|[H|[H|H]]]; rewrite H;
    crunch; rewrite <- ?app_assoc; (split; [eexists; reflexivity|reflexivity]).
Qed.

Lemma _notify_note message icon env w :
  post (_notify message icon) env w (fun r w' =>
    (exists more, trace w' = trace w ++ more) /\
    note (self w') = Some ("Caffeine", message, icon)).
Proof.
  destruct w as [[] ts tr]. unfold _notify. unfold_monad.
  crunch; rewrite <- ?app_assoc; (split; [eexists; reflexivity|reflexivity]).
Qed.

Lemma __toggle_activated_ending show env w i t :
  inhibition_activated (self w) = true ->
  timer (self w) = Some i ->
  timers w !! i = Some t ->
  post (__toggle_activated show) env w (fun r w' =>
    (exists rest,
       trace w' = trace w ++
         [Log INFO "Caffeine is now dormant; powersaving is re-enabled";
          Log INFO (ending_log t)] ++ rest) /\
    note (self w') =
      if show then Some ("Caffeine", ending_message t, empty_cup_icon)
      else note (self w)).
Proof.
  intros Hact Htimer Hd. unfold __toggle_activated.
  lazymatch goal with
  | |- post (bind get_self (fun c => bind _ ?rest)) _ _ _ => set (tail := rest)
  end.
  assert (Htail : forall w1, post (tail tt) env w1 (fun r w' => grows w1 w')).
  { intros w1. subst tail. cbv beta.
    eapply post_spec; [apply _performTogglingActions_grows|].
    intros r w2 Hg. destruct r as [[]|e]; [|exact Hg].
    msteps.
    destruct (String.eqb (status_string (self w2)) EmptyString);
      [destruct (screensaverAndPowersavingType (self w2))|]; msteps;
      (eapply grows_trans; [exact Hg|]); unfold grows; proj;
      rewrite <- ?app_assoc; (split; [eexists; reflexivity|reflexivity]). }
  clearbody tail. mstep. rewrite Hact. msteps. proj. rewrite Htimer.
  call deref_spec. intros r w1 [-> Hd1]. proj. rewrite Hd in Hd1.
  destruct r as [t1|e]; [|discriminate].
  assert (t1 = t) by congruence. subst t1.
  unfold ending_log, ending_message.
  destruct (String.eqb (name t) "Expired"); cbn [negb].
  - msteps. destruct show.
    + call _notify_note. intros r w1 ([more Hm] & Hn).
      destruct r as [b|e].
      * msteps. eapply post_conseq; [apply Htail|].
        intros r w2 [[more2 Hm2] Hn2]. proj. split.
        -- exists (more ++ more2). rewrite Hm2, Hm. proj. rewrite <- !app_assoc.
           reflexivity.
        -- rewrite Hn2. exact Hn.
      * split; [|exact Hn]. exists more. rewrite Hm. proj. rewrite <- !app_assoc.
        reflexivity.
    + msteps. eapply post_conseq; [apply Htail|].
      intros r w2 [[more2 Hm2] Hn2]. proj. split.
      * exists more2. rewrite Hm2. rewrite <- !app_assoc. reflexivity.
      * exact Hn2.
  - msteps. destruct show.
    + call _notify_note. intros r w1 ([more Hm] & Hn).
      destruct r as [b|e].
      2:{ split; [|exact Hn]. exists more. rewrite Hm. proj. rewrite <- !app_assoc.
          reflexivity. }
      call Timer_cancel_spec. intros r w2 (_ & Hs2 & Hr2).
      destruct r as [[]|e].
      * destruct Hr2 as (_ & _ & _ & Htr2).
        msteps. eapply post_conseq; [apply Htail|].
        intros r w3 [[more3 Hm3] Hn3]. proj. split.
        -- exists (more ++ [TimerCancel i] ++ more3).
           rewrite Hm3, Htr2, Hm. proj. rewrite <- !app_assoc. reflexivity.
        -- rewrite Hn3, Hs2. exact Hn.
      * destruct Hr2 as [_ ->]. split; [|exact Hn].
        exists more. rewrite Hm. proj. rewrite <- !app_assoc. reflexivity.
    + call Timer_cancel_spec. intros r w2 (_ & Hs2 & Hr2).
      destruct r as [[]|e].
      * destruct Hr2 as (_ & _ & _ & Htr2).
        msteps. eapply post_conseq; [apply Htail|].
        intros r w3 [[more3 Hm3] Hn3]. proj. split.
        -- exists ([TimerCancel i] ++ more3).
           rewrite Hm3, Htr2. proj. rewrite <- !app_assoc. reflexivity.
        -- rewrite Hn3, Hs2. reflexivity.
      * destruct Hr2 as [_ ->]. proj. split; [|reflexivity].
        exists []. rewrite <- !app_assoc. reflexivity.
Qed.

(** X24.  A deactivating toggle with a timer pending says how the timed
    activation ended.  Right after the "dormant" line it logs "Timed
    activation cancelled (was set for ..)" when the timer was still running
    (a switch-off by the user or by the poll), and "Timed activation period
    (..) has elapsed" when the callback of the timer has named its thread
    "Expired"; when notifications are asked for, the note it prepares carries the
    matching message and the empty-cup icon, otherwise the note is left as
    it was. *)
Theorem X24_cancelled_and_elapsed_are_told_apart :
  forall show env w i t,
    inhibition_activated (self w) = true ->
    timer (self w) = Some i ->
    timers w !! i = Some t ->
    let w' := snd (toggle_activated show env w) in
    (exists rest,
       trace w' = trace w ++
         [Log INFO "Caffeine is now dormant; powersaving is re-enabled";
          Log INFO (ending_log t)] ++ rest) /\
    note (self w') =
      (if show then Some ("Caffeine", ending_message t, empty_cup_icon)
       else note (self w)).
Proof.
  intros show env w i t Ha Hti Hd. cbv zeta.
  cut (post (toggle_activated show) env w (fun r w' =>
    (exists rest,
       trace w' = trace w ++
         [Log INFO "Caffeine is now dormant; powersaving is re-enabled";
          Log INFO (ending_log t)] ++ rest) /\
    note (self w') =
      if show then Some ("Caffeine", ending_message t, empty_cup_icon)
      else note (self w))).
  { unfold post. auto. }
  unfold toggle_activated. mstep.
  eapply post_conseq; [apply (__toggle_activated_ending show env _ i t); proj; auto|].
  cbv beta. proj. auto.
Qed.

Lemma X24_witness :
  let w' := snd (toggle_activated true env_plain timed_world) in
  (exists rest,
     trace w' = trace timed_world ++
       [Log INFO "Caffeine is now dormant; powersaving is re-enabled";
        Log INFO "Timed activation cancelled (was set for 5)"] ++ rest) /\
  note (self w') =
    Some ("Caffeine", "Timed activation cancelled (was set for 5)", empty_cup_icon).
Proof.
  apply (X24_cancelled_and_elapsed_are_told_apart true env_plain timed_world 0
           {| interval := 5; name := "Active"; args := true; finished := false |});
    vm_compute; reflexivity.
Defined.
